(** * WellnessBot: validated input, derived metrics and recommendation rules

    A shallow embedding of [CMPSC30_WellAss_RichardWong.cpp].

    - Strings are [string]; [::tolower] is the C-locale mapping on bytes.
    - [int] values are [Z] (the program only compares them and converts them
      to [double]; it never does arithmetic on them).
    - [double] is an interface [Double] with two instances: [binary64]
      (Rocq's primitive IEEE 754 floats, the arithmetic the compiled program
      runs) and [exact] (the rationals [Q], the arithmetic over the reals in
      which the closed-form equations are usually read).  The library's
      [std::pow] is an operation of the interface: [binary64_with] builds
      the binary64 instance from an implementation of it.
    - The interactive loops read from the list of entries typed at their
      prompt; text written to [cout] is a list of tokens. *)

From Stdlib Require Import Bool List ZArith QArith Qabs Qpower Lia Lqa String Ascii.
From Stdlib Require Import Floats.
Import ListNotations.

Set Implicit Arguments.

(** ** Strings *)

Module Str.

(** [::tolower] in the "C" locale: 'A'..'Z' are moved to 'a'..'z', every
    other byte is left as it is. *)
Definition tolower (c : ascii) : ascii :=
  let n := N_of_ascii c in
  if (65 <=? n)%N && (n <=? 90)%N then ascii_of_N (n + 32) else c.

(** [std::transform(s.begin(), s.end(), s.begin(), f)]. *)
Fixpoint transform (f : ascii -> ascii) (s : string) : string :=
  match s with
  | EmptyString => EmptyString
  | String c rest => String (f c) (transform f rest)
  end.

Definition lowercase (s : string) : string := transform tolower s.

End Str.

(** ** Input validation functions *)

Definition isValidGender (gender : string) : bool :=
  let lower := Str.lowercase gender in
  (lower =? "male")%string || (lower =? "female")%string.

Definition isValidActivityLevel (level : string) : bool :=
  let lower := Str.lowercase level in
  (lower =? "sedentary")%string || (lower =? "lightly active")%string ||
  (lower =? "moderately active")%string || (lower =? "very active")%string.

Definition isValidLifestyle (lifestyle : string) : bool :=
  let lower := Str.lowercase lifestyle in
  (lower =? "smoking")%string || (lower =? "alcohol")%string ||
  (lower =? "none")%string.

Definition isValidDietaryPref (pref : string) : bool :=
  let lower := Str.lowercase pref in
  (lower =? "vegetarian")%string || (lower =? "vegan")%string ||
  (lower =? "none")%string.

(** ** Comparable values: the [T] of [getValidInput<T>] *)

Class Cmp (T : Type) : Type := {
  leb : T -> T -> bool;
  ltb : T -> T -> bool
}.

(** C++ [a >= b] on the built-in types. *)
Definition geb {T} `{Cmp T} (a b : T) : bool := leb b a.

#[export] Instance Cmp_int : Cmp Z := {| leb := Z.leb; ltb := Z.ltb |}.

(** ** The retry loops

    [cin] is the list of entries typed at the prompt.  For [getValidInput] an
    entry is what [cin >> value] extracted, [None] when the extraction failed
    (the loop then clears the stream and drops the line).  A loop that runs
    out of entries has no result: the program keeps prompting. *)

Section Loops.
Context {T : Type} `{Cmp T}.

(** The test of line 74: [cin >> value && value >= min && value <= max]. *)
Definition inRange (min_value max_value : T) (entry : option T) : bool :=
  match entry with
  | Some value => geb value min_value && leb value max_value
  | None => false
  end.

Fixpoint getValidInput (min_value max_value : T) (cin : list (option T))
  : option (T * list (option T)) :=
  match cin with
  | [] => None
  | entry :: rest =>
      match entry with
      | Some value =>
          if geb value min_value && leb value max_value
          then Some (value, rest)
          else getValidInput min_value max_value rest
      | None => getValidInput min_value max_value rest
      end
  end.

End Loops.

Fixpoint getValidStringInput (validationFunc : string -> bool)
  (cin : list string) : option (string * list string) :=
  match cin with
  | [] => None
  | input :: rest =>
      if validationFunc input
      then Some (Str.transform Str.tolower input, rest)
      else getValidStringInput validationFunc rest
  end.

(** ** What the retry loops write to [cout]

    The two loops again, this time with the text they send to [cout] beside
    their result.  When the entries run out the last prompt has been
    written and the loop is waiting. *)

Section LoopsCout.
Context {T : Type} `{Cmp T}.

(** What is sent to [cout]: a string (without its final newline), a value
    of the type of the bounds, a newline character, [endl]. *)
Inductive shown : Type :=
| Text (s : string)
| Value (x : T)
| Newline
| Endl.

(** Lines 77-78. *)
Definition invalidInput (min_value max_value : T) : list shown :=
  [ Text "Invalid input. Please enter a value between "; Value min_value;
    Text " and "; Value max_value; Endl ].

Fixpoint getValidInput_cout (prompt : string) (min_value max_value : T)
  (cin : list (option T)) : list shown * option (T * list (option T)) :=
  match cin with
  | [] => ([Text prompt], None)
  | entry :: rest =>
      match entry with
      | Some value =>
          if geb value min_value && leb value max_value
          then ([Text prompt], Some (value, rest))
          else
            let (out, result) :=
              getValidInput_cout prompt min_value max_value rest in
            (Text prompt :: invalidInput min_value max_value ++ out, result)
      | None =>
          let (out, result) :=
            getValidInput_cout prompt min_value max_value rest in
          (Text prompt :: invalidInput min_value max_value ++ out, result)
      end
  end.

(** Line 95. *)
Definition tryAgain : list shown :=
  [ Text "Invalid input. Please try again."; Newline ].

Fixpoint getValidStringInput_cout (prompt : string)
  (validationFunc : string -> bool) (cin : list string)
  : list shown * option (string * list string) :=
  match cin with
  | [] => ([Text prompt], None)
  | input :: rest =>
      if validationFunc input
      then ([Text prompt], Some (Str.transform Str.tolower input, rest))
      else
        let (out, result) :=
          getValidStringInput_cout prompt validationFunc rest in
        (Text prompt :: tryAgain ++ out, result)
  end.

End LoopsCout.

(** ** The arithmetic of [double] *)

Class Double (T : Type) : Type := {
  Double_Cmp :: Cmp T;
  add : T -> T -> T;
  sub : T -> T -> T;
  mul : T -> T -> T;
  div : T -> T -> T;
  (** [std::pow(x, n)] with an integer exponent *)
  pow : T -> Z -> T;
  (** the value of a decimal literal of the source, such as [88.362] *)
  lit : Q -> T;
  (** the conversion of an [int] operand to [double] *)
  ofint : Z -> T
}.

Arguments lit {T _} _%_Q.

Declare Scope dbl_scope.
Delimit Scope dbl_scope with D.
Infix "+" := add : dbl_scope.
Infix "-" := sub : dbl_scope.
Infix "*" := mul : dbl_scope.
Infix "/" := div : dbl_scope.
Infix "<?" := ltb : dbl_scope.
Infix "<=?" := leb : dbl_scope.
Infix ">=?" := geb (at level 70) : dbl_scope.

(** IEEE 754 binary64, round to nearest even: each operation of the source
    is rounded on its own, in the order the source writes them (no fused
    multiply-add, no wider intermediate format). *)
Module Binary64.

(** Exact for every [int]: 32-bit integers fit the 53-bit significand. *)
Definition int_to_double (z : Z) : float :=
  match z with
  | Zneg p => PrimFloat.opp (PrimFloat.of_uint63 (Uint63.of_Z (Zpos p)))
  | _ => PrimFloat.of_uint63 (Uint63.of_Z z)
  end.

(** A decimal literal [n / 10^k] denotes the double nearest to it, which is
    the correctly rounded quotient of the two integers (both exact). *)
Definition literal (q : Q) : float :=
  PrimFloat.div (int_to_double (Qnum q)) (int_to_double (Zpos (Qden q))).

#[export] Instance Cmp_binary64 : Cmp float :=
  {| leb := PrimFloat.leb; ltb := PrimFloat.ltb |}.

(** binary64 with a given implementation of [std::pow]. *)
Definition binary64_with (libm_pow : float -> Z -> float) : Double float := {|
  add := PrimFloat.add;
  sub := PrimFloat.sub;
  mul := PrimFloat.mul;
  div := PrimFloat.div;
  pow := libm_pow;
  lit := literal;
  ofint := int_to_double
|}.

(** The power as repeated products, each rounded: for the exponent 2 this
    is [x * x], the correctly rounded square, which is what a compiler
    makes of [pow(x, 2)] when it optimises and what a correctly rounded
    library returns. *)
Definition repeated_product (x : float) (n : Z) : float :=
  match n with
  | Z0 => 1%float
  | Zpos p => Pos.iter_op PrimFloat.mul p x
  | Zneg p => PrimFloat.div 1 (Pos.iter_op PrimFloat.mul p x)
  end.

#[export] Instance binary64 : Double float := binary64_with repeated_product.

(** A power of two as a rational. *)
Definition pw (e : Z) : Q := Qpower 2 e.

(** The rational a spec float stands for (0 for infinities and NaN). *)
Definition SF2Q (x : spec_float) : Q :=
  match x with
  | S754_finite s m e =>
      let v := (inject_Z (Zpos m) * pw e)%Q in
      if s then Qopp v else v
  | _ => 0%Q
  end.

Definition toQ (x : float) : Q := SF2Q (Prim2SF x).

(** C's [isnan], and "finite and not zero", on the specification side. *)
Definition SFis_nan (x : spec_float) : bool :=
  match x with S754_nan => true | _ => false end.

Definition SFis_finite_nonzero (x : spec_float) : bool :=
  match x with S754_finite _ _ _ => true | _ => false end.

Definition isnan (x : float) : bool := SFis_nan (Prim2SF x).

Definition is_finite_nonzero (x : float) : bool :=
  SFis_finite_nonzero (Prim2SF x).

(** C's [isfinite]: neither NaN nor infinite. *)
Definition SFis_finite (x : spec_float) : bool :=
  match x with S754_zero _ | S754_finite _ _ _ => true | _ => false end.

Definition isfinite (x : float) : bool := SFis_finite (Prim2SF x).

(** What the libraries promise of [pow]: a result within one unit in the
    last place, that is within [2^-52] of the exact power, relatively.
    Here for the exponent 2 and a base between 2^-300 and 2^300. *)
Definition faithful_square (libm_pow : float -> Z -> float) : Prop :=
  forall h : float,
    PrimFloat.leb 0x1p-300 h = true -> PrimFloat.leb h 0x1p+300 = true ->
    (Qabs (toQ (libm_pow h 2%Z) - toQ h * toQ h) * inject_Z (2 ^ 52)
     <= toQ h * toQ h)%Q.

(** A double that is zero, or of a magnitude between 2^-300 and 2^300. *)
Definition moderate (c : float) : Prop :=
  PrimFloat.eqb c 0 = true \/
  (PrimFloat.leb 0x1p-300 c = true /\ PrimFloat.leb c 0x1p+300 = true) \/
  (PrimFloat.leb (-0x1p+300) c = true /\ PrimFloat.leb c (-0x1p-300) = true).

End Binary64.

(** Exact rational arithmetic: the reading of [double] as a real number. *)
Module Exact.

#[export] Instance Cmp_exact : Cmp Q :=
  {| leb := Qle_bool; ltb := fun a b => negb (Qle_bool b a) |}.

#[export] Instance exact : Double Q := {|
  add := Qplus;
  sub := Qminus;
  mul := Qmult;
  div := Qdiv;
  pow := Qpower;
  lit := fun q => q;
  ofint := inject_Z
|}.

End Exact.

Export Binary64 Exact.

(** ** The program *)

Section WellnessBot.
Context {T : Type} {D : Double T}.

Local Open Scope dbl_scope.

(** *** Constants for calculations *)

Record ActivityMultiplier : Type := {
  level : string;
  multiplier : T
}.

Definition ACTIVITY_MULTIPLIERS : list ActivityMultiplier := [
  {| level := "sedentary"; multiplier := lit 1.2 |};
  {| level := "lightly active"; multiplier := lit 1.375 |};
  {| level := "moderately active"; multiplier := lit 1.55 |};
  {| level := "very active"; multiplier := lit 1.725 |}
].

Record MacroRatio : Type := {
  carbs : T;
  protein : T;
  fats : T
}.

(** The default member initialisers of [MacroRatio]. *)
Definition MacroRatio_default : MacroRatio :=
  {| carbs := lit 0.5; protein := lit 0.2; fats := lit 0.3 |}.

Definition CALORIES_PER_GRAM_PROTEIN : T := lit 4.0.
Definition CALORIES_PER_GRAM_CARBS : T := lit 4.0.
Definition CALORIES_PER_GRAM_FAT : T := lit 9.0.

Record BMIThresholds : Type := {
  underweight : T;
  normal : T;
  overweight : T
}.

Definition bmiThresholds : BMIThresholds :=
  {| underweight := lit 18.5; normal := lit 24.9; overweight := lit 29.9 |}.

(** *** The profile

    The three calculated members have no initialiser: they hold no value
    ([None]) until [calculateMetrics] assigns them. *)

Record UserProfile : Type := {
  age : Z;
  gender : string;
  height : T;
  weight : T;
  activityLevel : string;
  sleepHours : Z;
  lifestyle : string;
  dietaryPref : string;
  bmi : option T;
  bmr : option T;
  dailyCalories : option T
}.

Definition set_bmi (p : UserProfile) (v : option T) : UserProfile :=
  {| age := age p; gender := gender p; height := height p;
     weight := weight p; activityLevel := activityLevel p;
     sleepHours := sleepHours p; lifestyle := lifestyle p;
     dietaryPref := dietaryPref p;
     bmi := v; bmr := bmr p; dailyCalories := dailyCalories p |}.

Definition set_bmr (p : UserProfile) (v : option T) : UserProfile :=
  {| age := age p; gender := gender p; height := height p;
     weight := weight p; activityLevel := activityLevel p;
     sleepHours := sleepHours p; lifestyle := lifestyle p;
     dietaryPref := dietaryPref p;
     bmi := bmi p; bmr := v; dailyCalories := dailyCalories p |}.

Definition set_dailyCalories (p : UserProfile) (v : option T) : UserProfile :=
  {| age := age p; gender := gender p; height := height p;
     weight := weight p; activityLevel := activityLevel p;
     sleepHours := sleepHours p; lifestyle := lifestyle p;
     dietaryPref := dietaryPref p;
     bmi := bmi p; bmr := bmr p; dailyCalories := v |}.

Definition set_activityLevel (p : UserProfile) (v : string) : UserProfile :=
  {| age := age p; gender := gender p; height := height p;
     weight := weight p; activityLevel := v;
     sleepHours := sleepHours p; lifestyle := lifestyle p;
     dietaryPref := dietaryPref p;
     bmi := bmi p; bmr := bmr p; dailyCalories := dailyCalories p |}.

(** *** collectUserData

    One list of entries per prompt, in the order of the prompts. *)

Record Entries : Type := {
  ageEntries : list (option Z);
  genderEntries : list string;
  heightEntries : list (option T);
  weightEntries : list (option T);
  activityLevelEntries : list string;
  sleepHoursEntries : list (option Z);
  lifestyleEntries : list string;
  dietaryPrefEntries : list string
}.

Definition bind {A B : Type} (x : option A) (f : A -> option B) : option B :=
  match x with Some a => f a | None => None end.

Local Notation "x <- e ;; k" := (bind e (fun x => k))
  (at level 61, e at next level, right associativity).

Definition collectUserData (cin : Entries) : option UserProfile :=
  a <- getValidInput 1%Z 120%Z (ageEntries cin) ;;
  g <- getValidStringInput isValidGender (genderEntries cin) ;;
  h <- getValidInput (lit 0.5) (lit 2.5) (heightEntries cin) ;;
  w <- getValidInput (lit 20.0) (lit 300.0) (weightEntries cin) ;;
  l <- getValidStringInput isValidActivityLevel (activityLevelEntries cin) ;;
  s <- getValidInput 0%Z 24%Z (sleepHoursEntries cin) ;;
  ls <- getValidStringInput isValidLifestyle (lifestyleEntries cin) ;;
  d <- getValidStringInput isValidDietaryPref (dietaryPrefEntries cin) ;;
  Some {| age := fst a; gender := fst g; height := fst h; weight := fst w;
          activityLevel := fst l; sleepHours := fst s; lifestyle := fst ls;
          dietaryPref := fst d;
          bmi := None; bmr := None; dailyCalories := None |}.

(** *** calculateMetrics *)

(** The loop of lines 163-168 over the remaining table entries: the first
    entry whose level equals [profile.activityLevel] assigns
    [dailyCalories] from the stored [bmr] and breaks. *)
Fixpoint assignDailyCalories (table : list ActivityMultiplier)
  (profile : UserProfile) : UserProfile :=
  match table with
  | [] => profile
  | activity :: rest =>
      if (level activity =? activityLevel profile)%string
      then set_dailyCalories profile
             (option_map (fun b => b * multiplier activity) (bmr profile))
      else assignDailyCalories rest profile
  end.

Definition bmr_male (profile : UserProfile) : T :=
  lit 88.362 + (lit 13.397 * weight profile) +
  (lit 4.799 * height profile * ofint 100) - (lit 5.677 * ofint (age profile)).

Definition bmr_female (profile : UserProfile) : T :=
  lit 447.593 + (lit 9.247 * weight profile) +
  (lit 3.098 * height profile * ofint 100) - (lit 4.330 * ofint (age profile)).

(** The [bmr] that the test of line 154 selects. *)
Definition selected_bmr (profile : UserProfile) : T :=
  if (gender profile =? "male")%string
  then bmr_male profile else bmr_female profile.

Definition calculateMetrics (profile : UserProfile) : UserProfile :=
  let profile :=
    set_bmi profile (Some (weight profile / pow (height profile) 2%Z)) in
  let profile :=
    if (gender profile =? "male")%string
    then set_bmr profile (Some (bmr_male profile))
    else set_bmr profile (Some (bmr_female profile)) in
  assignDailyCalories ACTIVITY_MULTIPLIERS profile.

(** *** Output

    What the program sends to [cout], in order: string literals (split at
    their newlines), newlines, formatting manipulators and doubles. *)

Inductive token : Type :=
| Str (s : string)
| NL
| Fixed
| SetPrecision (n : nat)
| Dbl (x : T).

(** *** displayResults *)

(** The category line, lines 176-183. *)
Definition bmiCategory (bmi : T) : string :=
  if bmi <? underweight bmiThresholds then "Category: Underweight"
  else if bmi <? normal bmiThresholds then "Category: Normal weight"
  else if bmi <? overweight bmiThresholds then "Category: Overweight"
  else "Category: Obese".

(** The three gram values, lines 193-198. *)
Definition carbsGrams (macros : MacroRatio) (dailyCalories : T) : T :=
  dailyCalories * carbs macros / CALORIES_PER_GRAM_CARBS.

Definition proteinGrams (macros : MacroRatio) (dailyCalories : T) : T :=
  dailyCalories * protein macros / CALORIES_PER_GRAM_PROTEIN.

Definition fatGrams (macros : MacroRatio) (dailyCalories : T) : T :=
  dailyCalories * fats macros / CALORIES_PER_GRAM_FAT.

(** *** provideRecommendations *)

Definition lowImpactBlock : list token := [
  Str "- Start with low-impact activities like walking or swimming"; NL;
  Str "- Aim for 150 minutes of moderate activity per week"; NL;
  Str "- Include strength training 2-3 times per week"; NL ].

Definition balancedRoutineBlock : list token := [
  Str "- Maintain a balanced exercise routine"; NL;
  Str "- Mix cardio with strength training"; NL;
  Str "- Consider adding flexibility exercises"; NL ].

Definition exerciseRecommendations (bmi : T) : list token :=
  if bmi >=? normal bmiThresholds then lowImpactBlock
  else balancedRoutineBlock.

Definition sleepRecommendations (sleepHours : Z) : list token :=
  if (sleepHours <? 7)%Z
  then [ Str "- Aim to increase sleep to 7-8 hours per night"; NL;
         Str "- Establish a regular sleep schedule"; NL;
         Str "- Create a relaxing bedtime routine"; NL ]
  else [ Str "- Maintain your good sleep habits"; NL;
         Str "- Consider sleep quality improvements"; NL ].

Definition nutritionalRecommendations (dietaryPref : string) : list token :=
  if (dietaryPref =? "vegetarian")%string
  then [ Str "- Focus on complete protein sources (eggs, dairy, legumes)"; NL;
         Str "- Monitor B12 and iron intake"; NL ]
  else if (dietaryPref =? "vegan")%string
  then [ Str "- Ensure adequate B12 supplementation"; NL;
         Str "- Combine protein sources for complete amino acids"; NL;
         Str "- Monitor iron, calcium, and vitamin D intake"; NL ]
  else [ Str "- Choose lean protein sources"; NL;
         Str "- Include a variety of colorful vegetables"; NL;
         Str "- Limit processed foods"; NL ].

Definition lifestyleRecommendations (lifestyle : string) : list token :=
  if negb (lifestyle =? "none")%string
  then [ NL; Str "Lifestyle Recommendations:"; NL ] ++
       (if (lifestyle =? "smoking")%string
        then [ Str "- Consider smoking cessation programs"; NL;
               Str "- Consult healthcare provider about cessation aids"; NL ]
        else if (lifestyle =? "alcohol")%string
        then [ Str "- Limit alcohol consumption"; NL;
               Str "- Consider alcohol-free days"; NL;
               Str "- Stay hydrated"; NL ]
        else [])
  else [].

(** Reading a calculated member that was never assigned has no defined
    outcome: the result is [None]. *)
Definition provideRecommendations (profile : UserProfile)
  : option (list token) :=
  b <- bmi profile ;;
  Some ([ NL; Str "=== Personalized Recommendations ==="; NL;
          NL; Str "Exercise Recommendations:"; NL ] ++
        exerciseRecommendations b ++
        [ NL; Str "Sleep Recommendations:"; NL ] ++
        sleepRecommendations (sleepHours profile) ++
        [ NL; Str "Nutritional Recommendations:"; NL ] ++
        nutritionalRecommendations (dietaryPref profile) ++
        lifestyleRecommendations (lifestyle profile)).

Definition displayResults (profile : UserProfile) : option (list token) :=
  b <- bmi profile ;;
  r <- bmr profile ;;
  c <- dailyCalories profile ;;
  recs <- provideRecommendations profile ;;
  let macros := MacroRatio_default in
  Some ([ NL; Str "=== Wellness Assessment Results ==="; NL; NL;
          Str "BMI: "; Fixed; SetPrecision 2; Dbl b; Str " - ";
          Str (bmiCategory b); NL;
          NL; Str "BMR: "; Fixed; SetPrecision 2; Dbl r;
          Str " calories/day"; NL;
          Str "Daily Caloric Needs: "; Dbl c; Str " calories"; NL;
          NL; Str "Recommended Macronutrient Distribution:";
          NL; Str "  - Carbohydrates: "; Dbl (carbsGrams macros c);
          Str " grams";
          NL; Str "  - Protein: "; Dbl (proteinGrams macros c);
          Str " grams";
          NL; Str "  - Fats: "; Dbl (fatGrams macros c); Str " grams"; NL ]
        ++ recs).

(** *** main: one session

    Everything a session sends to [cout], in order: what [main] and
    [displayResults] write themselves, and in between what the eight loops
    of [collectUserData] write. *)

Inductive written : Type :=
| Cout (t : token)
| Prompted_int (s : shown (T:=Z))
| Prompted (s : shown (T:=T)).

(** Output so far, and the result when there is one. *)
Definition bind_cout {A B : Type} (x : list written * option A)
  (f : A -> list written * option B) : list written * option B :=
  match snd x with
  | Some a => let (out, result) := f a in (fst x ++ out, result)
  | None => (fst x, None)
  end.

Local Notation "x <~ e ;; k" := (bind_cout e (fun x => k))
  (at level 61, e at next level, right associativity).

Definition asked_int {A : Type} (x : list (shown (T:=Z)) * option A)
  : list written * option A :=
  (map Prompted_int (fst x), snd x).

Definition asked {A : Type} (x : list (shown (T:=T)) * option A)
  : list written * option A :=
  (map Prompted (fst x), snd x).

(** [collectUserData] with the prompts and refusals it writes. *)
Definition collectUserData_cout (cin : Entries)
  : list written * option UserProfile :=
  a <~ asked_int (getValidInput_cout "Enter your age: " 1%Z 120%Z
                    (ageEntries cin)) ;;
  g <~ asked (getValidStringInput_cout "Enter your gender (male/female): "
                isValidGender (genderEntries cin)) ;;
  h <~ asked (getValidInput_cout "Enter your height (in meters): "
                (lit 0.5) (lit 2.5) (heightEntries cin)) ;;
  w <~ asked (getValidInput_cout "Enter your weight (in kg): "
                (lit 20.0) (lit 300.0) (weightEntries cin)) ;;
  l <~ asked (getValidStringInput_cout
                "Enter your activity level (sedentary, lightly active, moderately active, very active): "
                isValidActivityLevel (activityLevelEntries cin)) ;;
  s <~ asked_int (getValidInput_cout "Enter your hours of sleep per night: "
                    0%Z 24%Z (sleepHoursEntries cin)) ;;
  ls <~ asked (getValidStringInput_cout
                 "Enter your lifestyle habits (smoking, alcohol, none): "
                 isValidLifestyle (lifestyleEntries cin)) ;;
  d <~ asked (getValidStringInput_cout
                "Enter your dietary preferences (vegetarian, vegan, none): "
                isValidDietaryPref (dietaryPrefEntries cin)) ;;
  ([], Some {| age := fst a; gender := fst g; height := fst h;
               weight := fst w; activityLevel := fst l; sleepHours := fst s;
               lifestyle := fst ls; dietaryPref := fst d;
               bmi := None; bmr := None; dailyCalories := None |}).

(** The output of [main] and, when it returns, its exit status.  Nothing
    in the program throws, so the handler of lines 271-274 never runs. *)
Definition main (cin : Entries) : list written * option Z :=
  _ <~ (map Cout [ Str "Welcome to the Wellness Bot!"; NL;
                   Str "============================"; NL; NL ], Some tt) ;;
  profile <~ collectUserData_cout cin ;;
  _ <~ match displayResults (calculateMetrics profile) with
       | Some out => (map Cout out, Some tt)
       | None => ([], None)
       end ;;
  (map Cout [ NL; Str "Thank you for using Wellness Bot! Stay healthy!"; NL ],
   Some 0%Z).

End WellnessBot.

(** ** The formatting state of [cout]

    [fixed] and [setprecision] change the stream, not one insertion: every
    double inserted later is written with the state they left.  [printed]
    lists the doubles of an output with the state each one is written in. *)

Section Formatting.
Context {T : Type}.

Record ios_format : Type := {
  floatfield_fixed : bool;
  precision : nat
}.

(** The state of a stream that no manipulator has touched. *)
Definition ios_default : ios_format :=
  {| floatfield_fixed := false; precision := 6 |}.

Fixpoint printed (fmt : ios_format) (out : list (token (T:=T)))
  : list (T * ios_format) :=
  match out with
  | [] => []
  | Fixed :: rest =>
      printed {| floatfield_fixed := true; precision := precision fmt |} rest
  | SetPrecision n :: rest =>
      printed {| floatfield_fixed := floatfield_fixed fmt; precision := n |}
              rest
  | Dbl x :: rest => (x, fmt) :: printed fmt rest
  | Str _ :: rest => printed fmt rest
  | NL :: rest => printed fmt rest
  end.

(** Text, as opposed to a manipulator or a number. *)
Definition is_text (t : token (T:=T)) : bool :=
  match t with Str _ | NL => true | _ => false end.

End Formatting.

(** ** Sample sessions *)

Module Samples.
Section Samples.
Context {T : Type} {D : Double T}.

(** A 25 year old man, 1.80 m and 75 kg, moderately active, 6 hours of
    sleep, no habits and no dietary preference. *)
Definition scenario : UserProfile :=
  {| age := 25; gender := "male"; height := lit 1.80; weight := lit 75;
     activityLevel := "moderately active"; sleepHours := 6;
     lifestyle := "none"; dietaryPref := "none";
     bmi := None; bmr := None; dailyCalories := None |}.

(** The same session as typed, with a few entries the prompts refuse. *)
Definition scenarioEntries : Entries :=
  {| ageEntries := [Some 0%Z; None; Some 25%Z];
     genderEntries := ["man"; "Male"]%string;
     heightEntries := [Some (lit 180); Some (lit 1.80)];
     weightEntries := [Some (lit 75)];
     activityLevelEntries := ["Moderately Active"]%string;
     sleepHoursEntries := [Some 25%Z; Some 6%Z];
     lifestyleEntries := ["NONE"]%string;
     dietaryPrefEntries := ["none"]%string |}.

(** The same person with the gender typed in another case, as a profile
    that did not go through the prompts. *)
Definition unvalidatedGender : UserProfile :=
  {| age := 25; gender := "Male"; height := lit 1.80; weight := lit 75;
     activityLevel := "moderately active"; sleepHours := 6;
     lifestyle := "none"; dietaryPref := "none";
     bmi := None; bmr := None; dailyCalories := None |}.

(** ... and with an activity level that is not in the table. *)
Definition unvalidatedActivity : UserProfile :=
  {| age := 25; gender := "male"; height := lit 1.80; weight := lit 75;
     activityLevel := "Very Active"; sleepHours := 6;
     lifestyle := "none"; dietaryPref := "none";
     bmi := None; bmr := None; dailyCalories := None |}.

(** A 59 year old, 1.51 m and 43.82 kg. *)
Definition coincidence (g : string) : UserProfile :=
  {| age := 59; gender := g; height := lit 1.51; weight := lit 43.82;
     activityLevel := "sedentary"; sleepHours := 8;
     lifestyle := "none"; dietaryPref := "none";
     bmi := None; bmr := None; dailyCalories := None |}.

(** A weight of 10^12 kg at 1.80 m. *)
Definition heavy : UserProfile :=
  {| age := 25; gender := "male"; height := lit 1.80; weight := lit 1000000000000;
     activityLevel := "sedentary"; sleepHours := 8;
     lifestyle := "none"; dietaryPref := "none";
     bmi := None; bmr := None; dailyCalories := None |}.

(** A profile with no weight and no height. *)
Definition degenerate : UserProfile :=
  {| age := 25; gender := "male"; height := lit 0; weight := lit 0;
     activityLevel := "sedentary"; sleepHours := 8;
     lifestyle := "none"; dietaryPref := "none";
     bmi := None; bmr := None; dailyCalories := None |}.

(** A 120 year old man of 0.5 m and 20 kg: the least of each range for
    height and weight, the most for the age. *)
Definition frail : UserProfile :=
  {| age := 120; gender := "male"; height := lit 0.5; weight := lit 20.0;
     activityLevel := "sedentary"; sleepHours := 8;
     lifestyle := "none"; dietaryPref := "none";
     bmi := None; bmr := None; dailyCalories := None |}.

Definition frailEntries : Entries :=
  {| ageEntries := [Some 120%Z];
     genderEntries := ["male"]%string;
     heightEntries := [Some (lit 0.5)];
     weightEntries := [Some (lit 20.0)];
     activityLevelEntries := ["sedentary"]%string;
     sleepHoursEntries := [Some 8%Z];
     lifestyleEntries := ["none"]%string;
     dietaryPrefEntries := ["none"]%string |}.

End Samples.
End Samples.

(** ** Proof steps used more than once *)

(** Case analysis on every integer and positive comparison of the goal. *)
Ltac cmp_cases :=
  repeat match goal with
  | |- context [Pos.compare_cont Eq ?a ?b] =>
      change (Pos.compare_cont Eq a b) with (Pos.compare a b)
  | |- context [Z.compare ?a ?b] => destruct (Z.compare_spec a b)
  | |- context [Pos.compare ?a ?b] => destruct (Pos.compare_spec a b)
  end.

(** Unfold the operations of the [exact] instance down to those of [Q]. *)
Ltac exact_ops :=
  cbv [add sub mul div lit ofint exact bmr_male bmr_female selected_bmr
       carbsGrams proteinGrams fatGrams carbs protein fats
       MacroRatio_default CALORIES_PER_GRAM_CARBS CALORIES_PER_GRAM_PROTEIN
       CALORIES_PER_GRAM_FAT].

(** * Properties *)

(** ** Lowercasing *)

Module StrFacts.
Import Str.

Lemma transform_length (f : ascii -> ascii) (s : string) :
  String.length (transform f s) = String.length s.
Proof. induction s as [|c s IH]; simpl; [reflexivity | now rewrite IH]. Qed.

(** [lowercase] works character by character. *)
Lemma lowercase_get (s : string) (n : nat) :
  String.get n (lowercase s) = option_map tolower (String.get n s).
Proof.
  revert n; induction s as [|c s IH]; intros n; simpl.
  - reflexivity.
  - destruct n as [|n]; simpl; [reflexivity | apply IH].
Qed.

Lemma tolower_upper (c : ascii) :
  (65 <= N_of_ascii c <= 90)%N ->
  N_of_ascii (tolower c) = (N_of_ascii c + 32)%N.
Proof.
  intros [Hlo Hhi]. unfold tolower.
  apply N.leb_le in Hlo, Hhi. rewrite Hlo, Hhi. simpl.
  apply N_ascii_embedding. apply N.leb_le in Hhi. lia.
Qed.

Lemma tolower_other (c : ascii) :
  (N_of_ascii c < 65 \/ 90 < N_of_ascii c)%N -> tolower c = c.
Proof.
  intros Hc. unfold tolower.
  destruct (65 <=? N_of_ascii c)%N eqn:Hlo; [|reflexivity].
  destruct (N_of_ascii c <=? 90)%N eqn:Hhi; [|reflexivity].
  apply N.leb_le in Hlo, Hhi. lia.
Qed.

Lemma tolower_idempotent (c : ascii) : tolower (tolower c) = tolower c.
Proof.
  destruct (N.le_gt_cases 65 (N_of_ascii c)) as [Hlo|Hlo];
    [destruct (N.le_gt_cases (N_of_ascii c) 90) as [Hhi|Hhi]|].
  - apply tolower_other. rewrite tolower_upper by lia. lia.
  - now rewrite !(tolower_other c) by lia.
  - now rewrite !(tolower_other c) by lia.
Qed.

Lemma lowercase_idempotent (s : string) : lowercase (lowercase s) = lowercase s.
Proof.
  unfold lowercase. induction s as [|c s IH]; simpl.
  - reflexivity.
  - now rewrite tolower_idempotent, IH.
Qed.

End StrFacts.

(** ** The retry loops *)

Section LoopFacts.
Context {T : Type} `{Cmp T}.

Lemma getValidInput_cons (lo hi : T) (entry : option T) (rest : list (option T)) :
  getValidInput lo hi (entry :: rest) =
  match entry with
  | Some v => if inRange lo hi entry then Some (v, rest)
              else getValidInput lo hi rest
  | None => getValidInput lo hi rest
  end.
Proof. destruct entry; reflexivity. Qed.

(** The loop skips every rejected entry and returns the first accepted one. *)
Lemma getValidInput_first (lo hi : T) (rejected : list (option T)) (v : T)
  (rest : list (option T)) :
  Forall (fun e => inRange lo hi e = false) rejected ->
  inRange lo hi (Some v) = true ->
  getValidInput lo hi (rejected ++ Some v :: rest) = Some (v, rest).
Proof.
  intros Hrej Hv. induction Hrej as [|e l He _ IH].
  - simpl in *. now rewrite Hv.
  - rewrite <- app_comm_cons, getValidInput_cons.
    destruct e as [x|]; [now rewrite He|exact IH].
Qed.

(** Whatever the loop returns passed the range test. *)
Lemma getValidInput_inRange (lo hi : T) (cin : list (option T)) (v : T)
  (rest : list (option T)) :
  getValidInput lo hi cin = Some (v, rest) ->
  geb v lo = true /\ leb v hi = true.
Proof.
  induction cin as [|e l IH]; simpl; [discriminate|].
  destruct e as [x|]; [|exact IH].
  destruct (geb x lo && leb x hi) eqn:Hx; [|exact IH].
  intros [= <- _]. now apply andb_true_iff in Hx.
Qed.

End LoopFacts.

Lemma getValidStringInput_first (f : string -> bool) (rejected : list string)
  (s : string) (rest : list string) :
  Forall (fun x => f x = false) rejected ->
  f s = true ->
  getValidStringInput f (rejected ++ s :: rest) = Some (Str.lowercase s, rest).
Proof.
  intros Hrej Hs. induction Hrej as [|x l Hx _ IH]; simpl.
  - now rewrite Hs.
  - now rewrite Hx.
Qed.

Lemma getValidStringInput_accepted (f : string -> bool) (cin : list string)
  (out : string) (rest : list string) :
  getValidStringInput f cin = Some (out, rest) ->
  exists s, In s cin /\ f s = true /\ out = Str.lowercase s.
Proof.
  induction cin as [|x l IH]; simpl; [discriminate|].
  destruct (f x) eqn:Hx.
  - intros [= <- _]. exists x. auto.
  - intros Hl. destruct (IH Hl) as (s & Hin & Hs & ->). exists s. auto.
Qed.

Lemma isValidGender_iff (s : string) :
  isValidGender s = true <->
  Str.lowercase s = "male"%string \/ Str.lowercase s = "female"%string.
Proof.
  unfold isValidGender. cbv zeta.
  now rewrite orb_true_iff, !String.eqb_eq.
Qed.

(** C7: [isValidGender s] holds exactly when the character-wise lowercasing of
    [s] is "male" or "female"; "MALE", "Male" and "male" are accepted and
    lowercase to "male"; and the value [getValidStringInput] hands on for the
    first accepted entry is its lowercased form, one of the two canonical
    words. *)
Theorem isValidGender_case_insensitive_canonical :
  (forall s, isValidGender s = true <->
             Str.transform Str.tolower s = "male"%string \/
             Str.transform Str.tolower s = "female"%string) /\
  (isValidGender "MALE" = true /\ isValidGender "Male" = true /\
   isValidGender "male" = true) /\
  (Str.lowercase "MALE" = "male"%string /\
   Str.lowercase "Male" = "male"%string /\
   Str.lowercase "male" = "male"%string) /\
  (forall rejected s rest,
      Forall (fun x => isValidGender x = false) rejected ->
      isValidGender s = true ->
      getValidStringInput isValidGender (rejected ++ s :: rest)
      = Some (Str.lowercase s, rest) /\
      (Str.lowercase s = "male"%string \/ Str.lowercase s = "female"%string)).
Proof.
  split; [exact isValidGender_iff|].
  split; [repeat split; reflexivity|].
  split; [repeat split; reflexivity|].
  intros rejected s rest Hrej Hs. split.
  - now apply getValidStringInput_first.
  - now apply isValidGender_iff.
Qed.

Lemma isValidGender_case_insensitive_canonical_witness :
  getValidStringInput isValidGender ["mal"; "MALE"; "next"]%string
  = Some ("male"%string, ["next"%string]).
Proof.
  destruct isValidGender_case_insensitive_canonical as (_ & _ & _ & Hloop).
  apply (Hloop ["mal"%string] "MALE"%string ["next"%string]).
  - repeat constructor.
  - reflexivity.
Defined.

(** C8: an [int] entry is accepted for bounds [min, max] exactly when
    [min <= v <= max]; for the age prompt (bounds 1 and 120) the entries 0
    and 121 are rejected, 1 and 120 accepted; a failed extraction is
    rejected; and the loop returns the first accepted entry.  For any value
    type the test is the conjunction of the two inclusive comparisons. *)
Theorem getValidInput_inclusive_bounds :
  (forall (lo hi v : Z),
      inRange lo hi (Some v) = true <-> (lo <= v <= hi)%Z) /\
  (forall (T : Type) (C : Cmp T) (lo hi v : T),
      inRange lo hi (Some v) = leb lo v && leb v hi) /\
  (forall (lo hi : Z), inRange lo hi None = false) /\
  (inRange 1%Z 120%Z (Some 0%Z) = false /\
   inRange 1%Z 120%Z (Some 121%Z) = false /\
   inRange 1%Z 120%Z (Some 1%Z) = true /\
   inRange 1%Z 120%Z (Some 120%Z) = true) /\
  (forall (rest : list (option Z)),
      getValidInput 1%Z 120%Z (Some 0%Z :: Some 121%Z :: None :: Some 1%Z :: rest)
      = Some (1%Z, rest) /\
      getValidInput 1%Z 120%Z (Some 121%Z :: Some 120%Z :: rest)
      = Some (120%Z, rest)) /\
  (forall (lo hi : Z) rejected v rest,
      Forall (fun e => inRange lo hi e = false) rejected ->
      (lo <= v <= hi)%Z ->
      getValidInput lo hi (rejected ++ Some v :: rest) = Some (v, rest)).
Proof.
  assert (Hiff : forall lo hi v : Z,
             inRange lo hi (Some v) = true <-> (lo <= v <= hi)%Z).
  { intros lo hi v. unfold inRange, geb. simpl.
    rewrite andb_true_iff, !Z.leb_le. reflexivity. }
  split; [exact Hiff|].
  split; [reflexivity|].
  split; [reflexivity|].
  split; [repeat split; reflexivity|].
  split; [intros rest; split; reflexivity|].
  intros lo hi rejected v rest Hrej Hv.
  apply getValidInput_first; [exact Hrej|]. now apply Hiff.
Qed.

Lemma getValidInput_inclusive_bounds_witness :
  getValidInput 1%Z 120%Z ([Some 0%Z; None; Some 121%Z] ++ Some 120%Z :: [Some 7%Z])
  = Some (120%Z, [Some 7%Z]).
Proof.
  destruct getValidInput_inclusive_bounds as (_ & _ & _ & _ & _ & Hloop).
  apply Hloop.
  - repeat constructor.
  - lia.
Defined.

(** ** calculateMetrics, for any arithmetic *)

Section MetricsFacts.
Context {T : Type} {D : Double T}.

Local Open Scope dbl_scope.

(** The loop as a search: the first table entry with the profile's level. *)
Lemma assignDailyCalories_find (table : list ActivityMultiplier)
  (profile : UserProfile) :
  assignDailyCalories table profile =
  match find (fun a => (level a =? activityLevel profile)%string) table with
  | Some activity =>
      set_dailyCalories profile
        (option_map (fun b => b * multiplier activity) (bmr profile))
  | None => profile
  end.
Proof.
  induction table as [|a l IH]; simpl; [reflexivity|].
  destruct (level a =? activityLevel profile)%string; [reflexivity|exact IH].
Qed.

(** The loop writes [dailyCalories] and nothing else. *)
Lemma assignDailyCalories_frame (table : list ActivityMultiplier)
  (profile : UserProfile) :
  set_dailyCalories (assignDailyCalories table profile) (dailyCalories profile)
  = profile.
Proof.
  rewrite assignDailyCalories_find.
  destruct (find _ table); destruct profile; reflexivity.
Qed.

(** [calculateMetrics] always writes [bmi] and [bmr]. *)
Lemma calculateMetrics_bmi (profile : UserProfile) :
  bmi (calculateMetrics profile)
  = Some (weight profile / pow (height profile) 2).
Proof.
  unfold calculateMetrics. rewrite assignDailyCalories_find.
  destruct (find _ _); destruct (gender _ =? _)%string; reflexivity.
Qed.

Lemma calculateMetrics_bmr (profile : UserProfile) :
  bmr (calculateMetrics profile) = Some (selected_bmr profile).
Proof.
  unfold calculateMetrics, selected_bmr. rewrite assignDailyCalories_find.
  destruct (find _ _); destruct profile as [ag g ht wt lv sl lf dp bm br dc]; simpl;
    destruct (g =? "male")%string; reflexivity.
Qed.

Lemma calculateMetrics_unmatched (profile : UserProfile) :
  find (fun a => (level a =? activityLevel profile)%string)
       ACTIVITY_MULTIPLIERS = None ->
  calculateMetrics profile
  = set_bmr (set_bmi profile
               (Some (weight profile / pow (height profile) 2)))
            (Some (selected_bmr profile)).
Proof.
  intros Hnone. unfold calculateMetrics, selected_bmr.
  rewrite assignDailyCalories_find.
  destruct profile as [ag g ht wt lv sl lf dp bm br dc]; simpl in *.
  destruct (g =? "male")%string; simpl; rewrite Hnone; reflexivity.
Qed.

Lemma find_unmatched (lvl : string) :
  lvl <> "sedentary"%string -> lvl <> "lightly active"%string ->
  lvl <> "moderately active"%string -> lvl <> "very active"%string ->
  find (fun a : ActivityMultiplier => (level a =? lvl)%string)
       ACTIVITY_MULTIPLIERS = None.
Proof.
  intros H1 H2 H3 H4.
  apply not_eq_sym, String.eqb_neq in H1, H2, H3, H4.
  unfold ACTIVITY_MULTIPLIERS, find. cbn [level].
  now rewrite H1, H2, H3, H4.
Qed.

Lemma calculateMetrics_matched (profile : UserProfile) (m : T) :
  In (activityLevel profile, m)
     [ ("sedentary"%string, lit 1.2); ("lightly active"%string, lit 1.375);
       ("moderately active"%string, lit 1.55);
       ("very active"%string, lit 1.725) ] ->
  dailyCalories (calculateMetrics profile) = Some (selected_bmr profile * m).
Proof.
  intros Hin.
  unfold calculateMetrics, selected_bmr. rewrite assignDailyCalories_find.
  destruct profile as [ag g ht wt lv sl lf dp bm br dc]; simpl in *.
  destruct Hin as [E|[E|[E|[E|[]]]]]; injection E as <- <-;
    destruct (g =? "male")%string; reflexivity.
Qed.

(** C4: when [activityLevel] is one of the four canonical strings,
    [calculateMetrics] sets [dailyCalories] to the [bmr] it has just stored
    times the multiplier of that level: 1.2, 1.375, 1.55 or 1.725. *)
Theorem calculateMetrics_dailyCalories (profile : UserProfile) (m : T) :
  In (activityLevel profile, m)
     [ ("sedentary"%string, lit 1.2); ("lightly active"%string, lit 1.375);
       ("moderately active"%string, lit 1.55);
       ("very active"%string, lit 1.725) ] ->
  exists b : T,
    bmr (calculateMetrics profile) = Some b /\
    dailyCalories (calculateMetrics profile) = Some (b * m).
Proof.
  intros Hin. exists (selected_bmr profile).
  split; [apply calculateMetrics_bmr|now apply calculateMetrics_matched].
Qed.

(** C6: when [activityLevel] is none of the four table entries,
    [calculateMetrics] leaves [dailyCalories] as it found it (unset when it
    was unset), and every other member comes out as it does for a profile
    that differs only in a matching [activityLevel]. *)
Theorem calculateMetrics_unmatched_activityLevel (profile : UserProfile) :
  activityLevel profile <> "sedentary"%string ->
  activityLevel profile <> "lightly active"%string ->
  activityLevel profile <> "moderately active"%string ->
  activityLevel profile <> "very active"%string ->
  dailyCalories (calculateMetrics profile) = dailyCalories profile /\
  (dailyCalories profile = None ->
   dailyCalories (calculateMetrics profile) = None) /\
  (forall lvl : string,
      set_dailyCalories
        (set_activityLevel (calculateMetrics (set_activityLevel profile lvl))
                           (activityLevel profile))
        (dailyCalories profile)
      = calculateMetrics profile).
Proof.
  intros H1 H2 H3 H4.
  pose proof (calculateMetrics_unmatched profile
                (find_unmatched H1 H2 H3 H4)) as Hcm.
  split; [|split].
  - rewrite Hcm. reflexivity.
  - intros Hnone. rewrite Hcm. exact Hnone.
  - intros lvl. rewrite Hcm.
    unfold calculateMetrics. rewrite assignDailyCalories_find.
    unfold selected_bmr.
    destruct (find _ _); destruct profile as [ag g ht wt lv sl lf dp bm br dc]; simpl;
      destruct (g =? "male")%string; reflexivity.
Qed.

(** C10: when [gender] is exactly "male" the stored [bmr] is
    88.362 + (13.397 * weight) + (4.799 * height * 100) - (5.677 * age),
    the expression of line 155; for every other string, "female", "Male"
    and any unvalidated value among them, it is
    447.593 + (9.247 * weight) + (3.098 * height * 100) - (4.330 * age),
    the expression of line 158.  Both are evaluated in the order written,
    in the arithmetic of the profile. *)
Theorem calculateMetrics_bmr_male_only (profile : UserProfile) :
  (gender profile = "male"%string ->
   bmr (calculateMetrics profile)
   = Some (lit 88.362 + (lit 13.397 * weight profile) +
           (lit 4.799 * height profile * ofint 100) -
           (lit 5.677 * ofint (age profile)))) /\
  (gender profile <> "male"%string ->
   bmr (calculateMetrics profile)
   = Some (lit 447.593 + (lit 9.247 * weight profile) +
           (lit 3.098 * height profile * ofint 100) -
           (lit 4.330 * ofint (age profile)))).
Proof.
  rewrite calculateMetrics_bmr. unfold selected_bmr. split; intros Hg.
  - now rewrite Hg.
  - apply String.eqb_neq in Hg. now rewrite Hg.
Qed.

End MetricsFacts.

(** ** binary64: the literals of the source

    Each decimal literal stands for the double nearest to it, written here
    in hexadecimal. *)

Example literals_nearest_double :
  map (lit (T:=float))
      [88.362; 13.397; 4.799; 5.677; 447.593; 9.247; 3.098; 4.330;
       1.2; 1.375; 1.55; 1.725; 0.5; 0.2; 0.3; 4.0; 9.0;
       18.5; 24.9; 29.9; 0.5; 2.5; 20.0; 300.0]%Q
  = [0x1.6172b020c49bap+6; 0x1.acb4395810625p+3; 0x1.3322d0e560419p+2;
     0x1.6b53f7ced9168p+2; 0x1.bf97ced916873p+8; 0x1.27e76c8b43958p+3;
     0x1.8c8b439581062p+1; 0x1.151eb851eb852p+2;
     0x1.3333333333333p+0; 0x1.6p+0; 0x1.8cccccccccccdp+0;
     0x1.b99999999999ap+0; 0x1p-1; 0x1.999999999999ap-3;
     0x1.3333333333333p-2; 0x1p+2; 0x1.2p+3;
     0x1.28p+4; 0x1.8e66666666666p+4; 0x1.de66666666666p+4;
     0x1p-1; 0x1.4p+1; 0x1.4p+4; 0x1.2cp+8]%float.
Proof. reflexivity. Qed.

(** The sample session on binary64: the three calculated members and the
    three gram values, as an IEEE 754 machine computes them (the square
    of the height correctly rounded). *)
Example scenario_metrics :
  bmi (calculateMetrics (Samples.scenario (T:=float)))
  = Some 0x1.725ed097b425ep+4%float /\
  bmr (calculateMetrics (Samples.scenario (T:=float)))
  = Some 0x1.c5c20c49ba5e4p+10%float /\
  dailyCalories (calculateMetrics (Samples.scenario (T:=float)))
  = Some 0x1.5fa99652bd3c4p+11%float /\
  carbsGrams MacroRatio_default 0x1.5fa99652bd3c4p+11%float
  = 0x1.5fa99652bd3c4p+8%float /\
  proteinGrams MacroRatio_default 0x1.5fa99652bd3c4p+11%float
  = 0x1.1954784230fdp+7%float /\
  fatGrams MacroRatio_default 0x1.5fa99652bd3c4p+11%float
  = 0x1.771b4b02ebfcp+6%float /\
  collectUserData (T:=float) Samples.scenarioEntries
  = Some Samples.scenario.
Proof. repeat split; vm_compute; reflexivity. Qed.

(** ** binary64: comparisons and special values

    Facts about the primitive floats, from the specification of their
    operations on [spec_float]. *)

Module Binary64Facts.

Lemma SFcompare_antisym (x y : spec_float) :
  SFcompare y x = option_map CompOpp (SFcompare x y).
Proof.
  destruct x as [[]|[]| |[] mx ex], y as [[]|[]| |[] my ey];
    simpl; try reflexivity;
    rewrite (Z.compare_antisym ex ey);
    change (Pos.compare_cont Eq my mx) with (Pos.compare my mx);
    change (Pos.compare_cont Eq mx my) with (Pos.compare mx my);
    rewrite (Pos.compare_antisym mx my);
    destruct (ex ?= ey)%Z; simpl; try reflexivity;
    destruct (mx ?= my)%positive; reflexivity.
Qed.

Lemma SFcompare_not_nan (x y : spec_float) :
  SFis_nan x = false -> SFis_nan y = false -> SFcompare x y <> None.
Proof.
  destruct x as [[]|[]| |[] mx ex], y as [[]|[]| |[] my ey];
    simpl; intros; discriminate.
Qed.

Lemma SFleb_not_nan (x y : spec_float) :
  SFleb x y = true -> SFis_nan x = false /\ SFis_nan y = false.
Proof.
  unfold SFleb.
  destruct x as [[]|[]| |[] mx ex], y as [[]|[]| |[] my ey];
    simpl; intros; try discriminate; split; reflexivity.
Qed.

Lemma SFleb_SFltb (x y : spec_float) :
  SFleb x y = true -> SFltb y x = false.
Proof.
  unfold SFleb, SFltb. rewrite (SFcompare_antisym x y).
  destruct (SFcompare x y) as [[]|]; simpl; intros; try discriminate; reflexivity.
Qed.

Lemma SFltb_total (x y : spec_float) :
  SFis_nan x = false -> SFis_nan y = false ->
  SFltb x y = false -> SFleb y x = true.
Proof.
  intros Hx Hy. pose proof (SFcompare_not_nan x y Hx Hy) as Hc.
  unfold SFleb, SFltb. rewrite (SFcompare_antisym x y).
  destruct (SFcompare x y) as [[]|]; simpl; intros;
    try discriminate; try reflexivity. now elim Hc.
Qed.

Lemma SFltb_trans (x y z : spec_float) :
  SFltb x y = true -> SFltb y z = true -> SFltb x z = true.
Proof.
  unfold SFltb.
  destruct x as [[]|[]| |[] mx ex], y as [[]|[]| |[] my ey],
           z as [[]|[]| |[] mz ez];
    simpl; try discriminate; try reflexivity;
    cmp_cases; subst; simpl; try discriminate; try reflexivity; intros; lia.
Qed.

(** Between two positive finite bounds there are only positive finite values. *)
Lemma SFleb_between (x : spec_float) (m0 : positive) (e0 : Z)
  (m1 : positive) (e1 : Z) :
  SFleb (S754_finite false m0 e0) x = true ->
  SFleb x (S754_finite false m1 e1) = true ->
  exists m e, x = S754_finite false m e.
Proof.
  unfold SFleb. destruct x as [[]|[]| |[] m e]; simpl; try discriminate.
  intros _ _. now exists m, e.
Qed.

(** *** The same on [float] *)

Lemma leb_ltb (a b : float) :
  PrimFloat.leb a b = true -> PrimFloat.ltb b a = false.
Proof. rewrite leb_spec, ltb_spec. apply SFleb_SFltb. Qed.

Lemma ltb_trans (a b c : float) :
  PrimFloat.ltb a b = true -> PrimFloat.ltb b c = true ->
  PrimFloat.ltb a c = true.
Proof. rewrite !ltb_spec. apply SFltb_trans. Qed.

Lemma ltb_total (a b : float) :
  isnan a = false -> isnan b = false ->
  PrimFloat.ltb a b = false -> PrimFloat.leb b a = true.
Proof. rewrite leb_spec, ltb_spec. apply SFltb_total. Qed.

Lemma leb_not_nan (a b : float) :
  PrimFloat.leb a b = true -> isnan a = false /\ isnan b = false.
Proof. rewrite leb_spec. apply SFleb_not_nan. Qed.

(** *** Rounding never produces NaN *)

Lemma iter_pos_invariant {A : Type} (P : A -> Prop) (f : A -> A) :
  (forall x, P x -> P (f x)) ->
  forall (n : positive) (x : A), P x -> P (iter_pos f n x).
Proof.
  intros Hf. induction n as [n IH|n IH|]; intros x Hx; simpl; auto.
Qed.

Lemma shr_1_nonneg (mrs : shr_record) :
  (0 <= shr_m mrs)%Z -> (0 <= shr_m (shr_1 mrs))%Z.
Proof.
  destruct mrs as [m r s]. simpl.
  destruct m as [|[p|p|]|p]; simpl; lia.
Qed.

Lemma shr_nonneg (mrs : shr_record) (e n : Z) :
  (0 <= shr_m mrs)%Z -> (0 <= shr_m (fst (shr mrs e n)))%Z.
Proof.
  intros Hm. destruct n as [|p|p]; simpl; try exact Hm.
  apply (iter_pos_invariant (fun r => (0 <= shr_m r)%Z));
    [apply shr_1_nonneg|exact Hm].
Qed.

Lemma shr_fexp_nonneg (prec emax m e : Z) (l : location) :
  (0 <= m)%Z -> (0 <= shr_m (fst (shr_fexp prec emax m e l)))%Z.
Proof.
  intros Hm. unfold shr_fexp. apply shr_nonneg.
  destruct l as [|[]]; exact Hm.
Qed.

Lemma round_nearest_even_nonneg (m : Z) (l : location) :
  (0 <= m)%Z -> (0 <= round_nearest_even m l)%Z.
Proof.
  intros Hm. destruct l as [|[]]; simpl; try lia.
  destruct (Z.even m); lia.
Qed.

Lemma binary_round_aux_not_nan (prec emax : Z) (s : bool) (m e : Z)
  (l : location) :
  (0 <= m)%Z -> binary_round_aux prec emax s m e l <> S754_nan.
Proof.
  intros Hm. unfold binary_round_aux.
  pose proof (@shr_fexp_nonneg prec emax m e l Hm) as H1.
  destruct (shr_fexp prec emax m e l) as [mrs' e']. simpl in H1.
  pose proof (@shr_fexp_nonneg prec emax _ e' loc_Exact
                (@round_nearest_even_nonneg _ (loc_of_shr_record mrs') H1))
    as H2.
  destruct (shr_fexp prec emax (round_nearest_even _ _) e' loc_Exact)
    as [mrs'' e''].
  simpl in H2.
  destruct (shr_m mrs'') as [|p|p]; try discriminate; [|lia].
  destruct (e'' <=? emax - prec)%Z; discriminate.
Qed.

Lemma SFmul_finite_not_nan (prec emax : Z) (x y : spec_float) :
  SFis_finite_nonzero x = true -> SFis_finite_nonzero y = true ->
  SFmul prec emax x y <> S754_nan.
Proof.
  destruct x as [| | |sx mx ex], y as [| | |sy my ey]; try discriminate.
  intros _ _. simpl. apply binary_round_aux_not_nan. lia.
Qed.

Lemma SFdiv_core_binary_nonneg (prec emax : Z) (m1 : positive) (e1 : Z)
  (m2 : positive) (e2 : Z) :
  (0 <= fst (fst (SFdiv_core_binary prec emax (Zpos m1) e1 (Zpos m2) e2)))%Z.
Proof.
  unfold SFdiv_core_binary.
  set (s := (e1 - e2 - _)%Z).
  set (m' := match s with
             | Zpos _ => Z.shiftl (Zpos m1) s
             | Z0 => Zpos m1
             | Zneg _ => Z0
             end).
  assert (Hm' : (0 <= m')%Z).
  { subst m'. destruct s; try lia. apply Z.shiftl_nonneg. lia. }
  pose proof (@Z.div_pos m' (Zpos m2) Hm' ltac:(lia)) as Hq.
  unfold Z.div in Hq. destruct (Z.div_eucl m' (Zpos m2)) as [q r]. exact Hq.
Qed.

Lemma SFdiv_finite_not_nan (prec emax : Z) (x y : spec_float) :
  SFis_finite_nonzero x = true -> SFis_nan y = false ->
  SFis_nan (SFdiv prec emax x y) = false.
Proof.
  destruct x as [| | |sx mx ex]; try discriminate. intros _ Hy.
  destruct y as [sy|sy| |sy my ey]; simpl; try discriminate; try reflexivity.
  pose proof (SFdiv_core_binary_nonneg prec emax mx ex my ey) as Hq.
  destruct (SFdiv_core_binary prec emax (Zpos mx) ex (Zpos my) ey)
    as [[mz ez] lz].
  pose proof (@binary_round_aux_not_nan prec emax (xorb sx sy) mz ez lz Hq).
  destruct (binary_round_aux _ _ _ _ _ _); simpl; congruence.
Qed.

(** What the range test of [getValidInput<double>] leaves through. *)
Lemma between_finite_nonzero (lo hi x : float) :
  is_finite_nonzero lo = true -> PrimFloat.ltb 0 lo = true ->
  is_finite_nonzero hi = true -> PrimFloat.ltb 0 hi = true ->
  PrimFloat.leb lo x = true -> PrimFloat.leb x hi = true ->
  is_finite_nonzero x = true.
Proof.
  unfold is_finite_nonzero. rewrite !ltb_spec, !leb_spec.
  destruct (Prim2SF lo) as [| | |[] m0 e0]; try discriminate.
  destruct (Prim2SF hi) as [| | |[] m1 e1]; try discriminate.
  intros _ _ _ _ H0 H1.
  destruct (@SFleb_between _ m0 e0 m1 e1 H0 H1) as (m & e & E).
  now rewrite E.
Qed.

End Binary64Facts.

(** ** binary64: the accuracy of a product and of a quotient

    From the specification of rounding ([binary_round_aux]): on normal
    doubles away from overflow and underflow, a product and a quotient are
    each within [2^-52] of the exact value, relatively. *)

Module Binary64Rounding.
Import Binary64Facts.

Local Open Scope Z_scope.

(** One step of the shift register halves the mantissa. *)
Lemma shr_1_div2 (mrs : shr_record) :
  0 <= shr_m mrs -> shr_m (shr_1 mrs) = shr_m mrs / 2.
Proof.
  destruct mrs as [m r s]. simpl. intros Hm.
  destruct m as [|[p|p|]|p]; simpl shr_m; try lia.
  - reflexivity.
  - rewrite (Pos2Z.inj_xI p). apply Z.div_unique with (r := 1); lia.
  - rewrite (Pos2Z.inj_xO p). apply Z.div_unique with (r := 0); lia.
  - reflexivity.
Qed.

Lemma pow2_xI (p : positive) : 2 ^ Zpos p~1 = 2 * (2 ^ Zpos p * 2 ^ Zpos p).
Proof.
  rewrite (Pos2Z.inj_xI p). replace (2 * Zpos p + 1) with (1 + Zpos p + Zpos p) by lia.
  rewrite !Z.pow_add_r by lia. change (2 ^ 1) with 2. ring.
Qed.

Lemma pow2_xO (p : positive) : 2 ^ Zpos p~0 = 2 ^ Zpos p * 2 ^ Zpos p.
Proof.
  rewrite (Pos2Z.inj_xO p). replace (2 * Zpos p) with (Zpos p + Zpos p) by lia.
  rewrite !Z.pow_add_r by lia. ring.
Qed.

(** ... and [p] steps divide it by [2^p], rounding down. *)
Lemma shr_m_iter (p : positive) :
  forall mrs : shr_record,
    0 <= shr_m mrs ->
    0 <= shr_m (iter_pos shr_1 p mrs) /\
    shr_m (iter_pos shr_1 p mrs) = shr_m mrs / 2 ^ Zpos p.
Proof.
  induction p as [p IH|p IH|]; intros mrs Hm; simpl iter_pos.
  - pose proof (shr_1_nonneg mrs Hm) as H1.
    destruct (IH _ H1) as [H2 E2]. destruct (IH _ H2) as [H3 E3].
    split; [exact H3|]. rewrite E3, E2, shr_1_div2 by exact Hm.
    assert (0 < 2 ^ Zpos p) by (apply Z.pow_pos_nonneg; lia).
    rewrite !Z.div_div by lia. now rewrite pow2_xI.
  - destruct (IH _ Hm) as [H2 E2]. destruct (IH _ H2) as [H3 E3].
    split; [exact H3|]. rewrite E3, E2.
    assert (0 < 2 ^ Zpos p) by (apply Z.pow_pos_nonneg; lia).
    rewrite !Z.div_div by lia. now rewrite pow2_xO.
  - split; [now apply shr_1_nonneg|]. now rewrite shr_1_div2.
Qed.

(** A number of [d] binary digits lies in [[2^(d-1), 2^d)], and conversely. *)
Lemma digits2_pos_bounds (p : positive) :
  2 ^ (Zpos (digits2_pos p) - 1) <= Zpos p < 2 ^ Zpos (digits2_pos p).
Proof.
  induction p as [p IH|p IH|]; simpl digits2_pos.
  - rewrite Pos2Z.inj_succ, (Pos2Z.inj_xI p).
    replace (Z.succ (Zpos (digits2_pos p)) - 1) with (Z.succ (Zpos (digits2_pos p) - 1)) by lia.
    rewrite !Z.pow_succ_r by lia. lia.
  - rewrite Pos2Z.inj_succ, (Pos2Z.inj_xO p).
    replace (Z.succ (Zpos (digits2_pos p)) - 1) with (Z.succ (Zpos (digits2_pos p) - 1)) by lia.
    rewrite !Z.pow_succ_r by lia. lia.
  - simpl. lia.
Qed.

Lemma Zdigits2_unique (m k : Z) :
  2 ^ (k - 1) <= m < 2 ^ k -> 0 < k -> Zdigits2 m = k.
Proof.
  intros [Hlo Hhi] Hk.
  assert (Hm : 0 < m).
  { assert (0 < 2 ^ (k - 1)) by (apply Z.pow_pos_nonneg; lia). lia. }
  destruct m as [|p|p]; try lia. simpl.
  pose proof (digits2_pos_bounds p) as [Hl Hh].
  set (d := Zpos (digits2_pos p)) in *.
  destruct (Z.lt_trichotomy d k) as [Hlt|[Heq|Hgt]]; [|exact Heq|].
  - assert (2 ^ d <= 2 ^ (k - 1)) by (apply Z.pow_le_mono_r; lia). lia.
  - assert (2 ^ k <= 2 ^ (d - 1)) by (apply Z.pow_le_mono_r; lia). lia.
Qed.

Lemma Zdigits2_bounds (m : Z) :
  0 < m -> 2 ^ (Zdigits2 m - 1) <= m < 2 ^ Zdigits2 m /\ 0 < Zdigits2 m.
Proof.
  destruct m as [|p|p]; try lia. intros _. simpl. split; [apply digits2_pos_bounds|lia].
Qed.

(** The quotient by a power of two loses as many digits as the power. *)
Lemma Zdigits2_div_pow2 (m n : Z) :
  0 < m -> 0 <= n < Zdigits2 m ->
  Zdigits2 (m / 2 ^ n) = Zdigits2 m - n /\
  2 ^ (Zdigits2 m - n - 1) <= m / 2 ^ n < 2 ^ (Zdigits2 m - n).
Proof.
  intros Hm Hn. destruct (Zdigits2_bounds Hm) as [[Hlo Hhi] Hd].
  set (d := Zdigits2 m) in *.
  assert (Hp : 0 < 2 ^ n) by (apply Z.pow_pos_nonneg; lia).
  assert (Hb : 2 ^ (d - n - 1) <= m / 2 ^ n < 2 ^ (d - n)).
  { split.
    - apply Z.div_le_lower_bound; [exact Hp|].
      rewrite <- Z.pow_add_r by lia. replace (n + (d - n - 1)) with (d - 1) by lia.
      exact Hlo.
    - apply Z.div_lt_upper_bound; [exact Hp|].
      rewrite <- Z.pow_add_r by lia. replace (n + (d - n)) with d by lia.
      exact Hhi. }
  split; [|exact Hb]. apply Zdigits2_unique; [exact Hb|lia].
Qed.

(** Rounding to nearest keeps the truncated mantissa or adds one to it. *)
Lemma round_nearest_even_cases (m : Z) (l : location) :
  round_nearest_even m l = m \/ round_nearest_even m l = m + 1.
Proof.
  destruct l as [|[]]; simpl; auto. destruct (Z.even m); auto.
Qed.

(** In the normal range [shr_fexp] cuts a mantissa of 53 digits or more
    down to 53 digits. *)
Lemma shr_fexp_normal (m e : Z) (l : location) :
  0 < m -> 53 <= Zdigits2 m -> -1074 <= Zdigits2 m + e - 53 ->
  snd (shr_fexp prec emax m e l) = e + (Zdigits2 m - 53) /\
  shr_m (fst (shr_fexp prec emax m e l)) = m / 2 ^ (Zdigits2 m - 53).
Proof.
  intros Hm Hd He. unfold shr_fexp, fexp, SpecFloat.emin, prec, emax.
  replace (Z.max (Zdigits2 m + e - 53) (3 - 1024 - 53) - e)
    with (Zdigits2 m - 53) by lia.
  assert (Hrec : shr_m (shr_record_of_loc m l) = m) by (destruct l as [|[]]; reflexivity).
  destruct (Zdigits2 m - 53) as [|p|p] eqn:En; try lia; simpl shr; simpl fst; simpl snd.
  - split; [lia|]. rewrite Hrec. now rewrite Z.div_1_r.
  - split; [reflexivity|].
    destruct (@shr_m_iter p (shr_record_of_loc m l)) as [_ E]; [rewrite Hrec; lia|].
    now rewrite E, Hrec.
Qed.

(** So [binary_round_aux] returns a normal double whose value, in units of
    [2^e], is the multiple of [2^(d-53)] just below or just above [m]. *)
Lemma binary_round_aux_normal (s : bool) (m e : Z) (l : location) :
  0 < m -> 53 <= Zdigits2 m -> -1074 <= Zdigits2 m + e - 53 ->
  Zdigits2 m + e - 52 <= 971 ->
  exists (M : positive) (E m' : Z),
    binary_round_aux prec emax s m e l = S754_finite s M E /\
    2 ^ 52 <= Zpos M < 2 ^ 53 /\
    e + (Zdigits2 m - 53) <= E <= e + (Zdigits2 m - 53) + 1 /\
    Zpos M * 2 ^ (E - e) = m' /\
    (m' <= m < m' + 2 ^ (Zdigits2 m - 53) \/
     m' - 2 ^ (Zdigits2 m - 53) <= m < m').
Proof.
  intros Hm Hd Hlo Hhi. set (d := Zdigits2 m) in *. set (n := d - 53) in *.
  unfold binary_round_aux.
  destruct (@shr_fexp_normal m e l Hm Hd Hlo) as [E1 M1].
  destruct (shr_fexp prec emax m e l) as [mrs' e']. simpl in E1, M1.
  fold d in E1, M1. fold n in E1, M1.
  destruct (@Zdigits2_div_pow2 m n Hm) as [D1 B1]; [fold d; lia|].
  fold d in D1, B1. replace (d - n) with 53 in D1, B1 by lia.
  rewrite <- M1 in D1, B1. change (53 - 1) with 52 in B1.
  set (m1 := shr_m mrs') in *.
  assert (Hpn : 0 < 2 ^ n) by (apply Z.pow_pos_nonneg; lia).
  assert (Hfloor : m1 * 2 ^ n <= m < (m1 + 1) * 2 ^ n).
  { rewrite M1. split.
    - rewrite Z.mul_comm. apply Z.mul_div_le. exact Hpn.
    - rewrite Z.mul_comm. apply Z.mul_succ_div_gt. lia. }
  set (m2 := round_nearest_even m1 (loc_of_shr_record mrs')).
  assert (Hm2 : m2 = m1 \/ m2 = m1 + 1) by apply round_nearest_even_cases.
  assert (Hm2pos : 0 < m2) by lia.
  assert (Hcase : m2 < 2 ^ 53 \/ m2 = 2 ^ 53) by lia.
  assert (Hd2 : (Zdigits2 m2 = 53 /\ m2 < 2 ^ 53) \/
                (Zdigits2 m2 = 54 /\ m2 = 2 ^ 53)).
  { destruct Hcase as [Hlt|Heq].
    - left. split; [|exact Hlt]. apply Zdigits2_unique; lia.
    - right. split; [|exact Heq]. rewrite Heq. reflexivity. }
  destruct (@shr_fexp_normal m2 e' loc_Exact Hm2pos) as [E2 M2]; [lia|lia|].
  destruct (shr_fexp prec emax m2 e' loc_Exact) as [mrs'' e'']. simpl in E2, M2.
  destruct Hd2 as [[Hd2 Hm2lt]|[Hd2 Hm2eq]]; rewrite Hd2 in E2, M2.
  - change (53 - 53) with 0 in *. rewrite Z.div_1_r in M2. rewrite M2.
    assert (HM : exists M, m2 = Zpos M) by (destruct m2; [lia|eauto|lia]).
    destruct HM as [M EM]. rewrite EM.
    assert (Hle : (e'' <=? emax - prec) = true)
      by (apply Z.leb_le; unfold emax, prec; lia).
    rewrite Hle. exists M, e'', (m2 * 2 ^ n).
    split; [reflexivity|]. split; [lia|]. split; [lia|].
    split; [rewrite EM; f_equal; f_equal; lia|].
    fold n. destruct Hm2 as [E|E]; rewrite E; [left|right]; nia.
  - change (54 - 53) with 1 in *. rewrite Hm2eq in M2.
    change (2 ^ 53 / 2 ^ 1) with (2 ^ 52) in M2. rewrite M2.
    change (2 ^ 52) with (Zpos (2 ^ 52)%positive).
    assert (Hle : (e'' <=? emax - prec) = true) by (apply Z.leb_le; unfold emax, prec; lia).
    rewrite Hle. exists (2 ^ 52)%positive, e'', (m2 * 2 ^ n).
    split; [reflexivity|]. split; [lia|]. split; [lia|]. split.
    + replace (e'' - e) with (1 + n) by lia. rewrite Z.pow_add_r by lia.
      rewrite Hm2eq. change (2 ^ 1) with 2. lia.
    + fold n. destruct Hm2 as [E|E]; rewrite E; [left|right]; nia.
Qed.

(** A valid double with an exponent above the smallest one is normal. *)
Lemma bounded_normal (m : positive) (e : Z) :
  bounded prec emax m e = true -> -1074 < e ->
  Zdigits2 (Zpos m) = 53 /\ 2 ^ 52 <= Zpos m < 2 ^ 53.
Proof.
  unfold bounded, canonical_mantissa, fexp, SpecFloat.emin, prec, emax.
  intros Hb He. apply andb_true_iff in Hb. destruct Hb as [Hc _].
  apply Z.eqb_eq in Hc.
  assert (Hd : Zdigits2 (Zpos m) = 53) by (simpl; lia).
  split; [exact Hd|].
  destruct (@Zdigits2_bounds (Zpos m)) as [Hb _]; [lia|].
  rewrite Hd in Hb. exact Hb.
Qed.

(** Positive doubles in increasing order have exponents in that order. *)
Lemma SFleb_exponents (m0 : positive) (e0 : Z) (m1 : positive) (e1 : Z) :
  SFleb (S754_finite false m0 e0) (S754_finite false m1 e1) = true ->
  e0 <= e1.
Proof.
  unfold SFleb. simpl. destruct (Z.compare_spec e0 e1); intros; [lia|lia|discriminate].
Qed.

(** Powers of two as rationals. *)
Lemma pw_pos (e : Z) : (0 < pw e)%Q.
Proof. apply Qpower_0_lt. reflexivity. Qed.

Lemma pw_add (a b : Z) : (pw (a + b) == pw a * pw b)%Q.
Proof. apply Qpower_plus. discriminate. Qed.

Lemma pw_inject (k : Z) : 0 <= k -> (inject_Z (2 ^ k) == pw k)%Q.
Proof. intros Hk. unfold pw. now rewrite Zpower_Qpower. Qed.

Lemma inject_Z_pow2_pos (k : Z) : 0 <= k -> (0 < inject_Z (2 ^ k))%Q.
Proof.
  intros Hk. rewrite <- (Zlt_Qlt 0). apply Z.pow_pos_nonneg; lia.
Qed.

(** A multiple of [2^n] next to [m], below or above, is within [2^n] of any
    [x] in [[m, m+1)]. *)
Lemma bracket_error (x : Q) (m m' n : Z) :
  0 <= n ->
  (inject_Z m <= x < inject_Z m + 1)%Q ->
  (m' <= m < m' + 2 ^ n \/ m' - 2 ^ n <= m < m') ->
  (Qabs (inject_Z m' - x) <= inject_Z (2 ^ n))%Q.
Proof.
  intros Hn [Hlo Hhi] Hm'. apply Qabs_Qle_condition.
  destruct Hm' as [[H1 H2]|[H1 H2]].
  - rewrite Zle_Qle in H1. assert (H3 : m + 1 <= m' + 2 ^ n) by lia.
    rewrite Zle_Qle in H3. rewrite !inject_Z_plus in H3.
    change (inject_Z 1) with 1%Q in H3. split; lra.
  - rewrite Zle_Qle in H1. assert (H3 : m + 1 <= m') by lia.
    rewrite Zle_Qle in H3. rewrite !inject_Z_plus in H3.
    unfold Z.sub in H1. rewrite inject_Z_plus, inject_Z_opp in H1.
    change (inject_Z 1) with 1%Q in H3.
    pose proof (inject_Z_pow2_pos Hn). split; lra.
Qed.

(** Rounding a value [x * 2^e], with [x] in [[m, m+1)] and [m] of at least
    53 digits, to binary64: the result is finite and normal, and off by at
    most [2^-52] of the value. *)
Lemma binary_round_aux_accuracy (m e : Z) (l : location) (x : Q) :
  0 < m -> 53 <= Zdigits2 m -> -1074 <= Zdigits2 m + e - 53 ->
  Zdigits2 m + e - 52 <= 971 ->
  (inject_Z m <= x < inject_Z m + 1)%Q ->
  exists (M : positive) (E : Z),
    binary_round_aux prec emax false m e l = S754_finite false M E /\
    2 ^ 52 <= Zpos M < 2 ^ 53 /\
    e + (Zdigits2 m - 53) <= E <= e + (Zdigits2 m - 53) + 1 /\
    (Qabs (inject_Z (Zpos M) * pw E - x * pw e) * inject_Z (2 ^ 52)
     <= x * pw e)%Q.
Proof.
  intros Hm Hd Hlo Hhi Hx.
  destruct (@binary_round_aux_normal false m e l Hm Hd Hlo Hhi)
    as (M & E & m' & Hres & HM & HE & Hm' & Hbr).
  exists M, E. repeat split; try assumption; try lia.
  set (n := Zdigits2 m - 53) in *.
  assert (HV : (inject_Z (Zpos M) * pw E == inject_Z m' * pw e)%Q).
  { rewrite <- Hm', inject_Z_mult, pw_inject by lia.
    replace E with ((E - e) + e) at 1 by lia. rewrite pw_add. ring. }
  rewrite HV.
  setoid_replace (inject_Z m' * pw e - x * pw e)%Q
    with ((inject_Z m' - x) * pw e)%Q by ring.
  pose proof (pw_pos e) as Hpe.
  rewrite Qabs_Qmult, (Qabs_pos (pw e)) by lra.
  pose proof (@bracket_error x m m' n ltac:(lia) Hx Hbr) as Herr.
  destruct (@Zdigits2_bounds m Hm) as [[Hdl _] _].
  assert (Hpow : 2 ^ n * 2 ^ 52 <= m).
  { rewrite <- Z.pow_add_r by lia. replace (n + 52) with (Zdigits2 m - 1) by lia.
    exact Hdl. }
  rewrite Zle_Qle in Hpow. rewrite inject_Z_mult in Hpow.
  pose proof (@inject_Z_pow2_pos 52 ltac:(lia)) as H52.
  pose proof (Qabs_nonneg (inject_Z m' - x)) as Habs.
  destruct Hx as [Hx0 Hx1].
  setoid_replace (Qabs (inject_Z m' - x) * pw e * inject_Z (2 ^ 52))%Q
    with ((Qabs (inject_Z m' - x) * inject_Z (2 ^ 52)) * pw e)%Q by ring.
  apply Qmult_le_compat_r; [|lra].
  apply Qle_trans with (inject_Z (2 ^ n) * inject_Z (2 ^ 52))%Q; [|lra].
  apply Qmult_le_compat_r; [exact Herr|lra].
Qed.

(** The digit count of a number between two powers of two. *)
Lemma Zdigits2_range (m a b : Z) :
  0 <= a -> 2 ^ a <= m < 2 ^ b -> a < Zdigits2 m <= b.
Proof.
  intros Ha [Hlo Hhi].
  assert (Hm : 0 < m).
  { assert (0 < 2 ^ a) by (apply Z.pow_pos_nonneg; lia). lia. }
  destruct (@Zdigits2_bounds m Hm) as [[Hdl Hdh] Hd].
  split.
  - destruct (Z_lt_le_dec a (Zdigits2 m)) as [|Hle]; [assumption|].
    assert (2 ^ Zdigits2 m <= 2 ^ a) by (apply Z.pow_le_mono_r; lia). lia.
  - destruct (Z_le_gt_dec (Zdigits2 m) b) as [|Hgt]; [assumption|].
    assert (2 ^ b <= 2 ^ (Zdigits2 m - 1)) by (apply Z.pow_le_mono_r; lia). lia.
Qed.

(** The product of two positive normal doubles, away from overflow and
    underflow. *)
Lemma SFmul_accuracy (mx : positive) (ex : Z) (my : positive) (ey : Z) :
  2 ^ 52 <= Zpos mx < 2 ^ 53 -> 2 ^ 52 <= Zpos my < 2 ^ 53 ->
  -1126 <= ex + ey <= 917 ->
  exists (M : positive) (E : Z),
    SF64mul (S754_finite false mx ex) (S754_finite false my ey)
    = S754_finite false M E /\
    2 ^ 52 <= Zpos M < 2 ^ 53 /\
    ex + ey + 52 <= E <= ex + ey + 54 /\
    (Qabs (SF2Q (S754_finite false M E)
           - SF2Q (S754_finite false mx ex) * SF2Q (S754_finite false my ey))
     * inject_Z (2 ^ 52)
     <= SF2Q (S754_finite false mx ex) * SF2Q (S754_finite false my ey))%Q.
Proof.
  intros Hx Hy He. unfold SF64mul, SFmul. simpl xorb.
  assert (Hprod : 2 ^ 104 <= Zpos (mx * my) < 2 ^ 106).
  { rewrite Pos2Z.inj_mul.
    change (2 ^ 104) with (2 ^ 52 * 2 ^ 52). change (2 ^ 106) with (2 ^ 53 * 2 ^ 53).
    change (2 ^ 52) with 4503599627370496 in *.
    change (2 ^ 53) with 9007199254740992 in *. nia. }
  pose proof (@Zdigits2_range _ 104 106 ltac:(lia) Hprod) as Hd.
  destruct (@binary_round_aux_accuracy (Zpos (mx * my)) (ex + ey) loc_Exact
              (inject_Z (Zpos (mx * my))))
    as (M & E & Hres & HM & HE & Hacc); try lia.
  { split; lra. }
  exists M, E. split; [exact Hres|]. split; [exact HM|]. split; [lia|].
  cbn [SF2Q]. fold (pw E) (pw ex) (pw ey).
  assert (HP : (inject_Z (Zpos mx) * pw ex * (inject_Z (Zpos my) * pw ey)
                == inject_Z (Zpos (mx * my)) * pw (ex + ey))%Q).
  { rewrite Pos2Z.inj_mul, inject_Z_mult, pw_add. ring. }
  rewrite HP. exact Hacc.
Qed.

(** The quotient of two positive normal doubles, likewise. *)
Lemma SFdiv_accuracy (mx : positive) (ex : Z) (my : positive) (ey : Z) :
  2 ^ 52 <= Zpos mx < 2 ^ 53 -> 2 ^ 52 <= Zpos my < 2 ^ 53 ->
  -1021 <= ex - ey <= 1022 ->
  exists (M : positive) (E : Z),
    SF64div (S754_finite false mx ex) (S754_finite false my ey)
    = S754_finite false M E /\
    2 ^ 52 <= Zpos M < 2 ^ 53 /\
    (Qabs (SF2Q (S754_finite false M E)
           - SF2Q (S754_finite false mx ex) / SF2Q (S754_finite false my ey))
     * inject_Z (2 ^ 52)
     <= SF2Q (S754_finite false mx ex) / SF2Q (S754_finite false my ey))%Q.
Proof.
  intros Hx Hy He. unfold SF64div, SFdiv, SFdiv_core_binary. simpl xorb.
  rewrite (@Zdigits2_unique (Zpos mx) 53), (@Zdigits2_unique (Zpos my) 53)
    by (change (53 - 1) with 52; lia).
  unfold fexp, SpecFloat.emin, prec, emax.
  replace (Z.min (Z.max (53 + ex - (53 + ey) - 53) (3 - 1024 - 53)) (ex - ey))
    with (ex - ey - 53) by lia.
  replace (ex - ey - (ex - ey - 53)) with 53 by lia.
  rewrite Z.shiftl_mul_pow2 by lia.
  set (a := Zpos mx * 2 ^ 53). set (e' := ex - ey - 53).
  pose proof (Z_div_mod a (Zpos my) ltac:(lia)) as Hdiv.
  destruct (Z.div_eucl a (Zpos my)) as [q r]. destruct Hdiv as [Ha Hr].
  assert (Hq : 2 ^ 52 <= q < 2 ^ 54).
  { subst a. change (2 ^ 54) with 18014398509481984.
    change (2 ^ 52) with 4503599627370496 in *.
    change (2 ^ 53) with 9007199254740992 in *. nia. }
  pose proof (@Zdigits2_range _ 52 54 ltac:(lia) Hq) as Hd.
  set (x := (inject_Z a / inject_Z (Zpos my))%Q).
  assert (Hmy : (0 < inject_Z (Zpos my))%Q) by (rewrite <- (Zlt_Qlt 0); lia).
  assert (Hxq : (inject_Z q <= x < inject_Z q + 1)%Q).
  { unfold x. rewrite Ha, inject_Z_plus, inject_Z_mult.
    destruct Hr as [Hr0 Hr1]. rewrite Zle_Qle in Hr0. rewrite Zlt_Qlt in Hr1.
    change (inject_Z 0) with 0%Q in Hr0.
    split.
    - apply Qle_shift_div_l; [exact Hmy|]. nra.
    - apply Qlt_shift_div_r; [exact Hmy|]. nra. }
  destruct (@binary_round_aux_accuracy q e' (new_location (Zpos my) r) x)
    as (M & E & Hres & HM & HE & Hacc); try lia; try exact Hxq.
  exists M, E. split; [exact Hres|]. split; [exact HM|].
  cbn [SF2Q]. fold (pw E) (pw ex) (pw ey).
  assert (HX : (inject_Z (Zpos mx) * pw ex / (inject_Z (Zpos my) * pw ey)
                == x * pw e')%Q).
  { unfold x, a. rewrite inject_Z_mult, pw_inject by lia.
    replace ex with (e' + 53 + ey) at 1 by (unfold e'; lia).
    rewrite !pw_add. pose proof (pw_pos ey). field. split; lra. }
  rewrite HX. exact Hacc.
Qed.

End Binary64Rounding.

(** ** binary64: how far [bmi] is from [weight / height^2] *)

Module BmiAccuracy.
Import Binary64Facts Binary64Rounding.

Local Open Scope Q_scope.

Lemma Qmult_neg_cancel (a v : Q) : 0 < v -> a * v <= 0 -> a <= 0.
Proof. intros Hv Ha. nra. Qed.

(** [B] approximates [X = W / V] and [V] approximates [S], each within
    [2^-52] relatively: how far [B] is from [Y = W / S], for a weight of at
    most 512 and a squared height of at least 1/4. *)
Lemma quotient_error (W S V B X Y : Q) :
  0 < W -> W <= 512 -> 1 # 4 <= S ->
  X * V == W -> Y * S == W ->
  Qabs (V - S) * 4503599627370496 <= S ->
  Qabs (B - X) * 4503599627370496 <= X ->
  Qabs (B - Y) <= 1 # 1000000000.
Proof.
  intros HW0 HW1 HS HX HY HV HB.
  assert (HV' : - S <= (V - S) * 4503599627370496 <= S).
  { apply Qabs_Qle_condition.
    rewrite Qabs_Qmult, (Qabs_pos 4503599627370496) by discriminate.
    exact HV. }
  assert (HVpos : 2499 # 10000 <= V) by lra.
  assert (HYpos : 0 < Y) by nra.
  assert (HXpos : 0 < X) by nra.
  assert (HXup : X <= 2049) by nra.
  assert (HB' : - X <= (B - X) * 4503599627370496 <= X).
  { apply Qabs_Qle_condition.
    rewrite Qabs_Qmult, (Qabs_pos 4503599627370496) by discriminate.
    exact HB. }
  assert (HD1 : ((X - Y) * 4503599627370496 - X) * V <= 0) by nra.
  assert (HD2 : (- (X - Y) * 4503599627370496 - X) * V <= 0) by nra.
  apply Qmult_neg_cancel in HD1, HD2; try lra.
  apply Qabs_Qle_condition. split; lra.
Qed.

(** The same without bounds on [W] and [S], as a relative error. *)
Lemma quotient_relative_error (W S V B X Y : Q) :
  0 < W -> 0 < S ->
  X * V == W -> Y * S == W ->
  Qabs (V - S) * 4503599627370496 <= S ->
  Qabs (B - X) * 4503599627370496 <= X ->
  Qabs (B - Y) <= Y * (1 # 2000000000000000).
Proof.
  intros HW HS HX HY HV HB.
  assert (HV' : - S <= (V - S) * 4503599627370496 <= S).
  { apply Qabs_Qle_condition.
    rewrite Qabs_Qmult, (Qabs_pos 4503599627370496) by discriminate.
    exact HV. }
  assert (HVpos : 0 < V) by lra.
  assert (HYpos : 0 < Y) by nra.
  assert (HXpos : 0 < X) by nra.
  assert (HB' : - X <= (B - X) * 4503599627370496 <= X).
  { apply Qabs_Qle_condition.
    rewrite Qabs_Qmult, (Qabs_pos 4503599627370496) by discriminate.
    exact HB. }
  assert (HD1 : ((X - Y) * 4503599627370496 - X) * V <= 0) by nra.
  assert (HD2 : (- (X - Y) * 4503599627370496 - X) * V <= 0) by nra.
  apply Qmult_neg_cancel in HD1, HD2; try lra.
  apply Qabs_Qle_condition. split; lra.
Qed.

(** A double between two positive normal doubles is positive and normal,
    with an exponent between theirs. *)
Lemma between_normal (lo hi x : float) (m0 : positive) (e0 : Z)
  (m1 : positive) (e1 : Z) :
  Prim2SF lo = S754_finite false m0 e0 ->
  Prim2SF hi = S754_finite false m1 e1 ->
  (-1074 < e0)%Z ->
  PrimFloat.leb lo x = true -> PrimFloat.leb x hi = true ->
  exists (m : positive) (e : Z),
    Prim2SF x = S754_finite false m e /\
    (2 ^ 52 <= Zpos m < 2 ^ 53)%Z /\ (e0 <= e <= e1)%Z.
Proof.
  intros Elo Ehi He0. rewrite !leb_spec, Elo, Ehi. intros H0 H1.
  destruct (@SFleb_between _ m0 e0 m1 e1 H0 H1) as (m & e & Ex).
  rewrite Ex in H0, H1. apply SFleb_exponents in H0, H1.
  pose proof (Prim2SF_valid x) as Hv. rewrite Ex in Hv. simpl in Hv.
  destruct (@bounded_normal m e Hv ltac:(lia)) as [_ Hm].
  exists m, e. repeat split; try lia; assumption.
Qed.

Lemma pw_le (a b : Z) : (a <= b)%Z -> (pw a <= pw b)%Q.
Proof. intros Hab. apply Qpower_le_compat_l; [exact Hab|discriminate]. Qed.

(** A double of positive value is finite and positive. *)
Lemma SF2Q_pos_finite (x : spec_float) :
  0 < SF2Q x -> exists (M : positive) (E : Z), x = S754_finite false M E.
Proof.
  destruct x as [s|s| |[] M E]; cbn [SF2Q]; intros Hx;
    try (exfalso; apply (Qlt_irrefl 0); exact Hx).
  - exfalso. fold (pw E) in Hx. pose proof (pw_pos E).
    assert (H1 : 0 < inject_Z (Zpos M)) by (rewrite <- (Zlt_Qlt 0); lia).
    nra.
  - exists M, E. reflexivity.
Qed.

(** The significand of a double has at most 53 digits. *)
Lemma bounded_mantissa (m : positive) (e : Z) :
  bounded prec emax m e = true -> (Zpos m < 2 ^ 53)%Z.
Proof.
  unfold bounded, canonical_mantissa, fexp, SpecFloat.emin, prec, emax.
  intros Hb. apply andb_true_iff in Hb. destruct Hb as [Hc _].
  apply Z.eqb_eq in Hc.
  assert (Hd : (Zdigits2 (Zpos m) <= 53)%Z) by (simpl; lia).
  destruct (@Zdigits2_bounds (Zpos m)) as [[_ Hb] _]; [lia|].
  assert ((2 ^ Zdigits2 (Zpos m) <= 2 ^ 53)%Z)
    by (apply Z.pow_le_mono_r; lia).
  lia.
Qed.

(** The exponent of a double, from powers of two around its value. *)
Lemma exponent_above (M : positive) (E a : Z) :
  (Zpos M < 2 ^ 53)%Z -> pw a <= inject_Z (Zpos M) * pw E -> (a - 53 < E)%Z.
Proof.
  intros HM Ha.
  destruct (Z_lt_le_dec (a - 53) E) as [|Hle]; [assumption|exfalso].
  pose proof (@pw_le (53 + E) a ltac:(lia)) as Hp.
  rewrite pw_add in Hp. pose proof (pw_pos E) as HE.
  rewrite Zlt_Qlt in HM.
  change (inject_Z (2 ^ 53)) with (pw 53) in HM.
  nra.
Qed.

Lemma exponent_below (M : positive) (E b : Z) :
  (2 ^ 52 <= Zpos M)%Z -> inject_Z (Zpos M) * pw E < pw b -> (E < b - 52)%Z.
Proof.
  intros HM Hb.
  destruct (Z_lt_le_dec E (b - 52)) as [|Hle]; [assumption|exfalso].
  pose proof (@pw_le b (52 + E) ltac:(lia)) as Hp.
  rewrite pw_add in Hp. pose proof (pw_pos E) as HE.
  rewrite Zle_Qle in HM.
  change (inject_Z (2 ^ 52)) with (pw 52) in HM.
  nra.
Qed.

(** The value of a positive normal double, between two powers of two. *)
Lemma normal_value (m : positive) (e : Z) :
  (2 ^ 52 <= Zpos m < 2 ^ 53)%Z ->
  pw (52 + e) <= SF2Q (S754_finite false m e) < pw (53 + e).
Proof.
  intros [H0 H1]. cbn [SF2Q]. fold (pw e). rewrite !pw_add.
  pose proof (pw_pos e). rewrite Zle_Qle in H0. rewrite Zlt_Qlt in H1.
  change (inject_Z (2 ^ 52)) with (pw 52) in H0.
  change (inject_Z (2 ^ 53)) with (pw 53) in H1.
  split; nra.
Qed.

(** A double within [2^-52] of the square of a positive normal double,
    relatively, is itself positive and normal. *)
Lemma faithful_normal (v : float) (mh : positive) (eh : Z) :
  (2 ^ 52 <= Zpos mh < 2 ^ 53)%Z -> (-562 <= eh)%Z ->
  Qabs (toQ v - SF2Q (S754_finite false mh eh) * SF2Q (S754_finite false mh eh))
  * inject_Z (2 ^ 52)
  <= SF2Q (S754_finite false mh eh) * SF2Q (S754_finite false mh eh) ->
  exists (M : positive) (E : Z),
    Prim2SF v = S754_finite false M E /\
    (2 ^ 52 <= Zpos M < 2 ^ 53)%Z /\ (2 * eh + 51 <= E <= 2 * eh + 54)%Z.
Proof.
  intros Hmh Heh Hv.
  destruct (normal_value eh Hmh) as [Hlo Hhi].
  set (Hq := SF2Q (S754_finite false mh eh)) in *.
  assert (Hlo2 : pw (104 + 2 * eh) <= Hq * Hq).
  { replace (104 + 2 * eh)%Z with ((52 + eh) + (52 + eh))%Z by lia.
    rewrite pw_add. pose proof (pw_pos (52 + eh)). nra. }
  assert (Hhi2 : Hq * Hq < pw (106 + 2 * eh)).
  { replace (106 + 2 * eh)%Z with ((53 + eh) + (53 + eh))%Z by lia.
    rewrite pw_add. pose proof (pw_pos (52 + eh)). nra. }
  change (inject_Z (2 ^ 52)) with 4503599627370496 in Hv.
  assert (Hv' : - (Hq * Hq) <= (toQ v - Hq * Hq) * 4503599627370496 <= Hq * Hq).
  { apply Qabs_Qle_condition.
    rewrite Qabs_Qmult, (Qabs_pos 4503599627370496) by discriminate.
    exact Hv. }
  pose proof (pw_pos (104 + 2 * eh)) as Hp104.
  assert (Hvlo : pw (103 + 2 * eh) <= toQ v).
  { replace (104 + 2 * eh)%Z with (1 + (103 + 2 * eh))%Z in * by lia.
    rewrite pw_add in Hlo2, Hp104. change (pw 1) with 2 in Hlo2, Hp104. lra. }
  assert (Hvhi : toQ v < pw (107 + 2 * eh)).
  { replace (107 + 2 * eh)%Z with (1 + (106 + 2 * eh))%Z by lia.
    rewrite pw_add. change (pw 1) with 2. lra. }
  assert (Hvpos : 0 < toQ v) by (pose proof (pw_pos (103 + 2 * eh)); lra).
  destruct (SF2Q_pos_finite _ Hvpos) as (M & E & Ev).
  pose proof (Prim2SF_valid v) as Hvalid. rewrite Ev in Hvalid. simpl in Hvalid.
  pose proof (bounded_mantissa _ _ Hvalid) as HM.
  unfold toQ in Hvlo, Hvhi. rewrite Ev in Hvlo, Hvhi. cbn [SF2Q] in Hvlo, Hvhi.
  fold (pw E) in Hvlo, Hvhi.
  pose proof (exponent_above _ _ HM Hvlo) as HE0.
  destruct (@bounded_normal M E Hvalid ltac:(lia)) as [_ HM'].
  pose proof (exponent_below _ _ (proj1 HM') Hvhi) as HE1.
  exists M, E. repeat split; try lia. exact Ev.
Qed.

(** The correctly rounded square is faithful. *)
Lemma repeated_product_faithful : faithful_square repeated_product.
Proof.
  intros h Hh0 Hh1.
  assert (Elo : Prim2SF 0x1p-300 = S754_finite false 4503599627370496 (-352))
    by (vm_compute; reflexivity).
  assert (Ehi : Prim2SF 0x1p+300 = S754_finite false 4503599627370496 248)
    by (vm_compute; reflexivity).
  destruct (@between_normal _ _ h _ _ _ _ Elo Ehi ltac:(lia) Hh0 Hh1)
    as (mh & eh & Eh & Hmh & Heh).
  destruct (@SFmul_accuracy mh eh mh eh Hmh Hmh)
    as (M2 & E2 & Emul & HM2 & HE2 & Hacc2); [lia|].
  change (repeated_product h 2) with (PrimFloat.mul h h).
  unfold toQ. rewrite mul_spec, Eh, Emul. exact Hacc2.
Qed.

(** Positive doubles with exponents in increasing order are in that order. *)
Lemma SFleb_of_exponents (m0 : positive) (e0 : Z) (m1 : positive) (e1 : Z) :
  (e0 < e1)%Z ->
  SFleb (S754_finite false m0 e0) (S754_finite false m1 e1) = true.
Proof.
  intros He. unfold SFleb. simpl.
  destruct (Z.compare_spec e0 e1); [lia|reflexivity|lia].
Qed.

(** A height that the prompt accepts is moderate, with an exponent between
    those of 0.5 and 2.5. *)
Lemma validated_height_moderate (h : float) :
  PrimFloat.leb 0.5 h = true -> PrimFloat.leb h 2.5 = true ->
  PrimFloat.leb 0x1p-300 h = true /\ PrimFloat.leb h 0x1p+300 = true /\
  exists (mh : positive) (eh : Z),
    Prim2SF h = S754_finite false mh eh /\ (-53 <= eh <= -51)%Z.
Proof.
  intros Hh0 Hh1.
  assert (E05 : Prim2SF 0.5 = S754_finite false 4503599627370496 (-53))
    by (vm_compute; reflexivity).
  assert (E25 : Prim2SF 2.5 = S754_finite false 5629499534213120 (-51))
    by (vm_compute; reflexivity).
  assert (Elo : Prim2SF 0x1p-300 = S754_finite false 4503599627370496 (-352))
    by (vm_compute; reflexivity).
  assert (Ehi : Prim2SF 0x1p+300 = S754_finite false 4503599627370496 248)
    by (vm_compute; reflexivity).
  destruct (@between_normal 0.5 2.5 h _ _ _ _ E05 E25 ltac:(lia) Hh0 Hh1)
    as (mh & eh & Eh & Hmh & Heh).
  rewrite !leb_spec, Eh, Elo, Ehi.
  split; [apply SFleb_of_exponents; lia|].
  split; [apply SFleb_of_exponents; lia|].
  exists mh, eh. split; [reflexivity|exact Heh].
Qed.

Section WithPow.
Variable libm_pow : float -> Z -> float.
Hypothesis libm_pow_faithful : faithful_square libm_pow.

(** The square of a moderate height, as the library returns it. *)
Lemma square_normal (h : float) :
  PrimFloat.leb 0x1p-300 h = true -> PrimFloat.leb h 0x1p+300 = true ->
  exists (mh : positive) (eh : Z) (M : positive) (E : Z),
    Prim2SF h = S754_finite false mh eh /\
    (2 ^ 52 <= Zpos mh < 2 ^ 53)%Z /\ (-352 <= eh <= 248)%Z /\
    Prim2SF (libm_pow h 2) = S754_finite false M E /\
    (2 ^ 52 <= Zpos M < 2 ^ 53)%Z /\ (2 * eh + 51 <= E <= 2 * eh + 54)%Z /\
    Qabs (SF2Q (S754_finite false M E)
          - SF2Q (S754_finite false mh eh) * SF2Q (S754_finite false mh eh))
    * inject_Z (2 ^ 52)
    <= SF2Q (S754_finite false mh eh) * SF2Q (S754_finite false mh eh).
Proof.
  intros Hh0 Hh1.
  assert (Elo : Prim2SF 0x1p-300 = S754_finite false 4503599627370496 (-352))
    by (vm_compute; reflexivity).
  assert (Ehi : Prim2SF 0x1p+300 = S754_finite false 4503599627370496 248)
    by (vm_compute; reflexivity).
  destruct (@between_normal _ _ h _ _ _ _ Elo Ehi ltac:(lia) Hh0 Hh1)
    as (mh & eh & Eh & Hmh & Heh).
  pose proof (@libm_pow_faithful h Hh0 Hh1) as Hf.
  unfold toQ in Hf at 2 3 4 5. rewrite Eh in Hf.
  destruct (@faithful_normal _ mh eh Hmh ltac:(lia) Hf) as (M & E & Ev & HM & HE).
  exists mh, eh, M, E. repeat split; try lia; try assumption.
  unfold toQ in Hf. rewrite Ev in Hf. exact Hf.
Qed.

(** The weight over that square is never NaN. *)
Lemma bmi_not_nan_with (w h : float) :
  is_finite_nonzero w = true ->
  PrimFloat.leb 0x1p-300 h = true -> PrimFloat.leb h 0x1p+300 = true ->
  isnan (PrimFloat.div w (libm_pow h 2)) = false.
Proof.
  unfold is_finite_nonzero, isnan. intros Hw Hh0 Hh1.
  destruct (square_normal Hh0 Hh1) as (mh & eh & M & E & _ & _ & _ & Ev & _).
  rewrite div_spec, Ev. apply SFdiv_finite_not_nan; [exact Hw|reflexivity].
Qed.

(** On the ranges the prompts accept, [w / pow(h, 2)] in doubles is within
    1e-9 of the exact quotient. *)
Lemma bmi_accuracy_with (w h : float) :
  PrimFloat.leb 20 w = true -> PrimFloat.leb w 300 = true ->
  PrimFloat.leb 0.5 h = true -> PrimFloat.leb h 2.5 = true ->
  (Qabs (toQ (w / libm_pow h 2) - toQ w / (toQ h * toQ h)) <= 1 # 1000000000)%Q.
Proof.
  intros Hw0 Hw1 Hh0 Hh1.
  assert (E20 : Prim2SF 20 = S754_finite false 5629499534213120 (-48))
    by (vm_compute; reflexivity).
  assert (E300 : Prim2SF 300 = S754_finite false 5277655813324800 (-44))
    by (vm_compute; reflexivity).
  destruct (@between_normal 20 300 w _ _ _ _ E20 E300 ltac:(lia) Hw0 Hw1)
    as (mw & ew & Ew & Hmw & Hew).
  destruct (validated_height_moderate Hh0 Hh1) as (Hm0 & Hm1 & mh0 & eh0 & Eh0 & Heh0).
  destruct (square_normal Hm0 Hm1)
    as (mh & eh & M2 & E2 & Eh & Hmh & _ & Epow & HM2 & HE2 & Hacc2).
  rewrite Eh in Eh0. injection Eh0 as <- <-.
  destruct (@SFdiv_accuracy mw ew M2 E2 Hmw HM2) as (Mb & Eb & Ediv & HMb & Haccb);
    [lia|].
  unfold toQ. rewrite div_spec, Epow, Eh, Ew, Ediv.
  set (W := SF2Q (S754_finite false mw ew)) in *.
  set (Hq := SF2Q (S754_finite false mh eh)) in *.
  set (V := SF2Q (S754_finite false M2 E2)) in *.
  set (B := SF2Q (S754_finite false Mb Eb)) in *.
  assert (HW : (0 < W /\ W <= 512)%Q).
  { destruct (normal_value ew Hmw) as [H0 H1]. fold W in H0, H1.
    pose proof (pw_pos (52 + ew)).
    pose proof (@pw_le (53 + ew) 9 ltac:(lia)) as Hp1.
    change (pw 9) with 512 in Hp1. split; lra. }
  assert (HH : (1 # 2 <= Hq)%Q).
  { destruct (normal_value eh Hmh) as [H0 _]. fold Hq in H0.
    pose proof (@pw_le (-1) (52 + eh) ltac:(lia)) as Hp1.
    change (pw (-1)) with (1 # 2) in Hp1. lra. }
  assert (HS : (1 # 4 <= Hq * Hq)%Q) by nra.
  change (inject_Z (2 ^ 52)) with 4503599627370496%Q in Hacc2, Haccb.
  assert (HVpos : (0 < V)%Q).
  { destruct (normal_value E2 HM2) as [H0 _]. fold V in H0.
    pose proof (pw_pos (52 + E2)). lra. }
  destruct HW as [HW0 HW1].
  apply (@quotient_error W (Hq * Hq) V B (W / V) (W / (Hq * Hq)))%Q;
    [exact HW0|exact HW1|exact HS| | |exact Hacc2|exact Haccb].
  - field. lra.
  - field. nra.
Qed.

(** Over the whole range of moderate doubles the error is relative: at most
    5 parts in 10^16 of [w / h^2]. *)
Lemma bmi_relative_accuracy_with (w h : float) :
  PrimFloat.leb 0x1p-300 w = true -> PrimFloat.leb w 0x1p+300 = true ->
  PrimFloat.leb 0x1p-300 h = true -> PrimFloat.leb h 0x1p+300 = true ->
  (Qabs (toQ (w / libm_pow h 2) - toQ w / (toQ h * toQ h))
   <= toQ w / (toQ h * toQ h) * (1 # 2000000000000000))%Q.
Proof.
  intros Hw0 Hw1 Hh0 Hh1.
  assert (Elo : Prim2SF 0x1p-300 = S754_finite false 4503599627370496 (-352))
    by (vm_compute; reflexivity).
  assert (Ehi : Prim2SF 0x1p+300 = S754_finite false 4503599627370496 248)
    by (vm_compute; reflexivity).
  destruct (@between_normal _ _ w _ _ _ _ Elo Ehi ltac:(lia) Hw0 Hw1)
    as (mw & ew & Ew & Hmw & Hew).
  destruct (square_normal Hh0 Hh1)
    as (mh & eh & M2 & E2 & Eh & Hmh & Heh & Epow & HM2 & HE2 & Hacc2).
  destruct (@SFdiv_accuracy mw ew M2 E2 Hmw HM2)
    as (Mb & Eb & Ediv & HMb & Haccb); [lia|].
  unfold toQ. rewrite div_spec, Epow, Eh, Ew, Ediv.
  assert (Hpos : forall (m : positive) (e : Z),
             (0 < SF2Q (S754_finite false m e))%Q).
  { intros m e. cbn [SF2Q]. pose proof (pw_pos e).
    assert (H1 : (0 < inject_Z (Zpos m))%Q) by (rewrite <- (Zlt_Qlt 0); lia).
    nra. }
  pose proof (Hpos mw ew) as HW. pose proof (Hpos mh eh) as HH.
  pose proof (Hpos M2 E2) as HV.
  set (W := SF2Q (S754_finite false mw ew)) in *.
  set (Hq := SF2Q (S754_finite false mh eh)) in *.
  set (V := SF2Q (S754_finite false M2 E2)) in *.
  set (B := SF2Q (S754_finite false Mb Eb)) in *.
  assert (HS : (0 < Hq * Hq)%Q) by nra.
  change (inject_Z (2 ^ 52)) with 4503599627370496%Q in Hacc2, Haccb.
  apply (@quotient_relative_error W (Hq * Hq) V B (W / V) (W / (Hq * Hq)))%Q;
    [exact HW|exact HS| | |exact Hacc2|exact Haccb].
  - field. lra.
  - field. nra.
Qed.

End WithPow.

(** Every double is below [2^(52+k)] or a multiple of [2^k]. *)
Lemma double_on_grid (x : float) (k : Z) :
  toQ x < pw (52 + k) \/ exists n : Z, toQ x == inject_Z n * pw k.
Proof.
  unfold toQ. pose proof (Prim2SF_valid x) as Hvalid.
  pose proof (pw_pos (52 + k)) as Hk.
  destruct (Prim2SF x) as [s|s| |[] M E]; cbn [SF2Q]; try (left; exact Hk).
  - left. fold (pw E). pose proof (pw_pos E).
    assert (H1 : 0 < inject_Z (Zpos M)) by (rewrite <- (Zlt_Qlt 0); lia).
    nra.
  - fold (pw E). simpl in Hvalid.
    pose proof (bounded_mantissa _ _ Hvalid) as HM.
    destruct (Z_lt_le_dec E k) as [Hlt|Hle].
    + left. pose proof (@pw_le (53 + E) (52 + k) ltac:(lia)) as Hp.
      rewrite pw_add in Hp. pose proof (pw_pos E).
      rewrite Zlt_Qlt in HM. change (inject_Z (2 ^ 53)) with (pw 53) in HM.
      nra.
    + right. exists (Zpos M * 2 ^ (E - k))%Z.
      rewrite inject_Z_mult, pw_inject by lia.
      replace E with ((E - k) + k)%Z at 1 by lia. rewrite pw_add. ring.
Qed.

(** So a number that is not near a multiple of [2^k], and above [2^(52+k)],
    is not near any double. *)
Lemma no_double_near (y eps : Q) (n k : Z) :
  pw (52 + k) + eps <= y ->
  inject_Z n * pw k + eps < y -> y < inject_Z (n + 1) * pw k - eps ->
  forall x : float, ~ Qabs (toQ x - y) <= eps.
Proof.
  intros Hbig Hlo Hhi x Hx. apply Qabs_Qle_condition in Hx.
  pose proof (pw_pos k) as Hk.
  destruct (double_on_grid x k) as [Hsmall|[n' Hn']]; [lra|].
  rewrite Hn' in Hx. rewrite inject_Z_plus in Hhi.
  change (inject_Z 1) with 1 in Hhi.
  destruct (Z_le_gt_dec n' n) as [Hle|Hgt].
  - rewrite Zle_Qle in Hle. nra.
  - assert (Hge : (n + 1 <= n')%Z) by lia.
    rewrite Zle_Qle, inject_Z_plus in Hge. change (inject_Z 1) with 1 in Hge.
    nra.
Qed.

End BmiAccuracy.

(** ** binary64: the calories of the three gram values *)

Module MacroAccuracy.
Import Binary64Facts Binary64Rounding BmiAccuracy.

Local Open Scope Q_scope.

(** An error bound scaled by [2^52], without the absolute value. *)
Lemma Qabs_scaled (x y : Q) :
  Qabs x * 4503599627370496 <= y -> - y <= x * 4503599627370496 <= y.
Proof.
  intros Hx. apply Qabs_Qle_condition.
  now rewrite Qabs_Qmult, (Qabs_pos 4503599627370496) by discriminate.
Qed.

(** [x * k / d] on positive normal doubles: the product and then the
    quotient are each within [2^-52], relatively, of the exact value. *)
Lemma mul_div_accuracy (x k d : float) (mx : positive) (ex : Z)
  (mk : positive) (ek : Z) (md : positive) (ed : Z) :
  Prim2SF x = S754_finite false mx ex ->
  Prim2SF k = S754_finite false mk ek ->
  Prim2SF d = S754_finite false md ed ->
  (2 ^ 52 <= Zpos mx < 2 ^ 53)%Z -> (2 ^ 52 <= Zpos mk < 2 ^ 53)%Z ->
  (2 ^ 52 <= Zpos md < 2 ^ 53)%Z ->
  (-400 <= ex <= 400)%Z -> (-100 <= ek <= 0)%Z -> (-100 <= ed <= 0)%Z ->
  exists t : Q,
    0 < t /\
    Qabs (t - toQ x * toQ k) * 4503599627370496 <= toQ x * toQ k /\
    Qabs (toQ (x * k / d)%float - t / toQ d) * 4503599627370496 <= t / toQ d.
Proof.
  intros Ex Ek Ed Hmx Hmk Hmd Hex Hek Hed.
  destruct (@SFmul_accuracy mx ex mk ek Hmx Hmk) as (M & E & Emul & HM & HE & Hacc);
    [lia|].
  destruct (@SFdiv_accuracy M E md ed HM Hmd) as (Mg & Eg & Ediv & HMg & Haccg);
    [lia|].
  exists (SF2Q (S754_finite false M E)).
  unfold toQ. rewrite div_spec, mul_spec, Ex, Ek, Ed, Emul, Ediv.
  change (inject_Z (2 ^ 52)) with 4503599627370496 in Hacc, Haccg.
  split; [|split; assumption].
  cbn [SF2Q]. pose proof (pw_pos E).
  assert (H1 : 0 < inject_Z (Zpos M)) by (rewrite <- (Zlt_Qlt 0); lia).
  nra.
Qed.

(** The calories of the three gram values against the calories they were
    split from. *)
Lemma macro_round_trip (c : float) :
  PrimFloat.leb 0x1p-300 c = true -> PrimFloat.leb c 0x1p+300 = true ->
  Qabs (toQ (carbsGrams MacroRatio_default c) * 4
        + toQ (proteinGrams MacroRatio_default c) * 4
        + toQ (fatGrams MacroRatio_default c) * 9 - toQ c)
  <= toQ c * (1 # 1000000000000000).
Proof.
  intros Hc0 Hc1.
  assert (Elo : Prim2SF 0x1p-300 = S754_finite false 4503599627370496 (-352))
    by (vm_compute; reflexivity).
  assert (Ehi : Prim2SF 0x1p+300 = S754_finite false 4503599627370496 248)
    by (vm_compute; reflexivity).
  destruct (@between_normal 0x1p-300 0x1p+300 c _ _ _ _ Elo Ehi ltac:(lia) Hc0 Hc1)
    as (mc & ec & Ec & Hmc & Hec).
  assert (Ecarbs : Prim2SF (lit 0.5) = S754_finite false 4503599627370496 (-53))
    by (vm_compute; reflexivity).
  assert (Eprotein : Prim2SF (lit 0.2) = S754_finite false 7205759403792794 (-55))
    by (vm_compute; reflexivity).
  assert (Efats : Prim2SF (lit 0.3) = S754_finite false 5404319552844595 (-54))
    by (vm_compute; reflexivity).
  assert (E4 : Prim2SF (lit 4.0) = S754_finite false 4503599627370496 (-50))
    by (vm_compute; reflexivity).
  assert (E9 : Prim2SF (lit 9.0) = S754_finite false 5066549580791808 (-49))
    by (vm_compute; reflexivity).
  destruct (@mul_div_accuracy c (lit 0.5) (lit 4.0) _ _ _ _ _ _ Ec Ecarbs E4)
    as (t1 & Ht1 & Hm1 & Hd1); try lia.
  destruct (@mul_div_accuracy c (lit 0.2) (lit 4.0) _ _ _ _ _ _ Ec Eprotein E4)
    as (t2 & Ht2 & Hm2 & Hd2); try lia.
  destruct (@mul_div_accuracy c (lit 0.3) (lit 9.0) _ _ _ _ _ _ Ec Efats E9)
    as (t3 & Ht3 & Hm3 & Hd3); try lia.
  change (carbsGrams MacroRatio_default c)
    with (PrimFloat.div (PrimFloat.mul c (lit 0.5)) (lit 4.0)).
  change (proteinGrams MacroRatio_default c)
    with (PrimFloat.div (PrimFloat.mul c (lit 0.2)) (lit 4.0)).
  change (fatGrams MacroRatio_default c)
    with (PrimFloat.div (PrimFloat.mul c (lit 0.3)) (lit 9.0)).
  set (g1 := toQ (c * lit 0.5 / lit 4.0)%float) in *.
  set (g2 := toQ (c * lit 0.2 / lit 4.0)%float) in *.
  set (g3 := toQ (c * lit 0.3 / lit 9.0)%float) in *.
  assert (K1 : toQ (lit 0.5) == 1 # 2) by (vm_compute; reflexivity).
  assert (K2 : toQ (lit 0.2) == 7205759403792794 # 36028797018963968)
    by (vm_compute; reflexivity).
  assert (K3 : toQ (lit 0.3) == 5404319552844595 # 18014398509481984)
    by (vm_compute; reflexivity).
  assert (K4 : toQ (lit 4.0) == 4) by (vm_compute; reflexivity).
  assert (K9 : toQ (lit 9.0) == 9) by (vm_compute; reflexivity).
  rewrite K1, K4 in *. rewrite K2 in *. rewrite K3, K9 in *.
  assert (HD : 0 < toQ c).
  { unfold toQ. rewrite Ec. cbn [SF2Q]. pose proof (pw_pos ec) as Hp.
    assert (H1 : 0 < inject_Z (Zpos mc)) by (rewrite <- (Zlt_Qlt 0); lia).
    nra. }
  set (D := toQ c) in *.
  apply Qabs_scaled in Hm1, Hm2, Hm3, Hd1, Hd2, Hd3.
  setoid_replace (t1 / 4) with (t1 * (1 # 4)) in Hd1 by field.
  setoid_replace (t2 / 4) with (t2 * (1 # 4)) in Hd2 by field.
  setoid_replace (t3 / 9) with (t3 * (1 # 9)) in Hd3 by field.
  apply Qabs_Qle_condition. split; lra.
Qed.

End MacroAccuracy.

(** ** binary64: negative and zero calories *)

Module MacroSigns.
Import Binary64Facts Binary64Rounding BmiAccuracy MacroAccuracy.

(** Rounding does not look at the sign: negating an operand of a product or
    the numerator of a quotient negates the result. *)
Lemma binary_round_aux_opp (s : bool) (m e : Z) (l : location) :
  SFopp (binary_round_aux prec emax s m e l)
  = binary_round_aux prec emax (negb s) m e l.
Proof.
  unfold binary_round_aux.
  destruct (shr_fexp prec emax m e l) as [mrs' e'].
  destruct (shr_fexp prec emax _ e' loc_Exact) as [mrs'' e''].
  destruct (shr_m mrs''); simpl; try reflexivity.
  destruct (_ <=? _)%Z; reflexivity.
Qed.

Lemma SFmul_opp_l (x y : spec_float) :
  SF64mul (SFopp x) y = SFopp (SF64mul x y).
Proof.
  unfold SF64mul.
  destruct x as [sx|sx| |sx mx ex], y as [sy|sy| |sy my ey]; simpl;
    rewrite <- ?negb_xorb_l; try reflexivity.
  now rewrite binary_round_aux_opp.
Qed.

Lemma SFdiv_opp_l (x y : spec_float) :
  SF64div (SFopp x) y = SFopp (SF64div x y).
Proof.
  unfold SF64div.
  destruct x as [sx|sx| |sx mx ex], y as [sy|sy| |sy my ey]; simpl;
    rewrite <- ?negb_xorb_l; try reflexivity.
  destruct (SFdiv_core_binary prec emax (Zpos mx) ex (Zpos my) ey)
    as [[mz ez] lz].
  now rewrite binary_round_aux_opp.
Qed.

Lemma SFcompare_opp (x y : spec_float) :
  SFcompare (SFopp y) (SFopp x) = SFcompare x y.
Proof.
  destruct x as [[]|[]| |[] mx ex], y as [[]|[]| |[] my ey];
    simpl; try reflexivity;
    rewrite (Z.compare_antisym ex ey);
    change (Pos.compare_cont Eq my mx) with (Pos.compare my mx);
    change (Pos.compare_cont Eq mx my) with (Pos.compare mx my);
    rewrite (Pos.compare_antisym mx my);
    destruct (ex ?= ey)%Z; simpl; try reflexivity;
    destruct (mx ?= my)%positive; reflexivity.
Qed.

Lemma SF2Q_opp (x : spec_float) : (SF2Q (SFopp x) == - SF2Q x)%Q.
Proof.
  destruct x as [s|s| |[] m e]; simpl; try reflexivity.
  now rewrite Qopp_involutive.
Qed.

Lemma opp_involutive (x : float) : PrimFloat.opp (PrimFloat.opp x) = x.
Proof.
  apply Prim2SF_inj. rewrite !opp_spec.
  destruct (Prim2SF x) as [s|s| |s m e]; simpl; now rewrite ?negb_involutive.
Qed.

Lemma leb_opp (x y : float) :
  PrimFloat.leb (PrimFloat.opp y) (PrimFloat.opp x) = PrimFloat.leb x y.
Proof.
  rewrite !leb_spec, !opp_spec. unfold SFleb. now rewrite SFcompare_opp.
Qed.

Lemma toQ_opp (x : float) : (toQ (PrimFloat.opp x) == - toQ x)%Q.
Proof. unfold toQ. rewrite opp_spec. apply SF2Q_opp. Qed.

Lemma mul_div_opp (x k d : float) :
  (toQ (PrimFloat.opp x * k / d)%float == - toQ (x * k / d)%float)%Q.
Proof.
  unfold toQ.
  rewrite (div_spec (PrimFloat.opp x * k)), (mul_spec (PrimFloat.opp x)),
    opp_spec, SFmul_opp_l, SFdiv_opp_l, <- mul_spec, <- div_spec.
  apply SF2Q_opp.
Qed.

Local Open Scope Q_scope.

Lemma macro_round_trip_neg (c : float) :
  PrimFloat.leb (-0x1p+300) c = true -> PrimFloat.leb c (-0x1p-300) = true ->
  Qabs (toQ (carbsGrams MacroRatio_default c) * 4
        + toQ (proteinGrams MacroRatio_default c) * 4
        + toQ (fatGrams MacroRatio_default c) * 9 - toQ c)
  <= Qabs (toQ c) * (1 # 1000000000000000).
Proof.
  intros Hc0 Hc1.
  rewrite <- (opp_involutive c) in *. set (c' := PrimFloat.opp c) in *.
  change (-0x1p+300)%float with (PrimFloat.opp 0x1p+300) in Hc0.
  change (-0x1p-300)%float with (PrimFloat.opp 0x1p-300) in Hc1.
  rewrite leb_opp in Hc0, Hc1.
  pose proof (@macro_round_trip c' Hc1 Hc0) as Hpos.
  change (carbsGrams MacroRatio_default (PrimFloat.opp c'))
    with (PrimFloat.div (PrimFloat.mul (PrimFloat.opp c') (lit 0.5)) (lit 4.0)).
  change (proteinGrams MacroRatio_default (PrimFloat.opp c'))
    with (PrimFloat.div (PrimFloat.mul (PrimFloat.opp c') (lit 0.2)) (lit 4.0)).
  change (fatGrams MacroRatio_default (PrimFloat.opp c'))
    with (PrimFloat.div (PrimFloat.mul (PrimFloat.opp c') (lit 0.3)) (lit 9.0)).
  change (carbsGrams MacroRatio_default c')
    with (PrimFloat.div (PrimFloat.mul c' (lit 0.5)) (lit 4.0)) in Hpos.
  change (proteinGrams MacroRatio_default c')
    with (PrimFloat.div (PrimFloat.mul c' (lit 0.2)) (lit 4.0)) in Hpos.
  change (fatGrams MacroRatio_default c')
    with (PrimFloat.div (PrimFloat.mul c' (lit 0.3)) (lit 9.0)) in Hpos.
  rewrite !mul_div_opp, toQ_opp, Qabs_opp.
  pose proof (Qabs_nonneg (toQ (c' * lit 0.5 / lit 4.0)%float * 4
        + toQ (c' * lit 0.2 / lit 4.0)%float * 4
        + toQ (c' * lit 0.3 / lit 9.0)%float * 9 - toQ c')) as Hnn.
  rewrite (Qabs_pos (toQ c')) by lra.
  apply Qabs_Qle_condition in Hpos. apply Qabs_Qle_condition. split; lra.
Qed.

Lemma macro_round_trip_zero (c : float) :
  PrimFloat.eqb c 0 = true ->
  Qabs (toQ (carbsGrams MacroRatio_default c) * 4
        + toQ (proteinGrams MacroRatio_default c) * 4
        + toQ (fatGrams MacroRatio_default c) * 9 - toQ c)
  <= Qabs (toQ c) * (1 # 1000000000000000).
Proof.
  rewrite eqb_spec. intros Hc.
  assert (E0 : Prim2SF 0 = S754_zero false) by (vm_compute; reflexivity).
  rewrite E0 in Hc. unfold SFeqb in Hc.
  assert (Hz : exists s, Prim2SF c = S754_zero s).
  { destruct (Prim2SF c) as [s|[]| |[] m e]; simpl in Hc; try discriminate.
    now exists s. }
  destruct Hz as [s Hs]. rewrite <- (SF2Prim_Prim2SF c), Hs.
  destruct s; vm_compute; discriminate.
Qed.

(** All three cases together. *)
Lemma macro_round_trip_moderate (c : float) :
  moderate c ->
  Qabs (toQ (carbsGrams MacroRatio_default c) * 4
        + toQ (proteinGrams MacroRatio_default c) * 4
        + toQ (fatGrams MacroRatio_default c) * 9 - toQ c)
  <= Qabs (toQ c) * (1 # 1000000000000000).
Proof.
  intros [Hz|[[H0 H1]|[H0 H1]]].
  - now apply macro_round_trip_zero.
  - pose proof (@macro_round_trip c H0 H1) as Hpos.
    pose proof (Qabs_nonneg (toQ (carbsGrams MacroRatio_default c) * 4
        + toQ (proteinGrams MacroRatio_default c) * 4
        + toQ (fatGrams MacroRatio_default c) * 9 - toQ c)) as Hnn.
    rewrite (Qabs_pos (toQ c)) by lra. exact Hpos.
  - now apply macro_round_trip_neg.
Qed.

End MacroSigns.

(** ** binary64: the range tests on the values *)

Module Binary64Order.
Import Binary64Facts Binary64Rounding BmiAccuracy.

Local Open Scope Q_scope.

(** The exponent of a double is at least that of the subnormals. *)
Lemma bounded_exponent (m : positive) (e : Z) :
  bounded prec emax m e = true -> (-1074 <= e)%Z.
Proof.
  unfold bounded, canonical_mantissa, fexp, SpecFloat.emin, prec, emax.
  intros Hb. apply andb_true_iff in Hb. destruct Hb as [Hc _].
  apply Z.eqb_eq in Hc. lia.
Qed.

Lemma finite_pos (m : positive) (e : Z) : 0 < inject_Z (Zpos m) * pw e.
Proof.
  pose proof (pw_pos e).
  assert (H1 : 0 < inject_Z (Zpos m)) by (rewrite <- (Zlt_Qlt 0); lia).
  nra.
Qed.

(** Of two positive doubles, the one with the smaller exponent is the
    smaller. *)
Lemma exponent_order (m1 : positive) (e1 : Z) (m2 : positive) (e2 : Z) :
  bounded prec emax m1 e1 = true -> bounded prec emax m2 e2 = true ->
  (e1 < e2)%Z ->
  inject_Z (Zpos m1) * pw e1 < inject_Z (Zpos m2) * pw e2.
Proof.
  intros H1 H2 He.
  pose proof (bounded_mantissa _ _ H1) as Hm1.
  pose proof (bounded_exponent _ _ H1) as He1.
  destruct (@bounded_normal m2 e2 H2 ltac:(lia)) as [_ [Hm2 _]].
  rewrite Zlt_Qlt in Hm1. rewrite Zle_Qle in Hm2.
  change (inject_Z (2 ^ 53)) with (pw 53) in Hm1.
  change (inject_Z (2 ^ 52)) with (pw 52) in Hm2.
  pose proof (@pw_le (53 + e1) (52 + e2) ltac:(lia)) as Hp.
  rewrite !pw_add in Hp.
  pose proof (pw_pos e1). pose proof (pw_pos e2).
  nra.
Qed.

Lemma mantissa_order (m1 m2 : positive) (e : Z) :
  (inject_Z (Zpos m1) * pw e <= inject_Z (Zpos m2) * pw e) <->
  (Zpos m1 <= Zpos m2)%Z.
Proof.
  pose proof (pw_pos e). rewrite Zle_Qle. split; intros Hm; nra.
Qed.

(** The comparison of two positive doubles is that of their values. *)
Lemma SFleb_positive (m1 : positive) (e1 : Z) (m2 : positive) (e2 : Z) :
  bounded prec emax m1 e1 = true -> bounded prec emax m2 e2 = true ->
  (SFleb (S754_finite false m1 e1) (S754_finite false m2 e2) = true <->
   inject_Z (Zpos m1) * pw e1 <= inject_Z (Zpos m2) * pw e2).
Proof.
  intros H1 H2. unfold SFleb, SFcompare.
  destruct (Z.compare_spec e1 e2) as [->|He|He].
  - rewrite mantissa_order.
    change (Pos.compare_cont Eq m1 m2) with (Pos.compare m1 m2).
    destruct (Pos.compare_spec m1 m2); split; intros; try lia;
      try reflexivity; try discriminate.
  - pose proof (@exponent_order m1 e1 m2 e2 H1 H2 He).
    split; [lra|reflexivity].
  - pose proof (@exponent_order m2 e2 m1 e1 H2 H1 He).
    split; [discriminate|lra].
Qed.

(** For doubles that are neither NaN nor infinite, [<=] is the order of the
    values. *)
Lemma SFleb_SF2Q (x y : spec_float) :
  valid_binary x = true -> valid_binary y = true ->
  SFis_finite x = true -> SFis_finite y = true ->
  (SFleb x y = true <-> SF2Q x <= SF2Q y).
Proof.
  destruct x as [sx|sx| |sx mx ex]; try discriminate;
    destruct y as [sy|sy| |sy my ey]; try discriminate;
    intros Hx Hy _ _; cbn [SF2Q].
  - split; [intros _; lra|reflexivity].
  - fold (pw ey). pose proof (finite_pos my ey).
    destruct sy; unfold SFleb; simpl; split;
      try discriminate; try reflexivity; intros; lra.
  - fold (pw ex). pose proof (finite_pos mx ex).
    destruct sx; unfold SFleb; simpl; split;
      try discriminate; try reflexivity; intros; lra.
  - fold (pw ex) (pw ey).
    simpl in Hx, Hy. pose proof (finite_pos mx ex). pose proof (finite_pos my ey).
    destruct sx, sy.
    + pose proof (@SFleb_positive my ey mx ex Hy Hx) as Hpos.
      assert (Hflip : SFleb (S754_finite true mx ex) (S754_finite true my ey)
                      = SFleb (S754_finite false my ey) (S754_finite false mx ex)).
      { unfold SFleb, SFcompare. rewrite (Z.compare_antisym ex ey).
        change (Pos.compare_cont Eq mx my) with (Pos.compare mx my).
        change (Pos.compare_cont Eq my mx) with (Pos.compare my mx).
        rewrite (Pos.compare_antisym mx my).
        destruct (ex ?= ey)%Z; simpl; reflexivity. }
      rewrite Hflip, Hpos. split; intros; lra.
    + split; [intros _; lra|reflexivity].
    + split; [discriminate|intros; lra].
    + apply SFleb_positive; assumption.
Qed.

Lemma leb_toQ (x y : float) :
  isfinite x = true -> isfinite y = true ->
  (PrimFloat.leb x y = true <-> toQ x <= toQ y).
Proof.
  unfold isfinite, toQ. intros Hx Hy. rewrite leb_spec.
  apply SFleb_SF2Q; try assumption; apply Prim2SF_valid.
Qed.

(** What compares with a finite double on both sides is finite. *)
Lemma between_isfinite (lo hi v : float) :
  isfinite lo = true -> isfinite hi = true ->
  PrimFloat.leb lo v = true -> PrimFloat.leb v hi = true ->
  isfinite v = true.
Proof.
  unfold isfinite. rewrite !leb_spec.
  destruct (Prim2SF lo) as [| | |slo mlo elo]; try discriminate;
    destruct (Prim2SF hi) as [| | |shi mhi ehi]; try discriminate;
    destruct (Prim2SF v) as [|[]| |sv mv ev]; intros _ _ H0 H1;
    try reflexivity; try discriminate;
    try (destruct shi; discriminate); try (destruct slo; discriminate).
Qed.

End Binary64Order.

(** ** binary64: sums and differences

    The accuracy of [+] and [-] on doubles, from their specification. *)

Module Binary64Sum.
Import Binary64Facts Binary64Rounding BmiAccuracy MacroSigns.

Local Open Scope Z_scope.

(** Shifting a mantissa left. *)
Lemma iter_xO (m d : positive) : Zpos (Pos.iter xO m d) = Zpos m * 2 ^ Zpos d.
Proof.
  induction d as [|d IH] using Pos.peano_ind.
  - simpl. lia.
  - rewrite Pos.iter_succ, Pos2Z.inj_xO, IH, Pos2Z.inj_succ, Z.pow_succ_r by lia.
    ring.
Qed.

(** [shl_align] keeps the value and takes the smaller exponent. *)
Lemma shl_align_value (mx : positive) (ex ez : Z) :
  ez <= ex ->
  snd (shl_align mx ex ez) = ez /\
  Zpos (fst (shl_align mx ex ez)) = Zpos mx * 2 ^ (ex - ez).
Proof.
  intros He. unfold shl_align.
  destruct (ez - ex) as [|d|d] eqn:Hd; simpl.
  - assert (Hx : ex = ez) by lia. rewrite Hx, Z.sub_diag, Z.pow_0_r.
    split; [reflexivity|lia].
  - lia.
  - rewrite iter_xO. replace (ex - ez)%Z with (Zpos d) by lia.
    split; reflexivity.
Qed.

Lemma Zdigits2_shift (m : positive) (d : Z) :
  0 <= d -> Zdigits2 (Zpos m * 2 ^ d) = Zdigits2 (Zpos m) + d.
Proof.
  intros Hd.
  destruct (@Zdigits2_bounds (Zpos m)) as [[Hlo Hhi] Hk]; [lia|].
  apply Zdigits2_unique; [|lia].
  replace (Zdigits2 (Zpos m) + d - 1) with ((Zdigits2 (Zpos m) - 1) + d) by lia.
  rewrite !Z.pow_add_r by lia.
  assert (0 < 2 ^ d) by (apply Z.pow_pos_nonneg; lia).
  nia.
Qed.

Local Open Scope Q_scope.

(** Rounding an integer times a power of two, away from overflow and
    underflow: the result is normal and within [2^-52] of the value. *)
Lemma binary_round_accuracy (s : bool) (mx : positive) (ex : Z) :
  (-1074 <= Zdigits2 (Zpos mx) + ex - 53)%Z ->
  (Zdigits2 (Zpos mx) + ex - 52 <= 971)%Z ->
  exists (M : positive) (E : Z),
    binary_round prec emax s mx ex = S754_finite s M E /\
    (2 ^ 52 <= Zpos M < 2 ^ 53)%Z /\
    (Zdigits2 (Zpos mx) + ex - 53 <= E <= Zdigits2 (Zpos mx) + ex - 52)%Z /\
    Qabs (inject_Z (Zpos M) * pw E - inject_Z (Zpos mx) * pw ex)
    * inject_Z (2 ^ 52)
    <= inject_Z (Zpos mx) * pw ex.
Proof.
  intros Hlo Hhi. unfold binary_round.
  set (d := Zdigits2 (Zpos mx)) in *.
  assert (Hd : (0 < d)%Z) by (unfold d; simpl; lia).
  assert (Hf : fexp prec emax (Zpos (digits2_pos mx) + ex) = (d + ex - 53)%Z).
  { unfold fexp, SpecFloat.emin, prec, emax. fold d. change (Zpos (digits2_pos mx)) with d. lia. }
  rewrite Hf.
  destruct (Z_le_gt_dec (d + ex - 53) ex) as [Hle|Hgt].
  - destruct (@shl_align_value mx ex (d + ex - 53) Hle) as [He Hm].
    destruct (shl_align mx ex (d + ex - 53)) as [mz ez]. cbn [fst snd] in He, Hm. subst ez.
    assert (Hdz : Zdigits2 (Zpos mz) = 53%Z).
    { rewrite Hm, Zdigits2_shift by lia. fold d. lia. }
    destruct (@binary_round_aux_accuracy (Zpos mz) (d + ex - 53) loc_Exact
                (inject_Z (Zpos mz)))
      as (M & E & Hres & HM & HE & Hacc); try lia.
    { split; lra. }
    exists M, E. split.
    + destruct s; [|exact Hres].
      rewrite <- (binary_round_aux_opp false), Hres. reflexivity.
    + split; [exact HM|]. split; [lia|].
      assert (HV : inject_Z (Zpos mz) * pw (d + ex - 53)
                   == inject_Z (Zpos mx) * pw ex).
      { rewrite Hm, inject_Z_mult, pw_inject by lia.
        assert (Hp : pw ex == pw (ex - (d + ex - 53)) * pw (d + ex - 53)).
        { rewrite <- pw_add.
          replace (ex - (d + ex - 53) + (d + ex - 53))%Z with ex by lia.
          reflexivity. }
        rewrite Hp. ring. }
      rewrite <- HV. exact Hacc.
  - assert (Hsame : shl_align mx ex (d + ex - 53) = (mx, ex)).
    { unfold shl_align. destruct (d + ex - 53 - ex)%Z eqn:Hz; try reflexivity. lia. }
    rewrite Hsame.
    destruct (@binary_round_aux_accuracy (Zpos mx) ex loc_Exact
                (inject_Z (Zpos mx)))
      as (M & E & Hres & HM & HE & Hacc); fold d; try lia.
    { split; lra. }
    exists M, E. split.
    + destruct s; [|exact Hres].
      rewrite <- (binary_round_aux_opp false), Hres. reflexivity.
    + split; [exact HM|]. split; [fold d in HE; lia|exact Hacc].
Qed.

(** Normalising an integer times a power of two. *)
Lemma binary_normalize_accuracy (m e k : Z) :
  (-1021 <= e)%Z -> (Z.abs m < 2 ^ k)%Z -> (0 <= k)%Z -> (k + e <= 1023)%Z ->
  Qabs (SF2Q (binary_normalize prec emax m e false) - inject_Z m * pw e)
  * inject_Z (2 ^ 52)
  <= Qabs (inject_Z m * pw e) /\
  (binary_normalize prec emax m e false = S754_zero false \/
   exists (s : bool) (M : positive) (E : Z),
     binary_normalize prec emax m e false = S754_finite s M E /\
     (2 ^ 52 <= Zpos M < 2 ^ 53)%Z /\ (e - 52 <= E <= k + e - 52)%Z).
Proof.
  intros He Hm Hk Hke.
  assert (Hdig : forall p : positive,
             (Zpos p < 2 ^ k)%Z ->
             (0 < Zdigits2 (Zpos p) <= k)%Z).
  { intros p Hp. destruct (@Zdigits2_bounds (Zpos p)) as [[Hlo _] Hpos]; [lia|].
    split; [exact Hpos|].
    destruct (Z_le_gt_dec (Zdigits2 (Zpos p)) k) as [|Hgt]; [assumption|].
    assert ((2 ^ k <= 2 ^ (Zdigits2 (Zpos p) - 1))%Z)
      by (apply Z.pow_le_mono_r; lia).
    lia. }
  destruct m as [|p|p]; cbn [binary_normalize].
  - split; [|left; reflexivity].
    cbn [SF2Q]. change (inject_Z 0) with 0.
    setoid_replace (0 * pw e) with 0 by ring.
    vm_compute. discriminate.
  - destruct (Hdig p ltac:(lia)) as [Hd0 Hd1].
    destruct (@binary_round_accuracy false p e) as (M & E & Hres & HM & HE & Hacc);
      try lia.
    rewrite Hres. split.
    + cbn [SF2Q]. fold (pw E).
      pose proof (Binary64Order.finite_pos p e) as Hpos.
      rewrite (Qabs_pos (inject_Z (Zpos p) * pw e)) by lra. exact Hacc.
    + right. exists false, M, E. repeat split; try lia. 
  - destruct (Hdig p ltac:(lia)) as [Hd0 Hd1].
    destruct (@binary_round_accuracy true p e) as (M & E & Hres & HM & HE & Hacc);
      try lia.
    rewrite Hres. split.
    + cbn [SF2Q]. fold (pw E).
      pose proof (Binary64Order.finite_pos p e) as Hpos.
      change (inject_Z (Zneg p)) with (- inject_Z (Zpos p)).
      setoid_replace (- (inject_Z (Zpos M) * pw E) - - inject_Z (Zpos p) * pw e)
        with (- (inject_Z (Zpos M) * pw E - inject_Z (Zpos p) * pw e)) by ring.
      setoid_replace (- inject_Z (Zpos p) * pw e)
        with (- (inject_Z (Zpos p) * pw e)) by ring.
      rewrite !Qabs_opp.
      rewrite (Qabs_pos (inject_Z (Zpos p) * pw e)) by lra. exact Hacc.
    + right. exists true, M, E. repeat split; try lia.
Qed.

(** The value of a finite double as a signed integer times a power of two. *)
Lemma SF2Q_signed (s : bool) (m : positive) (e : Z) :
  SF2Q (S754_finite s m e) == inject_Z (cond_Zopp s (Zpos m)) * pw e.
Proof.
  cbn [SF2Q]. fold (pw e). destruct s; simpl cond_Zopp; [|reflexivity].
  change (inject_Z (Zneg m)) with (- inject_Z (Zpos m)). ring.
Qed.

Lemma aligned_value (s : bool) (m : positive) (e ez : Z) :
  (ez <= e)%Z ->
  inject_Z (cond_Zopp s (Zpos (fst (shl_align m e ez)))) * pw ez
  == SF2Q (S754_finite s m e).
Proof.
  intros He. destruct (@shl_align_value m e ez He) as [_ Hm].
  rewrite SF2Q_signed.
  assert (Hc : cond_Zopp s (Zpos (fst (shl_align m e ez)))
               = (cond_Zopp s (Zpos m) * 2 ^ (e - ez))%Z).
  { rewrite Hm. destruct s; unfold cond_Zopp; ring. }
  rewrite Hc, inject_Z_mult, pw_inject by lia.
  assert (Hp : pw e == pw (e - ez) * pw ez).
  { rewrite <- pw_add. replace (e - ez + ez)%Z with e by lia. reflexivity. }
  rewrite Hp. ring.
Qed.

Lemma aligned_bound (s : bool) (m : positive) (e ez hi : Z) :
  (ez <= e <= hi)%Z -> (Zpos m < 2 ^ 53)%Z ->
  (Z.abs (cond_Zopp s (Zpos (fst (shl_align m e ez)))) < 2 ^ (53 + hi - ez))%Z.
Proof.
  intros He Hm. destruct (@shl_align_value m e ez (proj1 He)) as [_ Hv].
  rewrite Hv.
  assert (Habs : Z.abs (cond_Zopp s (Zpos m * 2 ^ (e - ez)))
                 = (Zpos m * 2 ^ (e - ez))%Z).
  { assert (0 < 2 ^ (e - ez))%Z by (apply Z.pow_pos_nonneg; lia).
    assert (0 < Zpos m * 2 ^ (e - ez))%Z by (apply Z.mul_pos_pos; lia).
    destruct s; unfold cond_Zopp; lia. }
  rewrite Habs.
  replace (53 + hi - ez)%Z with (53 + (hi - ez))%Z by lia.
  rewrite Z.pow_add_r by lia.
  assert (H1 : (0 < 2 ^ (e - ez) <= 2 ^ (hi - ez))%Z).
  { split; [apply Z.pow_pos_nonneg; lia|apply Z.pow_le_mono_r; lia]. }
  nia.
Qed.

(** The sum and the difference of two finite doubles. *)
Lemma SFadd_accuracy (sx : bool) (mx : positive) (ex : Z) (sy : bool)
  (my : positive) (ey lo hi : Z) :
  (Zpos mx < 2 ^ 53)%Z -> (Zpos my < 2 ^ 53)%Z ->
  (-1021 <= lo)%Z -> (hi <= 900)%Z ->
  (lo <= ex <= hi)%Z -> (lo <= ey <= hi)%Z ->
  Qabs (SF2Q (SF64add (S754_finite sx mx ex) (S754_finite sy my ey))
        - (SF2Q (S754_finite sx mx ex) + SF2Q (S754_finite sy my ey)))
  * inject_Z (2 ^ 52)
  <= Qabs (SF2Q (S754_finite sx mx ex) + SF2Q (S754_finite sy my ey)) /\
  (SF64add (S754_finite sx mx ex) (S754_finite sy my ey) = S754_zero false \/
   exists (s : bool) (M : positive) (E : Z),
     SF64add (S754_finite sx mx ex) (S754_finite sy my ey)
     = S754_finite s M E /\
     (2 ^ 52 <= Zpos M < 2 ^ 53)%Z /\ (lo - 52 <= E <= hi + 2)%Z).
Proof.
  intros Hmx Hmy Hlo Hhi Hex Hey. unfold SF64add, SFadd.
  set (ez := Z.min ex ey).
  assert (Hez : (lo <= ez /\ ez <= ex /\ ez <= ey)%Z) by (unfold ez; lia).
  set (a := cond_Zopp sx (Zpos (fst (shl_align mx ex ez)))).
  set (b := cond_Zopp sy (Zpos (fst (shl_align my ey ez)))).
  pose proof (@aligned_value sx mx ex ez ltac:(lia)) as Ha.
  pose proof (@aligned_value sy my ey ez ltac:(lia)) as Hb.
  pose proof (@aligned_bound sx mx ex ez hi ltac:(lia) Hmx) as Hba.
  pose proof (@aligned_bound sy my ey ez hi ltac:(lia) Hmy) as Hbb.
  fold a in Ha, Hba. fold b in Hb, Hbb.
  assert (Hsum : (Z.abs (a + b) < 2 ^ (54 + hi - ez))%Z).
  { replace (54 + hi - ez)%Z with (1 + (53 + hi - ez))%Z by lia.
    rewrite Z.pow_add_r by lia. change (2 ^ 1)%Z with 2%Z. lia. }
  destruct (@binary_normalize_accuracy (a + b) ez (54 + hi - ez))
    as [Hacc Hshape]; try lia.
  assert (Hv : inject_Z (a + b) * pw ez
               == SF2Q (S754_finite sx mx ex) + SF2Q (S754_finite sy my ey)).
  { rewrite inject_Z_plus, <- Ha, <- Hb. ring. }
  rewrite Hv in Hacc. split; [exact Hacc|].
  destruct Hshape as [Hz|(s & M & E & Hr & HM & HE)]; [left; exact Hz|].
  right. exists s, M, E. repeat split; try lia. exact Hr.
Qed.

Lemma SFsub_accuracy (sx : bool) (mx : positive) (ex : Z) (sy : bool)
  (my : positive) (ey lo hi : Z) :
  (Zpos mx < 2 ^ 53)%Z -> (Zpos my < 2 ^ 53)%Z ->
  (-1021 <= lo)%Z -> (hi <= 900)%Z ->
  (lo <= ex <= hi)%Z -> (lo <= ey <= hi)%Z ->
  Qabs (SF2Q (SF64sub (S754_finite sx mx ex) (S754_finite sy my ey))
        - (SF2Q (S754_finite sx mx ex) - SF2Q (S754_finite sy my ey)))
  * inject_Z (2 ^ 52)
  <= Qabs (SF2Q (S754_finite sx mx ex) - SF2Q (S754_finite sy my ey)) /\
  (SF64sub (S754_finite sx mx ex) (S754_finite sy my ey) = S754_zero false \/
   exists (s : bool) (M : positive) (E : Z),
     SF64sub (S754_finite sx mx ex) (S754_finite sy my ey)
     = S754_finite s M E /\
     (2 ^ 52 <= Zpos M < 2 ^ 53)%Z /\ (lo - 52 <= E <= hi + 2)%Z).
Proof.
  intros Hmx Hmy Hlo Hhi Hex Hey. unfold SF64sub, SFsub.
  set (ez := Z.min ex ey).
  assert (Hez : (lo <= ez /\ ez <= ex /\ ez <= ey)%Z) by (unfold ez; lia).
  set (a := cond_Zopp sx (Zpos (fst (shl_align mx ex ez)))).
  set (b := cond_Zopp sy (Zpos (fst (shl_align my ey ez)))).
  pose proof (@aligned_value sx mx ex ez ltac:(lia)) as Ha.
  pose proof (@aligned_value sy my ey ez ltac:(lia)) as Hb.
  pose proof (@aligned_bound sx mx ex ez hi ltac:(lia) Hmx) as Hba.
  pose proof (@aligned_bound sy my ey ez hi ltac:(lia) Hmy) as Hbb.
  fold a in Ha, Hba. fold b in Hb, Hbb.
  assert (Hsum : (Z.abs (a - b) < 2 ^ (54 + hi - ez))%Z).
  { replace (54 + hi - ez)%Z with (1 + (53 + hi - ez))%Z by lia.
    rewrite Z.pow_add_r by lia. change (2 ^ 1)%Z with 2%Z. lia. }
  destruct (@binary_normalize_accuracy (a - b) ez (54 + hi - ez))
    as [Hacc Hshape]; try lia.
  assert (Hv : inject_Z (a - b) * pw ez
               == SF2Q (S754_finite sx mx ex) - SF2Q (S754_finite sy my ey)).
  { unfold Z.sub. rewrite inject_Z_plus, inject_Z_opp, <- Ha, <- Hb. ring. }
  rewrite Hv in Hacc. split; [exact Hacc|].
  destruct Hshape as [Hz|(s & M & E & Hr & HM & HE)]; [left; exact Hz|].
  right. exists s, M, E. repeat split; try lia. exact Hr.
Qed.

End Binary64Sum.

(** ** binary64: the accuracy of the two [bmr] expressions *)

Module BmrAccuracy.
Import Binary64Facts Binary64Rounding BmiAccuracy MacroAccuracy MacroSigns Binary64Sum.

Local Open Scope Q_scope.

(** The product of two positive normal doubles, on the doubles. *)
Lemma mul_normal (x y : float) (mx : positive) (ex : Z) (my : positive)
  (ey : Z) :
  Prim2SF x = S754_finite false mx ex -> Prim2SF y = S754_finite false my ey ->
  (2 ^ 52 <= Zpos mx < 2 ^ 53)%Z -> (2 ^ 52 <= Zpos my < 2 ^ 53)%Z ->
  (-1126 <= ex + ey <= 917)%Z ->
  exists (M : positive) (E : Z),
    Prim2SF (x * y)%float = S754_finite false M E /\
    (2 ^ 52 <= Zpos M < 2 ^ 53)%Z /\ (ex + ey + 52 <= E <= ex + ey + 54)%Z /\
    0 < toQ (x * y)%float /\
    Qabs (toQ (x * y)%float - toQ x * toQ y) * 4503599627370496
    <= toQ x * toQ y.
Proof.
  intros Ex Ey Hmx Hmy He.
  destruct (@SFmul_accuracy mx ex my ey Hmx Hmy He)
    as (M & E & Emul & HM & HE & Hacc).
  exists M, E. unfold toQ. rewrite mul_spec, Ex, Ey, Emul.
  repeat split; try lia; try exact Hacc.
  cbn [SF2Q]. apply Binary64Order.finite_pos.
Qed.

(** The sum of two positive normal doubles. *)
Lemma add_normal (x y : float) (mx : positive) (ex : Z) (my : positive)
  (ey lo hi : Z) :
  Prim2SF x = S754_finite false mx ex -> Prim2SF y = S754_finite false my ey ->
  (2 ^ 52 <= Zpos mx < 2 ^ 53)%Z -> (2 ^ 52 <= Zpos my < 2 ^ 53)%Z ->
  (-1021 <= lo)%Z -> (hi <= 900)%Z ->
  (lo <= ex <= hi)%Z -> (lo <= ey <= hi)%Z ->
  exists (M : positive) (E : Z),
    Prim2SF (x + y)%float = S754_finite false M E /\
    (2 ^ 52 <= Zpos M < 2 ^ 53)%Z /\ (lo <= E <= hi + 2)%Z /\
    0 < toQ (x + y)%float /\
    Qabs (toQ (x + y)%float - (toQ x + toQ y)) * 4503599627370496
    <= toQ x + toQ y.
Proof.
  intros Ex Ey Hmx Hmy Hlo Hhi Hex Hey.
  destruct (@SFadd_accuracy false mx ex false my ey lo hi)
    as [Hacc Hshape]; try lia.
  destruct (normal_value ex Hmx) as [Hx0 Hx1].
  destruct (normal_value ey Hmy) as [Hy0 Hy1].
  pose proof (@pw_le (52 + lo) (52 + ex) ltac:(lia)) as Hpx.
  pose proof (@pw_le (52 + lo) (52 + ey) ltac:(lia)) as Hpy.
  pose proof (pw_pos (52 + lo)) as Hp.
  unfold toQ. rewrite add_spec, Ex, Ey.
  set (X := SF2Q (S754_finite false mx ex)) in *.
  set (Y := SF2Q (S754_finite false my ey)) in *.
  set (r := SF64add (S754_finite false mx ex) (S754_finite false my ey)) in *.
  change (inject_Z (2 ^ 52)) with 4503599627370496 in Hacc.
  rewrite (Qabs_pos (X + Y)) in Hacc by lra.
  pose proof (Qabs_scaled _ Hacc) as Hr.
  assert (Hrlo : pw (52 + lo) <= SF2Q r) by lra.
  assert (Hrpos : 0 < SF2Q r) by lra.
  destruct Hshape as [Hz|(s & M & E & Hr' & HM & HE)].
  - exfalso. rewrite Hz in Hrpos. cbn [SF2Q] in Hrpos. lra.
  - destruct (SF2Q_pos_finite _ Hrpos) as (M' & E' & Hr'').
    rewrite Hr' in Hr''. injection Hr'' as -> <- <-.
    exists M, E. rewrite Hr' in *. repeat split; try lia; try assumption.
    cbn [SF2Q] in Hrlo. fold (pw E) in Hrlo.
    pose proof (@exponent_above M E (52 + lo) ltac:(lia) Hrlo). lia.
Qed.

(** The value of a positive normal double with a bounded exponent. *)
Lemma normal_bounds (x : float) (m : positive) (e lo hi : Z) :
  Prim2SF x = S754_finite false m e -> (2 ^ 52 <= Zpos m < 2 ^ 53)%Z ->
  (lo <= e <= hi)%Z ->
  pw (52 + lo) <= toQ x < pw (53 + hi).
Proof.
  intros Ex Hm He. unfold toQ. rewrite Ex.
  destruct (normal_value e Hm) as [H0 H1].
  pose proof (@pw_le (52 + lo) (52 + e) ltac:(lia)).
  pose proof (@pw_le (53 + e) (53 + hi) ltac:(lia)).
  split; lra.
Qed.

(** The ages the prompt accepts, as doubles: exact. *)
Lemma age_double (a : Z) :
  (1 <= a <= 120)%Z ->
  exists (m : positive) (e : Z),
    Prim2SF (int_to_double a) = S754_finite false m e /\
    (2 ^ 52 <= Zpos m < 2 ^ 53)%Z /\ (-52 <= e <= -46)%Z /\
    toQ (int_to_double a) == inject_Z a.
Proof.
  intros Ha.
  set (check := fun z : Z =>
         match Prim2SF (int_to_double z) with
         | S754_finite false m e =>
             (2 ^ 52 <=? Zpos m)%Z && (Zpos m <? 2 ^ 53)%Z &&
             (-52 <=? e)%Z && (e <=? -46)%Z &&
             Qeq_bool (inject_Z (Zpos m) * pw e) (inject_Z z)
         | _ => false
         end).
  assert (Hall : forallb check (map Z.of_nat (seq 1 120)) = true)
    by (vm_compute; reflexivity).
  rewrite forallb_forall in Hall.
  assert (Hin : In a (map Z.of_nat (seq 1 120))).
  { apply in_map_iff. exists (Z.to_nat a). split; [lia|].
    apply in_seq. lia. }
  specialize (Hall a Hin). unfold check in Hall. unfold toQ.
  destruct (Prim2SF (int_to_double a)) as [| | |[] m e]; try discriminate.
  rewrite !andb_true_iff in Hall.
  destruct Hall as ((((H1 & H2) & H3) & H4) & H5).
  apply Z.leb_le in H1, H3, H4. apply Z.ltb_lt in H2.
  apply Qeq_bool_iff in H5.
  exists m, e. repeat split; try lia. cbn [SF2Q]. exact H5.
Qed.

Section Chain.
Variables c0 c1 c2 c3 w h : float.
Variable a : Z.
Variables (m0 : positive) (e0 : Z) (m1 : positive) (e1 : Z)
          (m2 : positive) (e2 : Z) (m3 : positive) (e3 : Z).
Hypothesis Ec0 : Prim2SF c0 = S754_finite false m0 e0.
Hypothesis Ec1 : Prim2SF c1 = S754_finite false m1 e1.
Hypothesis Ec2 : Prim2SF c2 = S754_finite false m2 e2.
Hypothesis Ec3 : Prim2SF c3 = S754_finite false m3 e3.
Hypothesis Hm0 : (2 ^ 52 <= Zpos m0 < 2 ^ 53)%Z.
Hypothesis Hm1 : (2 ^ 52 <= Zpos m1 < 2 ^ 53)%Z.
Hypothesis Hm2 : (2 ^ 52 <= Zpos m2 < 2 ^ 53)%Z.
Hypothesis Hm3 : (2 ^ 52 <= Zpos m3 < 2 ^ 53)%Z.
Hypothesis He0 : (-46 <= e0 <= -44)%Z.
Hypothesis He1 : (e1 = -49)%Z.
Hypothesis He2 : (-51 <= e2 <= -50)%Z.
Hypothesis He3 : (e3 = -50)%Z.
Hypothesis Hw0 : PrimFloat.leb 20 w = true.
Hypothesis Hw1 : PrimFloat.leb w 300 = true.
Hypothesis Hh0 : PrimFloat.leb 0.5 h = true.
Hypothesis Hh1 : PrimFloat.leb h 2.5 = true.
Hypothesis Ha : (1 <= a <= 120)%Z.

(** [c0 + c1*w + c2*h*100 - c3*a] in doubles, in the order of the source:
    within 5e-10 of the same expression on the values, and zero or a normal
    double. *)
Lemma bmr_chain :
  Qabs (toQ (c0 + c1 * w + c2 * h * int_to_double 100
             - c3 * int_to_double a)%float
        - (toQ c0 + toQ c1 * toQ w + toQ c2 * toQ h * 100
           - toQ c3 * inject_Z a))
  <= 1 # 2000000000 /\
  (Prim2SF (c0 + c1 * w + c2 * h * int_to_double 100
            - c3 * int_to_double a)%float = S754_zero false \/
   exists (s : bool) (M : positive) (E : Z),
     Prim2SF (c0 + c1 * w + c2 * h * int_to_double 100
              - c3 * int_to_double a)%float = S754_finite s M E /\
     (2 ^ 52 <= Zpos M < 2 ^ 53)%Z /\ (-102 <= E <= -33)%Z).
Proof.
  assert (E20 : Prim2SF 20 = S754_finite false 5629499534213120 (-48))
    by (vm_compute; reflexivity).
  assert (E300 : Prim2SF 300 = S754_finite false 5277655813324800 (-44))
    by (vm_compute; reflexivity).
  assert (E05 : Prim2SF 0.5 = S754_finite false 4503599627370496 (-53))
    by (vm_compute; reflexivity).
  assert (E25 : Prim2SF 2.5 = S754_finite false 5629499534213120 (-51))
    by (vm_compute; reflexivity).
  assert (E100 : Prim2SF (int_to_double 100)
                 = S754_finite false 7036874417766400 (-46))
    by (vm_compute; reflexivity).
  assert (K100 : toQ (int_to_double 100) == 100) by (vm_compute; reflexivity).
  destruct (@between_normal 20 300 w _ _ _ _ E20 E300 ltac:(lia) Hw0 Hw1)
    as (mw & ew & Ew & Hmw & Hew).
  destruct (@between_normal 0.5 2.5 h _ _ _ _ E05 E25 ltac:(lia) Hh0 Hh1)
    as (mh & eh & Eh & Hmh & Heh).
  destruct (age_double Ha) as (ma & ea & Ea & Hma & Hea & Ka).
  (* the values of the operands *)
  pose proof (@normal_bounds c0 m0 e0 (-46) (-44) Ec0 Hm0 He0) as B0.
  pose proof (@normal_bounds c1 m1 e1 (-49) (-49) Ec1 Hm1 ltac:(lia)) as B1.
  pose proof (@normal_bounds c2 m2 e2 (-51) (-50) Ec2 Hm2 He2) as B2.
  pose proof (@normal_bounds c3 m3 e3 (-50) (-50) Ec3 Hm3 ltac:(lia)) as B3.
  pose proof (@normal_bounds w mw ew (-48) (-44) Ew Hmw Hew) as Bw.
  pose proof (@normal_bounds h mh eh (-53) (-51) Eh Hmh Heh) as Bh.
  (* t1 = c1 * w *)
  destruct (@mul_normal c1 w m1 e1 mw ew Ec1 Ew Hm1 Hmw ltac:(lia))
    as (M1 & E1 & Et1 & HM1 & HE1 & Pt1 & At1).
  pose proof (@normal_bounds _ M1 E1 (-45) (-39) Et1 HM1 ltac:(lia)) as Bt1.
  (* s1 = c0 + t1 *)
  destruct (@add_normal c0 (c1 * w)%float m0 e0 M1 E1 (-46) (-39)
              Ec0 Et1 Hm0 HM1 ltac:(lia) ltac:(lia) ltac:(lia) ltac:(lia))
    as (Ms1 & Es1 & Eqs1 & HMs1 & HEs1 & Ps1 & As1).
  pose proof (@normal_bounds _ Ms1 Es1 (-46) (-37) Eqs1 HMs1 ltac:(lia)) as Bs1.
  (* a2 = c2 * h, t2 = a2 * 100 *)
  destruct (@mul_normal c2 h m2 e2 mh eh Ec2 Eh Hm2 Hmh ltac:(lia))
    as (M2 & E2 & Ea2 & HM2 & HE2 & Pa2 & Aa2).
  pose proof (@normal_bounds _ M2 E2 (-52) (-47) Ea2 HM2 ltac:(lia)) as Ba2.
  destruct (@mul_normal (c2 * h)%float (int_to_double 100) M2 E2 _ _ Ea2 E100
              HM2 ltac:(lia) ltac:(lia))
    as (Mt2 & Et2 & Eqt2 & HMt2 & HEt2 & Pt2 & At2).
  pose proof (@normal_bounds _ Mt2 Et2 (-46) (-39) Eqt2 HMt2 ltac:(lia)) as Bt2.
  (* s2 = s1 + t2 *)
  destruct (@add_normal (c0 + c1 * w)%float (c2 * h * int_to_double 100)%float
              Ms1 Es1 Mt2 Et2 (-46) (-37)
              Eqs1 Eqt2 HMs1 HMt2 ltac:(lia) ltac:(lia) ltac:(lia) ltac:(lia))
    as (Ms2 & Es2 & Eqs2 & HMs2 & HEs2 & Ps2 & As2).
  pose proof (@normal_bounds _ Ms2 Es2 (-46) (-35) Eqs2 HMs2 ltac:(lia)) as Bs2.
  (* t3 = c3 * a *)
  destruct (@mul_normal c3 (int_to_double a) m3 e3 ma ea Ec3 Ea Hm3 Hma
              ltac:(lia))
    as (M3 & E3 & Eqt3 & HM3 & HE3 & Pt3 & At3).
  pose proof (@normal_bounds _ M3 E3 (-50) (-42) Eqt3 HM3 ltac:(lia)) as Bt3.
  (* r = s2 - t3 *)
  destruct (@SFsub_accuracy false Ms2 Es2 false M3 E3 (-50) (-35))
    as [Ar Hshape]; try lia.
  rewrite <- Eqs2, <- Eqt3, <- sub_spec in Ar, Hshape.
  fold (toQ (c0 + c1 * w + c2 * h * int_to_double 100)%float) in Ar.
  fold (toQ (c3 * int_to_double a)%float) in Ar.
  fold (toQ (c0 + c1 * w + c2 * h * int_to_double 100
             - c3 * int_to_double a)%float) in Ar.
  split; [|exact Hshape].
  (* the arithmetic *)
  rewrite K100 in At2. rewrite Ka in At3.
  set (C0 := toQ c0) in *.
  set (P1 := toQ c1 * toQ w) in *.
  set (T1 := toQ (c1 * w)%float) in *.
  set (S1 := toQ (c0 + c1 * w)%float) in *.
  set (Q2 := toQ c2 * toQ h) in *.
  set (A2 := toQ (c2 * h)%float) in *.
  set (T2 := toQ (c2 * h * int_to_double 100)%float) in *.
  set (S2 := toQ (c0 + c1 * w + c2 * h * int_to_double 100)%float) in *.
  set (P3 := toQ c3 * inject_Z a) in *.
  set (T3 := toQ (c3 * int_to_double a)%float) in *.
  set (R := toQ (c0 + c1 * w + c2 * h * int_to_double 100
                 - c3 * int_to_double a)%float) in *.
  change (inject_Z (2 ^ 52)) with 4503599627370496 in Ar.
  assert (HabsR : Qabs (S2 - T3) <= S2 + T3).
  { apply Qabs_Qle_condition. split; lra. }
  assert (Ar' : Qabs (R - (S2 - T3)) * 4503599627370496 <= S2 + T3) by lra.
  apply Qabs_scaled in At1, As1, Aa2, At2, As2, At3, Ar'.
  change (pw (53 + -39)) with 16384 in *.
  change (pw (53 + -37)) with 65536 in *.
  change (pw (53 + -47)) with 64 in *.
  change (pw (53 + -35)) with 262144 in *.
  change (pw (53 + -42)) with 2048 in *.
  destruct Bt1 as [_ Bt1]. destruct Bs1 as [_ Bs1]. destruct Ba2 as [_ Ba2].
  destruct Bt2 as [_ Bt2]. destruct Bs2 as [_ Bs2]. destruct Bt3 as [_ Bt3].
  apply Qabs_Qle_condition. split; lra.
Qed.

End Chain.

End BmrAccuracy.

Module BmrForms.
Import Binary64Facts Binary64Rounding BmiAccuracy MacroAccuracy MacroSigns Binary64Sum BmrAccuracy.

Local Open Scope Q_scope.

(** The values of a weight, a height and an age that the prompts accept. *)
Lemma validated_values (w h : float) :
  PrimFloat.leb 20 w = true -> PrimFloat.leb w 300 = true ->
  PrimFloat.leb 0.5 h = true -> PrimFloat.leb h 2.5 = true ->
  20 <= toQ w <= 300 /\ 1 # 2 <= toQ h <= 5 # 2.
Proof.
  intros Hw0 Hw1 Hh0 Hh1.
  assert (Hwf : isfinite w = true).
  { apply (@Binary64Order.between_isfinite 20 300); try reflexivity; assumption. }
  assert (Hhf : isfinite h = true).
  { apply (@Binary64Order.between_isfinite 0.5 2.5); try reflexivity; assumption. }
  apply Binary64Order.leb_toQ in Hw0, Hw1, Hh0, Hh1;
    try assumption; try reflexivity.
  assert (E05 : toQ 0.5 == 1 # 2) by (vm_compute; reflexivity).
  assert (E25 : toQ 2.5 == 5 # 2) by (vm_compute; reflexivity).
  assert (E20 : toQ 20 == 20) by (vm_compute; reflexivity).
  assert (E300 : toQ 300 == 300) by (vm_compute; reflexivity).
  rewrite E05 in Hh0. rewrite E25 in Hh1. rewrite E20 in Hw0.
  rewrite E300 in Hw1. repeat split; assumption.
Qed.

(** The male expression of the source on doubles, against the closed form
    on the values. *)
Lemma male_accuracy (w h : float) (a : Z) :
  PrimFloat.leb 20 w = true -> PrimFloat.leb w 300 = true ->
  PrimFloat.leb 0.5 h = true -> PrimFloat.leb h 2.5 = true ->
  (1 <= a <= 120)%Z ->
  Qabs (toQ (literal 88.362 + literal 13.397 * w
             + literal 4.799 * h * int_to_double 100
             - literal 5.677 * int_to_double a)%float
        - (88.362 + 13.397 * toQ w + 4.799 * (toQ h * 100)
           - 5.677 * inject_Z a))
  <= 1 # 1000000000 /\
  (Prim2SF (literal 88.362 + literal 13.397 * w
             + literal 4.799 * h * int_to_double 100
             - literal 5.677 * int_to_double a)%float = S754_zero false \/
   exists (s : bool) (M : positive) (E : Z),
     Prim2SF (literal 88.362 + literal 13.397 * w
             + literal 4.799 * h * int_to_double 100
             - literal 5.677 * int_to_double a)%float = S754_finite s M E /\
     (2 ^ 52 <= Zpos M < 2 ^ 53)%Z /\ (-102 <= E <= -33)%Z).
Proof.
  intros Hw0 Hw1 Hh0 Hh1 Ha.
  assert (E0 : Prim2SF (literal 88.362) = S754_finite false 6217922973026746 (-46))
    by (vm_compute; reflexivity).
  assert (E1 : Prim2SF (literal 13.397) = S754_finite false 7541840525985317 (-49))
    by (vm_compute; reflexivity).
  assert (E2 : Prim2SF (literal 4.799) = S754_finite false 5403193652937753 (-50))
    by (vm_compute; reflexivity).
  assert (E3 : Prim2SF (literal 5.677) = S754_finite false 6391733771145576 (-50))
    by (vm_compute; reflexivity).
  destruct (@bmr_chain (literal 88.362) (literal 13.397) (literal 4.799)
              (literal 5.677) w h a _ _ _ _ _ _ _ _ E0 E1 E2 E3)
    as [Hacc Hshape]; try lia; try assumption.
  split; [|exact Hshape].
  destruct (validated_values Hw0 Hw1 Hh0 Hh1) as [[HW0 HW1] [HH0 HH1]].
  assert (HA : 1 <= inject_Z a <= 120).
  { destruct Ha as [Ha0 Ha1]. rewrite Zle_Qle in Ha0, Ha1. split; assumption. }
  assert (K0 : toQ (literal 88.362) == 6217922973026746 # 70368744177664)
    by (vm_compute; reflexivity).
  assert (K1 : toQ (literal 13.397) == 7541840525985317 # 562949953421312)
    by (vm_compute; reflexivity).
  assert (K2 : toQ (literal 4.799) == 5403193652937753 # 1125899906842624)
    by (vm_compute; reflexivity).
  assert (K3 : toQ (literal 5.677) == 6391733771145576 # 1125899906842624)
    by (vm_compute; reflexivity).
  rewrite K0, K1, K2, K3 in Hacc.
  set (R := toQ _) in *. set (W := toQ w) in *. set (H := toQ h) in *.
  set (A := inject_Z a) in *.
  apply Qabs_Qle_condition in Hacc. apply Qabs_Qle_condition. split; lra.
Qed.

(** The female expression of the source on doubles, against the closed form
    on the values. *)
Lemma female_accuracy (w h : float) (a : Z) :
  PrimFloat.leb 20 w = true -> PrimFloat.leb w 300 = true ->
  PrimFloat.leb 0.5 h = true -> PrimFloat.leb h 2.5 = true ->
  (1 <= a <= 120)%Z ->
  Qabs (toQ (literal 447.593 + literal 9.247 * w
             + literal 3.098 * h * int_to_double 100
             - literal 4.330 * int_to_double a)%float
        - (447.593 + 9.247 * toQ w + 3.098 * (toQ h * 100)
           - 4.330 * inject_Z a))
  <= 1 # 1000000000 /\
  (Prim2SF (literal 447.593 + literal 9.247 * w
             + literal 3.098 * h * int_to_double 100
             - literal 4.330 * int_to_double a)%float = S754_zero false \/
   exists (s : bool) (M : positive) (E : Z),
     Prim2SF (literal 447.593 + literal 9.247 * w
             + literal 3.098 * h * int_to_double 100
             - literal 4.330 * int_to_double a)%float = S754_finite s M E /\
     (2 ^ 52 <= Zpos M < 2 ^ 53)%Z /\ (-102 <= E <= -33)%Z).
Proof.
  intros Hw0 Hw1 Hh0 Hh1 Ha.
  assert (E0 : Prim2SF (literal 447.593) = S754_finite false 7874139328178291 (-44))
    by (vm_compute; reflexivity).
  assert (E1 : Prim2SF (literal 9.247) = S754_finite false 5205598219286872 (-49))
    by (vm_compute; reflexivity).
  assert (E2 : Prim2SF (literal 3.098) = S754_finite false 6976075822796898 (-51))
    by (vm_compute; reflexivity).
  assert (E3 : Prim2SF (literal 4.330) = S754_finite false 4875146596628562 (-50))
    by (vm_compute; reflexivity).
  destruct (@bmr_chain (literal 447.593) (literal 9.247) (literal 3.098)
              (literal 4.330) w h a _ _ _ _ _ _ _ _ E0 E1 E2 E3)
    as [Hacc Hshape]; try lia; try assumption.
  split; [|exact Hshape].
  destruct (validated_values Hw0 Hw1 Hh0 Hh1) as [[HW0 HW1] [HH0 HH1]].
  assert (HA : 1 <= inject_Z a <= 120).
  { destruct Ha as [Ha0 Ha1]. rewrite Zle_Qle in Ha0, Ha1. split; assumption. }
  assert (K0 : toQ (literal 447.593) == 7874139328178291 # 17592186044416)
    by (vm_compute; reflexivity).
  assert (K1 : toQ (literal 9.247) == 5205598219286872 # 562949953421312)
    by (vm_compute; reflexivity).
  assert (K2 : toQ (literal 3.098) == 6976075822796898 # 2251799813685248)
    by (vm_compute; reflexivity).
  assert (K3 : toQ (literal 4.330) == 4875146596628562 # 1125899906842624)
    by (vm_compute; reflexivity).
  rewrite K0, K1, K2, K3 in Hacc.
  set (R := toQ _) in *. set (W := toQ w) in *. set (H := toQ h) in *.
  set (A := inject_Z a) in *.
  apply Qabs_Qle_condition in Hacc. apply Qabs_Qle_condition. split; lra.
Qed.

End BmrForms.

(** ** binary64: the calories of a validated profile are moderate *)

Module CaloriesModerate.
Import Binary64Facts Binary64Rounding BmiAccuracy MacroAccuracy MacroSigns Binary64Sum BmrAccuracy BmrForms.

(** A [bmr] times a multiplier of the table is zero or of moderate
    magnitude. *)
Lemma mul_moderate (r k : float) (mk : positive) :
  (Prim2SF r = S754_zero false \/
   exists (s : bool) (M : positive) (E : Z),
     Prim2SF r = S754_finite s M E /\
     (2 ^ 52 <= Zpos M < 2 ^ 53)%Z /\ (-102 <= E <= -33)%Z) ->
  Prim2SF k = S754_finite false mk (-52) ->
  (2 ^ 52 <= Zpos mk < 2 ^ 53)%Z ->
  moderate (r * k)%float.
Proof.
  intros Hr Ek Hmk. unfold moderate.
  assert (Elo : Prim2SF 0x1p-300 = S754_finite false 4503599627370496 (-352))
    by (vm_compute; reflexivity).
  assert (Ehi : Prim2SF 0x1p+300 = S754_finite false 4503599627370496 248)
    by (vm_compute; reflexivity).
  assert (Enlo : Prim2SF (-0x1p-300) = S754_finite true 4503599627370496 (-352))
    by (vm_compute; reflexivity).
  assert (Enhi : Prim2SF (-0x1p+300) = S754_finite true 4503599627370496 248)
    by (vm_compute; reflexivity).
  destruct Hr as [Hz|(s & M & E & Er & HM & HE)].
  - left. rewrite eqb_spec, mul_spec, Hz, Ek. reflexivity.
  - destruct (@SFmul_accuracy M E mk (-52) HM Hmk ltac:(lia))
      as (M' & E' & Emul & HM' & HE' & _).
    destruct s.
    + right. right.
      assert (Ec : Prim2SF (r * k)%float = S754_finite true M' E').
      { rewrite mul_spec, Er, Ek.
        change (S754_finite true M E) with (SFopp (S754_finite false M E)).
        rewrite SFmul_opp_l, Emul. reflexivity. }
      rewrite !leb_spec, Ec, Enlo, Enhi. unfold SFleb, SFcompare. split.
      * destruct (Z.compare_spec 248 E'); first [lia|reflexivity].
      * destruct (Z.compare_spec E' (-352)); first [lia|reflexivity].
    + right. left.
      assert (Ec : Prim2SF (r * k)%float = S754_finite false M' E')
        by (rewrite mul_spec, Er, Ek; exact Emul).
      rewrite !leb_spec, Ec, Elo, Ehi.
      split; apply SFleb_of_exponents; lia.
Qed.

End CaloriesModerate.

(** ** What collectUserData returns *)

Lemma isValidActivityLevel_iff (s : string) :
  isValidActivityLevel s = true <->
  In (Str.lowercase s)
     ["sedentary"; "lightly active"; "moderately active"; "very active"]%string.
Proof.
  unfold isValidActivityLevel. cbv zeta. simpl.
  rewrite !orb_true_iff, !String.eqb_eq. intuition congruence.
Qed.

Lemma isValidLifestyle_iff (s : string) :
  isValidLifestyle s = true <->
  In (Str.lowercase s) ["smoking"; "alcohol"; "none"]%string.
Proof.
  unfold isValidLifestyle. cbv zeta. simpl.
  rewrite !orb_true_iff, !String.eqb_eq. intuition congruence.
Qed.

Lemma isValidDietaryPref_iff (s : string) :
  isValidDietaryPref s = true <->
  In (Str.lowercase s) ["vegetarian"; "vegan"; "none"]%string.
Proof.
  unfold isValidDietaryPref. cbv zeta. simpl.
  rewrite !orb_true_iff, !String.eqb_eq. intuition congruence.
Qed.

Section CollectFacts.
Context {T : Type} {D : Double T}.

(** Every member of a collected profile passed its validator, the strings
    are in canonical lowercase, and the calculated members are unset. *)
Lemma collectUserData_validated (cin : Entries) (p : UserProfile) :
  collectUserData cin = Some p ->
  (1 <= age p <= 120)%Z /\
  (gender p = "male"%string \/ gender p = "female"%string) /\
  (leb (lit 0.5) (height p) = true /\ leb (height p) (lit 2.5) = true) /\
  (leb (lit 20.0) (weight p) = true /\ leb (weight p) (lit 300.0) = true) /\
  In (activityLevel p)
     ["sedentary"; "lightly active"; "moderately active"; "very active"]%string /\
  (0 <= sleepHours p <= 24)%Z /\
  In (lifestyle p) ["smoking"; "alcohol"; "none"]%string /\
  In (dietaryPref p) ["vegetarian"; "vegan"; "none"]%string /\
  bmi p = None /\ bmr p = None /\ dailyCalories p = None.
Proof.
  unfold collectUserData, bind.
  destruct (getValidInput 1%Z 120%Z _) as [[a ra]|] eqn:Ea; [|discriminate].
  destruct (getValidStringInput isValidGender _) as [[g rg]|] eqn:Eg;
    [|discriminate].
  destruct (getValidInput (lit 0.5) _ _) as [[h rh]|] eqn:Eh; [|discriminate].
  destruct (getValidInput (lit 20.0) _ _) as [[w rw]|] eqn:Ew; [|discriminate].
  destruct (getValidStringInput isValidActivityLevel _) as [[l rl]|] eqn:El;
    [|discriminate].
  destruct (getValidInput 0%Z 24%Z _) as [[s rs]|] eqn:Es; [|discriminate].
  destruct (getValidStringInput isValidLifestyle _) as [[ls rls]|] eqn:Els;
    [|discriminate].
  destruct (getValidStringInput isValidDietaryPref _) as [[d rd]|] eqn:Ed;
    [|discriminate].
  intros [= <-]. simpl.
  apply getValidInput_inRange in Ea, Eh, Ew, Es. unfold geb in *. simpl in Ea, Es.
  apply getValidStringInput_accepted in Eg, El, Els, Ed.
  destruct Eg as (g0 & _ & Hg & ->), El as (l0 & _ & Hl & ->),
           Els as (ls0 & _ & Hls & ->), Ed as (d0 & _ & Hd & ->).
  apply isValidGender_iff in Hg. apply isValidActivityLevel_iff in Hl.
  apply isValidLifestyle_iff in Hls. apply isValidDietaryPref_iff in Hd.
  rewrite !Z.leb_le in Ea, Es.
  repeat split; try tauto; try lia; assumption.
Qed.

(** So after validation the table lookup cannot miss. *)
Lemma collectUserData_dailyCalories (cin : Entries) (p : UserProfile) :
  collectUserData cin = Some p ->
  exists c : T, dailyCalories (calculateMetrics p) = Some c.
Proof.
  intros Hp. apply collectUserData_validated in Hp.
  destruct Hp as (_ & _ & _ & _ & Hl & _).
  simpl in Hl.
  destruct Hl as [E|[E|[E|[E|[]]]]]; eexists;
    apply calculateMetrics_matched; rewrite <- E; simpl; eauto 6.
Qed.

End CollectFacts.

(** ** binary64: the [bmr] and the calories of a collected profile *)

Section CollectedAccuracy.
Variable libm_pow : float -> Z -> float.

Local Abbreviation D := (binary64_with libm_pow).

(** For a profile that went through the prompts, the selected [bmr] is
    within 1e-9 of its closed form, and the daily calories are moderate. *)
Lemma collected_bmr_accuracy (cin : Entries) (p : UserProfile (T:=float)) :
  collectUserData (D:=D) cin = Some p ->
  (gender p = "male"%string ->
   (Qabs (toQ (selected_bmr (D:=D) p)
          - (88.362 + 13.397 * toQ (weight p) + 4.799 * (toQ (height p) * 100)
             - 5.677 * inject_Z (age p))) <= 1 # 1000000000)%Q) /\
  (gender p = "female"%string ->
   (Qabs (toQ (selected_bmr (D:=D) p)
          - (447.593 + 9.247 * toQ (weight p) + 3.098 * (toQ (height p) * 100)
             - 4.330 * inject_Z (age p))) <= 1 # 1000000000)%Q) /\
  (Prim2SF (selected_bmr (D:=D) p) = S754_zero false \/
   exists (s : bool) (M : positive) (E : Z),
     Prim2SF (selected_bmr (D:=D) p) = S754_finite s M E /\
     (2 ^ 52 <= Zpos M < 2 ^ 53)%Z /\ (-102 <= E <= -33)%Z).
Proof.
  intros Hp. apply collectUserData_validated in Hp.
  destruct Hp as (Ha & Hg & [Hh0 Hh1] & [Hw0 Hw1] & _).
  pose proof (@BmrForms.male_accuracy (weight p) (height p) (age p)
                Hw0 Hw1 Hh0 Hh1 Ha) as [Hm Hms].
  pose proof (@BmrForms.female_accuracy (weight p) (height p) (age p)
                Hw0 Hw1 Hh0 Hh1 Ha) as [Hf Hfs].
  unfold selected_bmr.
  destruct Hg as [Hg|Hg]; rewrite Hg; simpl String.eqb; cbv iota.
  - split; [intros _; exact Hm|]. split; [discriminate|exact Hms].
  - split; [discriminate|]. split; [intros _; exact Hf|exact Hfs].
Qed.

Lemma collected_dailyCalories_moderate (cin : Entries)
  (p : UserProfile (T:=float)) :
  collectUserData (D:=D) cin = Some p ->
  exists c : float,
    dailyCalories (calculateMetrics (D:=D) p) = Some c /\ moderate c.
Proof.
  intros Hp. pose proof (collected_bmr_accuracy _ Hp) as (_ & _ & Hshape).
  apply collectUserData_validated in Hp.
  destruct Hp as (_ & _ & _ & _ & Hl & _).
  assert (H12 : Prim2SF (literal 1.2) = S754_finite false 5404319552844595 (-52))
    by (vm_compute; reflexivity).
  assert (H1375 : Prim2SF (literal 1.375)
                  = S754_finite false 6192449487634432 (-52))
    by (vm_compute; reflexivity).
  assert (H155 : Prim2SF (literal 1.55)
                 = S754_finite false 6980579422424269 (-52))
    by (vm_compute; reflexivity).
  assert (H1725 : Prim2SF (literal 1.725)
                  = S754_finite false 7768709357214106 (-52))
    by (vm_compute; reflexivity).
  simpl in Hl. destruct Hl as [E|[E|[E|[E|[]]]]].
  - exists (selected_bmr (D:=D) p * literal 1.2)%float. split.
    + apply (@calculateMetrics_matched float D p (literal 1.2)).
      rewrite <- E. simpl. auto.
    + apply (@CaloriesModerate.mul_moderate _ (literal 1.2) _ Hshape H12). lia.
  - exists (selected_bmr (D:=D) p * literal 1.375)%float. split.
    + apply (@calculateMetrics_matched float D p (literal 1.375)).
      rewrite <- E. simpl. auto.
    + apply (@CaloriesModerate.mul_moderate _ (literal 1.375) _ Hshape H1375). lia.
  - exists (selected_bmr (D:=D) p * literal 1.55)%float. split.
    + apply (@calculateMetrics_matched float D p (literal 1.55)).
      rewrite <- E. simpl. auto.
    + apply (@CaloriesModerate.mul_moderate _ (literal 1.55) _ Hshape H155). lia.
  - exists (selected_bmr (D:=D) p * literal 1.725)%float. split.
    + apply (@calculateMetrics_matched float D p (literal 1.725)).
      rewrite <- E. simpl. auto 6.
    + apply (@CaloriesModerate.mul_moderate _ (literal 1.725) _ Hshape H1725). lia.
Qed.

End CollectedAccuracy.

(** ** The category bands and the exercise rule

    For any arithmetic whose comparisons obey the two laws below and whose
    thresholds are in increasing order; both instances qualify. *)

Section CategoryFacts.
Context {T : Type} {D : Double T}.

Local Open Scope dbl_scope.

Local Abbreviation thresholds := (bmiThresholds (T:=T)).

Hypothesis leb_ltb : forall a b : T, (a <=? b) = true -> (b <? a) = false.
Hypothesis ltb_trans :
  forall a b c : T, (a <? b) = true -> (b <? c) = true -> (a <? c) = true.
Hypothesis underweight_normal :
  (underweight thresholds <? normal thresholds) = true.
Hypothesis normal_overweight :
  (normal thresholds <? overweight thresholds) = true.

Lemma above_normal (b : T) :
  (normal thresholds <=? b) = true ->
  (b <? underweight thresholds) = false /\
  (b <? normal thresholds) = false.
Proof.
  intros Hn. pose proof (leb_ltb _ _ Hn) as Hbn. split; [|exact Hbn].
  destruct (b <? underweight thresholds) eqn:Hbu; [|reflexivity].
  rewrite (ltb_trans _ _ _ Hbu underweight_normal) in Hbn. discriminate.
Qed.

Lemma above_overweight (b : T) :
  (overweight thresholds <=? b) = true ->
  (b <? underweight thresholds) = false /\
  (b <? normal thresholds) = false /\
  (b <? overweight thresholds) = false.
Proof.
  intros Ho. pose proof (leb_ltb _ _ Ho) as Hbo.
  assert (Hbn : (b <? normal thresholds) = false).
  { destruct (b <? normal thresholds) eqn:Hbn; [|reflexivity].
    rewrite (ltb_trans _ _ _ Hbn normal_overweight) in Hbo. discriminate. }
  repeat split; try assumption.
  destruct (b <? underweight thresholds) eqn:Hbu; [|reflexivity].
  rewrite (ltb_trans _ _ _ Hbu underweight_normal) in Hbn. discriminate.
Qed.

Lemma bmiCategory_underweight (b : T) :
  (b <? underweight thresholds) = true ->
  bmiCategory b = "Category: Underweight"%string.
Proof. intros Hb. unfold bmiCategory. now rewrite Hb. Qed.

Lemma bmiCategory_normal (b : T) :
  (underweight thresholds <=? b) = true ->
  (b <? normal thresholds) = true ->
  bmiCategory b = "Category: Normal weight"%string.
Proof.
  intros Hu Hn. unfold bmiCategory. now rewrite (leb_ltb _ _ Hu), Hn.
Qed.

Lemma bmiCategory_overweight (b : T) :
  (normal thresholds <=? b) = true ->
  (b <? overweight thresholds) = true ->
  bmiCategory b = "Category: Overweight"%string.
Proof.
  intros Hn Ho. destruct (above_normal _ Hn) as [Hbu Hbn].
  unfold bmiCategory. now rewrite Hbu, Hbn, Ho.
Qed.

Lemma bmiCategory_obese (b : T) :
  (overweight thresholds <=? b) = true ->
  bmiCategory b = "Category: Obese"%string.
Proof.
  intros Ho. destruct (above_overweight _ Ho) as (Hbu & Hbn & Hbo).
  unfold bmiCategory. now rewrite Hbu, Hbn, Hbo.
Qed.

(** The exercise test and the category agree whenever the comparison with
    the [normal] threshold is decided one way or the other. *)
Lemma exercise_category (b : T) :
  ((b <? normal thresholds) = false -> (normal thresholds <=? b) = true) ->
  (b >=? normal thresholds) = true <->
  (bmiCategory b = "Category: Overweight"%string \/
   bmiCategory b = "Category: Obese"%string).
Proof.
  intros Htotal. unfold geb. split.
  - intros Hn. destruct (above_normal _ Hn) as [Hbu Hbn].
    unfold bmiCategory. rewrite Hbu, Hbn.
    destruct (b <? overweight thresholds); auto.
  - intros Hcat. apply Htotal. unfold bmiCategory in Hcat.
    destruct (b <? underweight thresholds);
      [destruct Hcat; discriminate|].
    destruct (b <? normal thresholds);
      [destruct Hcat; discriminate|reflexivity].
Qed.

Lemma exerciseRecommendations_geb (b : T) :
  (exerciseRecommendations b = lowImpactBlock <->
   (b >=? normal thresholds) = true) /\
  (exerciseRecommendations b = balancedRoutineBlock <->
   (b >=? normal thresholds) = false).
Proof.
  unfold exerciseRecommendations.
  destruct (b >=? normal thresholds); split; split; intros E;
    try reflexivity; try discriminate.
Qed.

End CategoryFacts.

(** ** binary64: the category bands and the exercise rule *)

Lemma binary64_thresholds :
  underweight (bmiThresholds (T:=float)) = 18.5%float /\
  PrimFloat.ltb (underweight (bmiThresholds (T:=float)))
                (normal (bmiThresholds (T:=float))) = true /\
  PrimFloat.ltb (normal (bmiThresholds (T:=float)))
                (overweight (bmiThresholds (T:=float))) = true /\
  isnan (normal (bmiThresholds (T:=float))) = false.
Proof. repeat split; reflexivity. Qed.

(** C2: the category is a function of [bmi] alone, with bands closed below
    and open above: under 18.5 "Underweight", from 18.5 to under 24.9
    "Normal weight", from 24.9 to under 29.9 "Overweight", from 29.9 on
    "Obese"; so 18.5 is "Normal weight", 24.9 "Overweight" and 29.9
    "Obese". *)
Theorem bmiCategory_bands (b : float) :
  ((b <? lit 18.5)%D = true ->
   bmiCategory b = "Category: Underweight"%string) /\
  ((lit 18.5 <=? b)%D = true -> (b <? lit 24.9)%D = true ->
   bmiCategory b = "Category: Normal weight"%string) /\
  ((lit 24.9 <=? b)%D = true -> (b <? lit 29.9)%D = true ->
   bmiCategory b = "Category: Overweight"%string) /\
  ((lit 29.9 <=? b)%D = true ->
   bmiCategory b = "Category: Obese"%string) /\
  bmiCategory (T:=float) (lit 18.5) = "Category: Normal weight"%string /\
  bmiCategory (T:=float) (lit 24.9) = "Category: Overweight"%string /\
  bmiCategory (T:=float) (lit 29.9) = "Category: Obese"%string.
Proof.
  destruct binary64_thresholds as (_ & Hun & Hno & _).
  split; [exact (@bmiCategory_underweight float _ b)|].
  split; [exact (@bmiCategory_normal float _ Binary64Facts.leb_ltb b)|].
  split; [exact (@bmiCategory_overweight float _ Binary64Facts.leb_ltb
                   Binary64Facts.ltb_trans Hun b)|].
  split; [exact (@bmiCategory_obese float _ Binary64Facts.leb_ltb
                   Binary64Facts.ltb_trans Hun Hno b)|].
  repeat split; reflexivity.
Qed.

Lemma bmiCategory_bands_witness :
  bmiCategory (T:=float) (lit 75 / (lit 1.80 * lit 1.80))%D
  = "Category: Normal weight"%string.
Proof.
  destruct (bmiCategory_bands (lit 75 / (lit 1.80 * lit 1.80))%D)
    as (_ & Hnormal & _).
  apply Hnormal; reflexivity.
Defined.

(** The weight and height that the prompts let through give a [bmi] that
    compares with every threshold. *)
Lemma collected_bmi_not_nan (libm_pow : float -> Z -> float) (cin : Entries)
  (p : UserProfile (T:=float)) :
  faithful_square libm_pow ->
  collectUserData (D:=binary64_with libm_pow) cin = Some p ->
  isnan (PrimFloat.div (weight p) (libm_pow (height p) 2%Z)) = false.
Proof.
  intros Hpow Hp. apply collectUserData_validated in Hp.
  destruct Hp as (_ & _ & [Hh0 Hh1] & [Hw0 Hw1] & _).
  destruct (BmiAccuracy.validated_height_moderate Hh0 Hh1) as (Hm0 & Hm1 & _).
  apply (BmiAccuracy.bmi_not_nan_with Hpow); [|exact Hm0|exact Hm1].
  apply (@Binary64Facts.between_finite_nonzero (lit 20.0) (lit 300.0));
    try reflexivity; assumption.
Qed.

(** Every comparison with NaN fails. *)
Lemma nan_compares_false (b x : float) :
  isnan b = true ->
  PrimFloat.ltb b x = false /\ PrimFloat.leb x b = false.
Proof.
  unfold isnan. rewrite ltb_spec, leb_spec.
  destruct (Prim2SF b); try discriminate. intros _.
  unfold SFltb, SFleb.
  destruct (Prim2SF x) as [[]|[]| |[] m e]; split; reflexivity.
Qed.

(** A NaN falls through the three tests of the category chain and fails
    the test of the exercise rule. *)
Lemma nan_falls_through (libm_pow : float -> Z -> float) (b : float) :
  let D := binary64_with libm_pow in
  isnan b = true ->
  (b >=? lit 24.9)%D = false /\
  bmiCategory b = "Category: Obese"%string /\
  exerciseRecommendations b = balancedRoutineBlock.
Proof.
  intros D Hb. unfold bmiCategory, exerciseRecommendations, geb.
  cbn [ltb leb Double_Cmp D binary64_with Cmp_binary64].
  destruct (@nan_compares_false b (underweight bmiThresholds) Hb) as [-> _].
  destruct (@nan_compares_false b (normal bmiThresholds) Hb) as [H1 H2].
  destruct (@nan_compares_false b (overweight bmiThresholds) Hb) as [-> _].
  change (lit 24.9) with (normal (bmiThresholds (T:=float))).
  rewrite H1, H2. repeat split; reflexivity.
Qed.

(** For a number the exercise test and the category agree. *)
Lemma number_exercise_category (libm_pow : float -> Z -> float) (b : float) :
  let D := binary64_with libm_pow in
  isnan b = false ->
  (b >=? lit 24.9)%D = true <->
  (bmiCategory b = "Category: Overweight"%string \/
   bmiCategory b = "Category: Obese"%string).
Proof.
  intros D Hnan. destruct binary64_thresholds as (_ & Hun & Hno & Hn).
  refine (@exercise_category float D Binary64Facts.leb_ltb
            Binary64Facts.ltb_trans Hun _ _).
  apply Binary64Facts.ltb_total; assumption.
Qed.

(** C9, as the code has it: in binary64, whatever [pow] the library has,
    the exercise section of every computed profile is the low-impact block
    exactly when [bmi >= 24.9] holds and the balanced routine block exactly
    when it does not.  When [bmi] is a number, [bmi >= 24.9] holds exactly
    when the category is "Overweight" or "Obese"; when it is NaN the test
    fails and the category is "Obese" all the same, so there the section is
    the balanced routine under the category "Obese".  For a profile that
    went through the prompts [bmi] is a number, provided [pow] is
    faithful. *)
Theorem exerciseRecommendations_rule (libm_pow : float -> Z -> float)
  (p : UserProfile (T:=float)) :
  let D := binary64_with libm_pow in
  exists b : float,
    bmi (calculateMetrics p) = Some b /\
    (exerciseRecommendations b = lowImpactBlock <-> (b >=? lit 24.9)%D = true) /\
    (exerciseRecommendations b = balancedRoutineBlock <->
     (b >=? lit 24.9)%D = false) /\
    (isnan b = false ->
     ((b >=? lit 24.9)%D = true <->
      (bmiCategory b = "Category: Overweight"%string \/
       bmiCategory b = "Category: Obese"%string))) /\
    (isnan b = true ->
     (b >=? lit 24.9)%D = false /\
     bmiCategory b = "Category: Obese"%string /\
     exerciseRecommendations b = balancedRoutineBlock) /\
    (faithful_square libm_pow ->
     forall cin : Entries, collectUserData cin = Some p -> isnan b = false) /\
    (exists before after,
        provideRecommendations (calculateMetrics p)
        = Some (before ++ exerciseRecommendations b ++ after) /\
        before = [ NL; Str "=== Personalized Recommendations ==="%string; NL;
                   NL; Str "Exercise Recommendations:"%string; NL ]).
Proof.
  intros D.
  eexists. split; [apply calculateMetrics_bmi|].
  split; [exact (proj1 (@exerciseRecommendations_geb float D _))|].
  split; [exact (proj2 (@exerciseRecommendations_geb float D _))|].
  split; [apply number_exercise_category|].
  split; [apply nan_falls_through|].
  split.
  - intros Hpow cin Hp. exact (@collected_bmi_not_nan libm_pow cin p Hpow Hp).
  - unfold provideRecommendations. rewrite calculateMetrics_bmi. unfold bind.
    eexists _, _. split; reflexivity.
Qed.

Lemma exerciseRecommendations_rule_witness :
  exists b : float,
    bmi (calculateMetrics (Samples.scenario (T:=float))) = Some b /\
    isnan b = false /\
    exerciseRecommendations b = balancedRoutineBlock /\
    bmiCategory b = "Category: Normal weight"%string.
Proof.
  assert (Hc : collectUserData (T:=float) Samples.scenarioEntries
               = Some Samples.scenario) by (vm_compute; reflexivity).
  destruct (@exerciseRecommendations_rule repeated_product Samples.scenario)
    as (b & Hb & _ & Hbal & _ & _ & Hnum & _).
  exists b. split; [exact Hb|].
  split; [exact (Hnum BmiAccuracy.repeated_product_faithful _ Hc)|].
  injection Hb as <-. split; [|reflexivity].
  apply Hbal. reflexivity.
Defined.

(** C9 as stated fails for a computed profile that did not go through the
    prompts: with weight 0 and height 0 the [bmi] is 0/0, NaN, the test
    [bmi >= 24.9] fails and the exercise section is the balanced routine,
    while the category line reads "Obese".  So it is for every [pow] that
    returns 0 for the square of 0. *)
Lemma exercise_category_nan :
  (exists b : float,
      bmi (calculateMetrics (Samples.degenerate (T:=float))) = Some b /\
      isnan b = true /\
      (b >=? lit 24.9)%D = false /\
      bmiCategory b = "Category: Obese"%string /\
      exerciseRecommendations b = balancedRoutineBlock) /\
  (forall libm_pow : float -> Z -> float,
      libm_pow 0%float 2%Z = 0%float ->
      let D := binary64_with libm_pow in
      exists b : float,
        bmi (calculateMetrics (Samples.degenerate (T:=float))) = Some b /\
        isnan b = true /\
        (b >=? lit 24.9)%D = false /\
        bmiCategory b = "Category: Obese"%string /\
        exerciseRecommendations b = balancedRoutineBlock).
Proof.
  split.
  - eexists. repeat split; reflexivity.
  - intros libm_pow Hzero D.
    assert (Hb : bmi (calculateMetrics (Samples.degenerate (T:=float)))
                 = Some nan).
    { rewrite calculateMetrics_bmi. f_equal.
      change (PrimFloat.div (literal 0) (libm_pow (literal 0) 2%Z) = nan).
      replace (literal 0) with 0%float by reflexivity.
      rewrite Hzero. reflexivity. }
    exists nan. split; [exact Hb|]. split; [reflexivity|].
    apply nan_falls_through. reflexivity.
Qed.

(** ** Witnesses of the arithmetic-independent claims, on binary64 *)

Lemma calculateMetrics_dailyCalories_witness :
  exists b : float,
    bmr (calculateMetrics (Samples.scenario (T:=float))) = Some b /\
    dailyCalories (calculateMetrics (Samples.scenario (T:=float)))
    = Some (b * lit 1.55)%D.
Proof.
  apply (@calculateMetrics_dailyCalories float _ Samples.scenario (lit 1.55)).
  simpl. right. right. left. reflexivity.
Defined.

Lemma calculateMetrics_unmatched_activityLevel_witness :
  dailyCalories (calculateMetrics (Samples.unvalidatedActivity (T:=float)))
  = None.
Proof.
  destruct (@calculateMetrics_unmatched_activityLevel float _
              Samples.unvalidatedActivity) as (_ & Hunset & _);
    try (simpl; discriminate).
  apply Hunset. reflexivity.
Defined.

Lemma calculateMetrics_bmr_male_only_witness :
  bmr (calculateMetrics (Samples.scenario (T:=float)))
  = Some 0x1.c5c20c49ba5e4p+10%float /\
  bmr (calculateMetrics (Samples.unvalidatedGender (T:=float)))
  = Some 0x1.8da083126e978p+10%float.
Proof.
  split.
  - rewrite (proj1 (@calculateMetrics_bmr_male_only float _ Samples.scenario));
      reflexivity.
  - rewrite (proj2 (@calculateMetrics_bmr_male_only float _
                      Samples.unvalidatedGender));
      [reflexivity | simpl; discriminate].
Defined.

(** ** Exact arithmetic: the closed forms *)

Module ExactFacts.

Lemma bmr_male_closed_form (p : UserProfile (T:=Q)) :
  (bmr_male p ==
   88.362 + 13.397 * weight p + 4.799 * (height p * 100)
   - 5.677 * inject_Z (age p))%Q.
Proof. exact_ops. ring. Qed.

Lemma bmr_female_closed_form (p : UserProfile (T:=Q)) :
  (bmr_female p ==
   447.593 + 9.247 * weight p + 3.098 * (height p * 100)
   - 4.330 * inject_Z (age p))%Q.
Proof. exact_ops. ring. Qed.

Lemma bmr_difference (p : UserProfile (T:=Q)) :
  (bmr_male p - bmr_female p ==
   4.15 * weight p + 170.1 * height p - 1.347 * inject_Z (age p) - 359.231)%Q.
Proof. exact_ops. ring. Qed.

(** The comparisons of [Q] obey the laws the category bands need, and are
    total. *)
Lemma exact_leb_ltb (a b : Q) : (a <=? b)%D = true -> (b <? a)%D = false.
Proof. simpl. intros Hab. now rewrite Hab. Qed.

Lemma exact_ltb_trans (a b c : Q) :
  (a <? b)%D = true -> (b <? c)%D = true -> (a <? c)%D = true.
Proof.
  simpl. rewrite !negb_true_iff. intros Hab Hbc.
  destruct (Qle_bool c a) eqn:Hca; [|reflexivity].
  destruct (Qle_bool b a) eqn:Hba; [discriminate|].
  destruct (Qle_bool c b) eqn:Hcb; [discriminate|].
  apply Qle_bool_iff in Hca.
  assert (Hx : ~ (b <= a)%Q) by (rewrite <- Qle_bool_iff; congruence).
  assert (Hy : ~ (c <= b)%Q) by (rewrite <- Qle_bool_iff; congruence).
  lra.
Qed.

Lemma exact_ltb_total (a b : Q) : (a <? b)%D = false -> (b <=? a)%D = true.
Proof. simpl. now rewrite negb_false_iff. Qed.

(** The bands and the exercise rule in exact arithmetic, for every [bmi]. *)
Lemma bmiCategory_bands_exact (b : Q) :
  ((b < 18.5)%Q -> bmiCategory b = "Category: Underweight"%string) /\
  ((18.5 <= b)%Q -> (b < 24.9)%Q ->
   bmiCategory b = "Category: Normal weight"%string) /\
  ((24.9 <= b)%Q -> (b < 29.9)%Q ->
   bmiCategory b = "Category: Overweight"%string) /\
  ((29.9 <= b)%Q -> bmiCategory b = "Category: Obese"%string) /\
  ((24.9 <= b)%Q <-> exerciseRecommendations b = lowImpactBlock) /\
  ((24.9 <= b)%Q <->
   bmiCategory b = "Category: Overweight"%string \/
   bmiCategory b = "Category: Obese"%string).
Proof.
  assert (Hlt : forall x y : Q, (x < y)%Q -> (x <? y)%D = true).
  { intros x y Hxy. simpl. apply negb_true_iff.
    destruct (Qle_bool y x) eqn:E; [|reflexivity].
    apply Qle_bool_iff in E. lra. }
  assert (Hle : forall x y : Q, (x <= y)%Q <-> (x <=? y)%D = true).
  { intros x y. simpl. symmetry. apply Qle_bool_iff. }
  assert (Hun : (underweight (bmiThresholds (T:=Q))
                 <? normal (bmiThresholds (T:=Q)))%D = true) by reflexivity.
  assert (Hno : (normal (bmiThresholds (T:=Q))
                 <? overweight (bmiThresholds (T:=Q)))%D = true) by reflexivity.
  repeat split.
  - intros H1. apply (@bmiCategory_underweight Q exact). now apply Hlt.
  - intros H1 H2. apply (@bmiCategory_normal Q exact exact_leb_ltb);
      [now apply Hle|now apply Hlt].
  - intros H1 H2.
    apply (@bmiCategory_overweight Q exact exact_leb_ltb exact_ltb_trans Hun);
      [now apply Hle|now apply Hlt].
  - intros H1. apply (@bmiCategory_obese Q exact exact_leb_ltb exact_ltb_trans Hun Hno).
    now apply Hle.
  - intros H1. apply (@exerciseRecommendations_geb Q exact). now apply Hle.
  - intros H1. apply Hle. now apply (@exerciseRecommendations_geb Q exact).
  - intros H1. apply (@exercise_category Q exact exact_leb_ltb exact_ltb_trans Hun);
      [apply exact_ltb_total|now apply Hle].
  - intros H1. apply Hle.
    now apply (@exercise_category Q exact exact_leb_ltb exact_ltb_trans Hun b
                 (@exact_ltb_total b _)).
Qed.

End ExactFacts.

(** C1, as the code has it: in exact arithmetic, for every weight and height
    above zero the [bmi] that [calculateMetrics] stores is
    [weight / height^2].  In binary64, whatever faithful [pow] the library
    has, the stored [bmi] is within 1e-9 of [weight / height^2] for every
    weight from 20 to 300 and every height from 0.5 to 2.5, the ranges the
    prompts accept; and for every weight and height between 2^-300 and
    2^300 it is off by at most 5 parts in 10^16 of [weight / height^2]. *)
Theorem calculateMetrics_bmi_formula :
  (forall p : UserProfile (T:=Q),
      (0 < weight p)%Q -> (0 < height p)%Q ->
      exists b : Q,
        bmi (calculateMetrics p) = Some b /\
        (b == weight p / height p ^ 2)%Q) /\
  (forall libm_pow : float -> Z -> float,
      faithful_square libm_pow ->
      let D := binary64_with libm_pow in
      forall p : UserProfile (T:=float),
        (lit 20.0 <=? weight p)%D = true -> (weight p <=? lit 300.0)%D = true ->
        (lit 0.5 <=? height p)%D = true -> (height p <=? lit 2.5)%D = true ->
        exists b : float,
          bmi (calculateMetrics p) = Some b /\
          (Qabs (toQ b - toQ (weight p) / toQ (height p) ^ 2)
           <= 1 # 1000000000)%Q) /\
  (forall libm_pow : float -> Z -> float,
      faithful_square libm_pow ->
      let D := binary64_with libm_pow in
      forall p : UserProfile (T:=float),
        (0x1p-300 <=? weight p)%float = true ->
        (weight p <=? 0x1p+300)%float = true ->
        (0x1p-300 <=? height p)%float = true ->
        (height p <=? 0x1p+300)%float = true ->
        exists b : float,
          bmi (calculateMetrics p) = Some b /\
          (Qabs (toQ b - toQ (weight p) / toQ (height p) ^ 2)
           <= toQ (weight p) / toQ (height p) ^ 2
              * (1 # 2000000000000000))%Q).
Proof.
  split; [|split].
  - intros p Hw Hh. eexists. split; [apply calculateMetrics_bmi|].
    exact_ops. simpl. reflexivity.
  - intros libm_pow Hpow D p Hw0 Hw1 Hh0 Hh1.
    eexists. split; [apply calculateMetrics_bmi|].
    exact (@BmiAccuracy.bmi_accuracy_with libm_pow Hpow (weight p) (height p)
             Hw0 Hw1 Hh0 Hh1).
  - intros libm_pow Hpow D p Hw0 Hw1 Hh0 Hh1.
    eexists. split; [apply calculateMetrics_bmi|].
    exact (@BmiAccuracy.bmi_relative_accuracy_with libm_pow Hpow
             (weight p) (height p) Hw0 Hw1 Hh0 Hh1).
Qed.

Lemma calculateMetrics_bmi_formula_witness :
  (exists b : Q,
      bmi (calculateMetrics (Samples.scenario (T:=Q))) = Some b /\
      (b == 75 / 1.80 ^ 2)%Q) /\
  (exists b : float,
      bmi (calculateMetrics (Samples.scenario (T:=float))) = Some b /\
      (Qabs (toQ b - toQ (lit 75) / toQ (lit 1.80) ^ 2) <= 1 # 1000000000)%Q) /\
  (exists b : float,
      bmi (calculateMetrics (Samples.heavy (T:=float))) = Some b /\
      (Qabs (toQ b - toQ (lit 1000000000000) / toQ (lit 1.80) ^ 2)
       <= toQ (lit 1000000000000) / toQ (lit 1.80) ^ 2
          * (1 # 2000000000000000))%Q).
Proof.
  destruct calculateMetrics_bmi_formula as (Hexact & Hdouble & Hrelative).
  split; [|split].
  - exact (Hexact (@Samples.scenario Q exact) ltac:(vm_compute; reflexivity)
             ltac:(vm_compute; reflexivity)).
  - exact (Hdouble repeated_product BmiAccuracy.repeated_product_faithful
             (@Samples.scenario float binary64)
             ltac:(vm_compute; reflexivity)
             ltac:(vm_compute; reflexivity) ltac:(vm_compute; reflexivity)
             ltac:(vm_compute; reflexivity)).
  - exact (Hrelative repeated_product BmiAccuracy.repeated_product_faithful
             (@Samples.heavy float binary64)
             ltac:(vm_compute; reflexivity)
             ltac:(vm_compute; reflexivity) ltac:(vm_compute; reflexivity)
             ltac:(vm_compute; reflexivity)).
Defined.

(** C1 as stated fails on doubles: a weight of 10^12 and a height of 1.80
    are both above zero, and no double at all is within 1e-9 of
    [weight / height^2], whether that is taken of the two doubles or of the
    decimal numbers (308641975308.641975...): the doubles of that size are
    2^-14 apart.  So whatever [pow] and the division return, the stored
    [bmi] is further away; with the correctly rounded square it is
    308641975308.64197. *)
Lemma bmi_tolerance_outside_ranges :
  (lit 0 <? weight (Samples.heavy (T:=float)))%D = true /\
  (lit 0 <? height (Samples.heavy (T:=float)))%D = true /\
  (exists b : float,
      bmi (calculateMetrics (Samples.heavy (T:=float))) = Some b /\
      b = 0x1.1f71fb3032916p+38%float) /\
  (forall b : float,
      ~ (Qabs (toQ b - toQ (weight (Samples.heavy (T:=float)))
                       / toQ (height (Samples.heavy (T:=float))) ^ 2)
         <= 1 # 1000000000)%Q) /\
  (forall b : float,
      ~ (Qabs (toQ b - 1000000000000 / 1.80 ^ 2) <= 1 # 1000000000)%Q).
Proof.
  split; [reflexivity|]. split; [reflexivity|].
  split; [eexists; split; reflexivity|].
  split.
  - apply (@BmiAccuracy.no_double_near _ _ 5056790123456789 (-14));
      vm_compute; first [reflexivity|discriminate].
  - apply (@BmiAccuracy.no_double_near _ _ 5056790123456790 (-14));
      vm_compute; first [reflexivity|discriminate].
Qed.

Local Open Scope dbl_scope.

(** The male and the female value of one validated person, in binary64. *)
Lemma validated_bmr_accuracy (libm_pow : float -> Z -> float)
  (p : UserProfile (T:=float)) :
  let D := binary64_with libm_pow in
  (1 <= age p <= 120)%Z ->
  (lit 0.5 <=? height p) = true -> (height p <=? lit 2.5) = true ->
  (lit 20.0 <=? weight p) = true -> (weight p <=? lit 300.0) = true ->
  (Qabs (toQ (lit 88.362 + (lit 13.397 * weight p) +
              (lit 4.799 * height p * ofint 100) -
              (lit 5.677 * ofint (age p)))
         - (88.362 + 13.397 * toQ (weight p) + 4.799 * (toQ (height p) * 100)
            - 5.677 * inject_Z (age p))) <= 1 # 1000000000)%Q /\
  (Qabs (toQ (lit 447.593 + (lit 9.247 * weight p) +
              (lit 3.098 * height p * ofint 100) -
              (lit 4.330 * ofint (age p)))
         - (447.593 + 9.247 * toQ (weight p) + 3.098 * (toQ (height p) * 100)
            - 4.330 * inject_Z (age p))) <= 1 # 1000000000)%Q.
Proof.
  intros D Ha Hh0 Hh1 Hw0 Hw1.
  split.
  - exact (proj1 (@BmrForms.male_accuracy (weight p) (height p) (age p)
                    Hw0 Hw1 Hh0 Hh1 Ha)).
  - exact (proj1 (@BmrForms.female_accuracy (weight p) (height p) (age p)
                    Hw0 Hw1 Hh0 Hh1 Ha)).
Qed.

(** C3, as the code has it.  In binary64, for every profile with an age
    from 1 to 120, a height from 0.5 to 2.5 and a weight from 20 to 300, a
    "male" profile gets the double
    [88.362 + (13.397 * weight) + (4.799 * height * 100) - (5.677 * age)]
    and a "female" profile the double
    [447.593 + (9.247 * weight) + (3.098 * height * 100) - (4.330 * age)],
    every operation rounded, in the order written; each is within 1e-9 of
    its closed form on the values,
    [88.362 + 13.397*weight + 4.799*(height*100) - 5.677*age] and
    [447.593 + 9.247*weight + 3.098*(height*100) - 4.330*age].  For the
    same age, height and weight the male value exceeds the female one by
    [4.15*weight + 170.1*height - 1.347*age - 359.231] up to 2e-9, so the
    two differ wherever that is more than 2e-9 in magnitude.  In exact
    arithmetic the closed forms hold exactly, for every profile, and the
    two values differ exactly where that quantity is not zero. *)
Theorem calculateMetrics_bmr_closed_forms :
  (forall (libm_pow : float -> Z -> float),
      let D := binary64_with libm_pow in
      forall p : UserProfile (T:=float),
        (1 <= age p <= 120)%Z ->
        (lit 0.5 <=? height p) = true -> (height p <=? lit 2.5) = true ->
        (lit 20.0 <=? weight p) = true -> (weight p <=? lit 300.0) = true ->
        exists r : float,
          bmr (calculateMetrics p) = Some r /\
          (gender p = "male"%string ->
           r = lit 88.362 + (lit 13.397 * weight p) +
               (lit 4.799 * height p * ofint 100) -
               (lit 5.677 * ofint (age p)) /\
           (Qabs (toQ r
                  - (88.362 + 13.397 * toQ (weight p)
                     + 4.799 * (toQ (height p) * 100)
                     - 5.677 * inject_Z (age p))) <= 1 # 1000000000)%Q) /\
          (gender p = "female"%string ->
           r = lit 447.593 + (lit 9.247 * weight p) +
               (lit 3.098 * height p * ofint 100) -
               (lit 4.330 * ofint (age p)) /\
           (Qabs (toQ r
                  - (447.593 + 9.247 * toQ (weight p)
                     + 3.098 * (toQ (height p) * 100)
                     - 4.330 * inject_Z (age p))) <= 1 # 1000000000)%Q)) /\
  (forall (libm_pow : float -> Z -> float),
      let D := binary64_with libm_pow in
      forall p q : UserProfile (T:=float),
        (1 <= age p <= 120)%Z ->
        (lit 0.5 <=? height p) = true -> (height p <=? lit 2.5) = true ->
        (lit 20.0 <=? weight p) = true -> (weight p <=? lit 300.0) = true ->
        age q = age p -> height q = height p -> weight q = weight p ->
        gender p = "male"%string -> gender q = "female"%string ->
        exists m f : float,
          bmr (calculateMetrics p) = Some m /\
          bmr (calculateMetrics q) = Some f /\
          (Qabs (toQ m - toQ f
                 - (4.15 * toQ (weight p) + 170.1 * toQ (height p)
                    - 1.347 * inject_Z (age p) - 359.231))
           <= 2 # 1000000000)%Q /\
          ((2 # 1000000000
            < Qabs (4.15 * toQ (weight p) + 170.1 * toQ (height p)
                    - 1.347 * inject_Z (age p) - 359.231))%Q ->
           m <> f)) /\
  (forall p : UserProfile (T:=Q),
      (gender p = "male"%string ->
       exists b : Q,
         bmr (calculateMetrics p) = Some b /\
         (b == 88.362 + 13.397 * weight p + 4.799 * (height p * 100)
               - 5.677 * inject_Z (age p))%Q) /\
      (gender p = "female"%string ->
       exists b : Q,
         bmr (calculateMetrics p) = Some b /\
         (b == 447.593 + 9.247 * weight p + 3.098 * (height p * 100)
               - 4.330 * inject_Z (age p))%Q)) /\
  (forall p q : UserProfile (T:=Q),
      age q = age p -> height q = height p -> weight q = weight p ->
      gender p = "male"%string -> gender q = "female"%string ->
      exists m f : Q,
        bmr (calculateMetrics p) = Some m /\
        bmr (calculateMetrics q) = Some f /\
        (m - f ==
         4.15 * weight p + 170.1 * height p - 1.347 * inject_Z (age p)
         - 359.231)%Q /\
        (~ (m == f)%Q <->
         ~ (4.15 * weight p + 170.1 * height p - 1.347 * inject_Z (age p)
            == 359.231)%Q)).
Proof.
  split; [|split; [|split]].
  - intros libm_pow D p Ha Hh0 Hh1 Hw0 Hw1.
    destruct (@validated_bmr_accuracy libm_pow p Ha Hh0 Hh1 Hw0 Hw1)
      as [Hm Hf].
    exists (selected_bmr p). split; [apply calculateMetrics_bmr|].
    unfold selected_bmr.
    split; intros Hg; rewrite Hg; simpl String.eqb; cbv iota;
      (split; [reflexivity|assumption]).
  - intros libm_pow D p q Ha Hh0 Hh1 Hw0 Hw1 Eage Eheight Eweight Hgp Hgq.
    destruct (@validated_bmr_accuracy libm_pow p Ha Hh0 Hh1 Hw0 Hw1)
      as [Hm Hf].
    exists (selected_bmr p), (selected_bmr q).
    split; [apply calculateMetrics_bmr|].
    split; [apply calculateMetrics_bmr|].
    unfold selected_bmr. rewrite Hgp, Hgq. simpl String.eqb. cbv iota.
    assert (Ef : bmr_female q = bmr_female p)
      by (unfold bmr_female; rewrite Eage, Eheight, Eweight; reflexivity).
    rewrite Ef.
    change (Qabs (toQ (bmr_male p)
                  - (88.362 + 13.397 * toQ (weight p)
                     + 4.799 * (toQ (height p) * 100)
                     - 5.677 * inject_Z (age p))) <= 1 # 1000000000)%Q in Hm.
    change (Qabs (toQ (bmr_female p)
                  - (447.593 + 9.247 * toQ (weight p)
                     + 3.098 * (toQ (height p) * 100)
                     - 4.330 * inject_Z (age p))) <= 1 # 1000000000)%Q in Hf.
    set (m := bmr_male p) in *. set (f := bmr_female p) in *.
    set (W := toQ (weight p)) in *. set (H := toQ (height p)) in *.
    set (A := inject_Z (age p)) in *.
    assert (Hdiff : (Qabs (toQ m - toQ f
                           - (4.15 * W + 170.1 * H - 1.347 * A - 359.231))
                     <= 2 # 1000000000)%Q).
    { apply Qabs_Qle_condition. apply Qabs_Qle_condition in Hm, Hf.
      split; lra. }
    split; [exact Hdiff|].
    intros Hfar Heq. rewrite Heq in Hdiff.
    apply Qabs_Qle_condition in Hdiff.
    revert Hfar. apply Qle_not_lt. apply Qabs_Qle_condition. split; lra.
  - intros p. split.
    + intros Hg. exists (bmr_male p). split.
      * rewrite calculateMetrics_bmr. unfold selected_bmr. now rewrite Hg.
      * apply ExactFacts.bmr_male_closed_form.
    + intros Hg. exists (bmr_female p). split.
      * rewrite calculateMetrics_bmr. unfold selected_bmr. now rewrite Hg.
      * apply ExactFacts.bmr_female_closed_form.
  - intros p q Eage Eheight Eweight Hgp Hgq.
    exists (bmr_male p), (bmr_female p).
    split; [rewrite calculateMetrics_bmr; unfold selected_bmr;
            now rewrite Hgp|].
    split.
    { rewrite calculateMetrics_bmr. unfold selected_bmr. rewrite Hgq.
      simpl String.eqb. cbv iota. unfold bmr_female.
      rewrite Eage, Eheight, Eweight. reflexivity. }
    pose proof (ExactFacts.bmr_difference p) as Hd.
    split; [exact Hd|].
    split; intros Hne Heq; apply Hne; lra.
Qed.

Local Close Scope dbl_scope.

Lemma calculateMetrics_bmr_closed_forms_witness :
  (exists r : float,
      bmr (calculateMetrics (Samples.scenario (T:=float))) = Some r /\
      r = 0x1.c5c20c49ba5e4p+10%float /\
      (Qabs (toQ r
             - (88.362 + 13.397 * toQ (weight (Samples.scenario (T:=float)))
                + 4.799 * (toQ (height (Samples.scenario (T:=float))) * 100)
                - 5.677 * inject_Z (age (Samples.scenario (T:=float)))))
       <= 1 # 1000000000)%Q) /\
  (exists b : Q,
      bmr (calculateMetrics (Samples.scenario (T:=Q))) = Some b /\
      (b == 1815.032)%Q).
Proof.
  destruct calculateMetrics_bmr_closed_forms as (Hdouble & _ & Hexact & _).
  split.
  - destruct (Hdouble repeated_product Samples.scenario)
      as (r & Hr & Hmale & _);
      try reflexivity; [simpl; lia|].
    destruct (Hmale eq_refl) as [E Hb].
    exists r. split; [exact Hr|]. split; [|exact Hb].
    rewrite E. reflexivity.
  - destruct (Hexact Samples.scenario) as (Hmale & _).
    destruct (Hmale eq_refl) as (b & Hb & Heq).
    exists b. split; [exact Hb|]. rewrite Heq. reflexivity.
Defined.

(** C3 as stated fails: at age 59, 1.51 m and 43.82 kg, all of them
    entries the prompts accept, the male and the female expression give the
    same value: the same double in binary64, and 1065.12454 in exact
    arithmetic. *)
Lemma bmr_male_female_coincide :
  collectUserData (T:=float)
    {| ageEntries := [Some 59%Z]; genderEntries := ["male"%string];
       heightEntries := [Some (lit 1.51)]; weightEntries := [Some (lit 43.82)];
       activityLevelEntries := ["sedentary"%string];
       sleepHoursEntries := [Some 8%Z]; lifestyleEntries := ["none"%string];
       dietaryPrefEntries := ["none"%string] |}
  = Some (Samples.coincidence "male") /\
  bmr (calculateMetrics (Samples.coincidence (T:=float) "male"))
  = Some 0x1.0a47f8769ec2dp+10%float /\
  bmr (calculateMetrics (Samples.coincidence (T:=float) "female"))
  = Some 0x1.0a47f8769ec2dp+10%float /\
  bmr (calculateMetrics (Samples.coincidence (T:=float) "male"))
  = bmr (calculateMetrics (Samples.coincidence (T:=float) "female")) /\
  (bmr_male (Samples.coincidence (T:=Q) "male") == 1065.12454)%Q /\
  (bmr_female (Samples.coincidence (T:=Q) "female") == 1065.12454)%Q.
Proof. repeat split; vm_compute; reflexivity. Qed.

Local Open Scope dbl_scope.

(** C5, as the code has it: the three gram values are
    [dailyCalories*0.50/4.0], [dailyCalories*0.20/4.0] and
    [dailyCalories*0.30/9.0].  In exact arithmetic their calories add up to
    [dailyCalories] again, whatever its value.  In binary64 the calories of
    the three doubles add up to [dailyCalories] up to one part in 10^15 for
    every [dailyCalories] that is zero or of a magnitude between 2^-300 and
    2^300; the [dailyCalories] that [calculateMetrics] stores for a profile
    that went through the prompts is always such a value. *)
Theorem macronutrient_calories_round_trip :
  (forall dailyCalories : Q,
      (carbsGrams MacroRatio_default dailyCalories
       == dailyCalories * 0.50 / 4.0)%Q /\
      (proteinGrams MacroRatio_default dailyCalories
       == dailyCalories * 0.20 / 4.0)%Q /\
      (fatGrams MacroRatio_default dailyCalories
       == dailyCalories * 0.30 / 9.0)%Q /\
      (carbsGrams MacroRatio_default dailyCalories * 4
       + proteinGrams MacroRatio_default dailyCalories * 4
       + fatGrams MacroRatio_default dailyCalories * 9 == dailyCalories)%Q) /\
  (forall dailyCalories : float,
      moderate dailyCalories ->
      carbsGrams MacroRatio_default dailyCalories
      = (dailyCalories * lit 0.50 / lit 4.0)%D /\
      proteinGrams MacroRatio_default dailyCalories
      = (dailyCalories * lit 0.20 / lit 4.0)%D /\
      fatGrams MacroRatio_default dailyCalories
      = (dailyCalories * lit 0.30 / lit 9.0)%D /\
      (Qabs (toQ (carbsGrams MacroRatio_default dailyCalories) * 4
             + toQ (proteinGrams MacroRatio_default dailyCalories) * 4
             + toQ (fatGrams MacroRatio_default dailyCalories) * 9
             - toQ dailyCalories)
       <= Qabs (toQ dailyCalories) * (1 # 1000000000000000))%Q) /\
  (forall (libm_pow : float -> Z -> float),
      let D := binary64_with libm_pow in
      forall (cin : Entries) (p : UserProfile (T:=float)),
        collectUserData cin = Some p ->
        exists c : float,
          dailyCalories (calculateMetrics p) = Some c /\
          moderate c /\
          (Qabs (toQ (carbsGrams MacroRatio_default c) * 4
                 + toQ (proteinGrams MacroRatio_default c) * 4
                 + toQ (fatGrams MacroRatio_default c) * 9
                 - toQ c)
           <= Qabs (toQ c) * (1 # 1000000000000000))%Q).
Proof.
  split; [|split].
  - intros dailyCalories. exact_ops. repeat split; field.
  - intros dailyCalories Hmod.
    split; [reflexivity|]. split; [reflexivity|]. split; [reflexivity|].
    now apply MacroSigns.macro_round_trip_moderate.
  - intros libm_pow D cin p Hp.
    destruct (@collected_dailyCalories_moderate libm_pow cin p Hp)
      as (c & Hc & Hmod).
    exists c. split; [exact Hc|]. split; [exact Hmod|].
    exact (MacroSigns.macro_round_trip_moderate Hmod).
Qed.

Local Close Scope dbl_scope.

Lemma macronutrient_calories_round_trip_witness :
  (Qabs (toQ (carbsGrams MacroRatio_default 0x1.5fa99652bd3c4p+11%float) * 4
         + toQ (proteinGrams MacroRatio_default 0x1.5fa99652bd3c4p+11%float) * 4
         + toQ (fatGrams MacroRatio_default 0x1.5fa99652bd3c4p+11%float) * 9
         - toQ 0x1.5fa99652bd3c4p+11%float)
   <= Qabs (toQ 0x1.5fa99652bd3c4p+11%float) * (1 # 1000000000000000))%Q /\
  (exists c : float,
      dailyCalories (calculateMetrics (Samples.scenario (T:=float))) = Some c /\
      moderate c).
Proof.
  destruct macronutrient_calories_round_trip as (_ & Hdouble & Hcollected).
  split.
  - apply (Hdouble 0x1.5fa99652bd3c4p+11%float).
    right. left. split; vm_compute; reflexivity.
  - assert (Hc : collectUserData (T:=float) Samples.scenarioEntries
                 = Some Samples.scenario) by (vm_compute; reflexivity).
    destruct (Hcollected repeated_product _ _ Hc) as (c & Hd & Hmod & _).
    exists c. split; assumption.
Defined.

Local Open Scope dbl_scope.

(** C5 as stated fails in binary64.  For the least positive double,
    2^-1074, each of the three products rounds to zero, so the three gram
    values are zero and their calories add up to zero, not to
    [dailyCalories].  For a [dailyCalories] that is NaN the calories add up
    to NaN, which is within no tolerance of anything. *)
Lemma macronutrient_round_trip_underflow :
  carbsGrams MacroRatio_default 0x1p-1074%float = 0%float /\
  proteinGrams MacroRatio_default 0x1p-1074%float = 0%float /\
  fatGrams MacroRatio_default 0x1p-1074%float = 0%float /\
  (carbsGrams MacroRatio_default 0x1p-1074%float * lit 4
   + proteinGrams MacroRatio_default 0x1p-1074%float * lit 4
   + fatGrams MacroRatio_default 0x1p-1074%float * lit 9)%D = 0%float /\
  (0 < toQ 0x1p-1074)%Q /\
  ~ (Qabs (toQ (carbsGrams MacroRatio_default 0x1p-1074%float) * 4
           + toQ (proteinGrams MacroRatio_default 0x1p-1074%float) * 4
           + toQ (fatGrams MacroRatio_default 0x1p-1074%float) * 9
           - toQ 0x1p-1074)
     <= Qabs (toQ 0x1p-1074) * (1 # 1000000000000000))%Q /\
  (carbsGrams MacroRatio_default nan * lit 4
   + proteinGrams MacroRatio_default nan * lit 4
   + fatGrams MacroRatio_default nan * lit 9)%D = nan /\
  (forall tolerance : float,
      (PrimFloat.abs (carbsGrams MacroRatio_default nan * lit 4
                      + proteinGrams MacroRatio_default nan * lit 4
                      + fatGrams MacroRatio_default nan * lit 9 - nan)
       <=? tolerance)%D = false).
Proof.
  split; [reflexivity|]. split; [reflexivity|]. split; [reflexivity|].
  split; [reflexivity|]. split; [vm_compute; reflexivity|].
  split; [vm_compute; intros H; apply H; reflexivity|].
  split; [reflexivity|].
  intros tolerance.
  change (PrimFloat.leb nan tolerance = false).
  rewrite leb_spec. change (Prim2SF nan) with S754_nan.
  destruct (Prim2SF tolerance) as [[]|[]| |[] m e]; reflexivity.
Qed.

Local Close Scope dbl_scope.

(** On binary64, for the sample session: the calories of the three gram
    values, added up in doubles, are the [dailyCalories] they came from. *)
Example macronutrient_calories_scenario :
  exists c : float,
    dailyCalories (calculateMetrics (Samples.scenario (T:=float))) = Some c /\
    (carbsGrams MacroRatio_default c * lit 4
     + proteinGrams MacroRatio_default c * lit 4
     + fatGrams MacroRatio_default c * lit 9)%D = c.
Proof. eexists. split; reflexivity. Qed.

(** * Further properties

    What the loops, the session and the report do on every input, beyond
    the claims above. *)

(** ** The retry loops, completely *)

Section LoopResults.
Context {T : Type} `{Cmp T}.

Lemma getValidInput_None (lo hi : T) (cin : list (option T)) :
  getValidInput lo hi cin = None <->
  Forall (fun e => inRange lo hi e = false) cin.
Proof.
  induction cin as [|e l IH]; simpl.
  - split; [constructor|reflexivity].
  - destruct e as [x|]; simpl.
    + destruct (geb x lo && leb x hi) eqn:Hx.
      * split; [discriminate|]. intros Hall. inversion Hall as [|? ? He _].
        simpl in He. congruence.
      * rewrite IH. split.
        -- intros Hl. constructor; [exact Hx|exact Hl].
        -- intros Hall. now inversion Hall.
    + rewrite IH. split.
      * intros Hl. constructor; [reflexivity|exact Hl].
      * intros Hall. now inversion Hall.
Qed.

Lemma getValidInput_Some (lo hi : T) (cin : list (option T)) (v : T)
  (rest : list (option T)) :
  getValidInput lo hi cin = Some (v, rest) <->
  exists rejected,
    cin = rejected ++ Some v :: rest /\
    Forall (fun e => inRange lo hi e = false) rejected /\
    inRange lo hi (Some v) = true.
Proof.
  split.
  - induction cin as [|e l IH]; simpl; [discriminate|].
    destruct e as [x|].
    + destruct (geb x lo && leb x hi) eqn:Hx.
      * intros [= <- <-]. exists []. repeat split; [constructor|exact Hx].
      * intros Hl. destruct (IH Hl) as (rej & -> & Hrej & Hv).
        exists (Some x :: rej). repeat split; [|exact Hv].
        constructor; [exact Hx|exact Hrej].
    + intros Hl. destruct (IH Hl) as (rej & -> & Hrej & Hv).
      exists (None :: rej). repeat split; [|exact Hv].
      constructor; [reflexivity|exact Hrej].
  - intros (rej & -> & Hrej & Hv). now apply getValidInput_first.
Qed.

(** The loop returns exactly when some entry passes the test. *)
Lemma getValidInput_existsb (lo hi : T) (cin : list (option T)) :
  (exists r, getValidInput lo hi cin = Some r) <->
  existsb (inRange lo hi) cin = true.
Proof.
  induction cin as [|e l IH]; simpl.
  - split; [intros [r Hr]; discriminate|discriminate].
  - destruct e as [x|]; simpl.
    + destruct (geb x lo && leb x hi); simpl; [|exact IH].
      split; [reflexivity|]. intros _. now eexists.
    + exact IH.
Qed.

End LoopResults.

Lemma getValidStringInput_None (f : string -> bool) (cin : list string) :
  getValidStringInput f cin = None <-> Forall (fun s => f s = false) cin.
Proof.
  induction cin as [|x l IH]; simpl.
  - split; [constructor|reflexivity].
  - destruct (f x) eqn:Hx.
    + split; [discriminate|]. intros Hall. inversion Hall. congruence.
    + rewrite IH. split.
      * intros Hl. constructor; assumption.
      * intros Hall. now inversion Hall.
Qed.

Lemma getValidStringInput_Some (f : string -> bool) (cin : list string)
  (v : string) (rest : list string) :
  getValidStringInput f cin = Some (v, rest) <->
  exists rejected input,
    cin = rejected ++ input :: rest /\
    Forall (fun s => f s = false) rejected /\
    f input = true /\ v = Str.lowercase input.
Proof.
  split.
  - induction cin as [|x l IH]; simpl; [discriminate|].
    destruct (f x) eqn:Hx.
    + intros [= <- <-]. exists [], x. repeat split; [constructor|exact Hx].
    + intros Hl. destruct (IH Hl) as (rej & s & -> & Hrej & Hs & Hv).
      exists (x :: rej), s. repeat split; try assumption.
      constructor; assumption.
  - intros (rej & s & -> & Hrej & Hs & ->). now apply getValidStringInput_first.
Qed.

Lemma getValidStringInput_existsb (f : string -> bool) (cin : list string) :
  (exists r, getValidStringInput f cin = Some r) <-> existsb f cin = true.
Proof.
  induction cin as [|x l IH]; simpl.
  - split; [intros [r Hr]; discriminate|discriminate].
  - destruct (f x); simpl; [|exact IH].
    split; [reflexivity|]. intros _. now eexists.
Qed.

(** X1: [getValidInput] returns [v] and leaves [rest] exactly when the
    entries are some refused entries (failed extractions or values outside
    the bounds), then [v], which passes the test, then [rest]; and it has no
    result exactly when every entry is refused. *)
Theorem getValidInput_first_accepted :
  forall (T : Type) (C : Cmp T) (lo hi : T) (cin : list (option T)),
    (forall v rest,
        getValidInput lo hi cin = Some (v, rest) <->
        exists rejected,
          cin = rejected ++ Some v :: rest /\
          Forall (fun e => inRange lo hi e = false) rejected /\
          inRange lo hi (Some v) = true) /\
    (getValidInput lo hi cin = None <->
     Forall (fun e => inRange lo hi e = false) cin).
Proof.
  intros T C lo hi cin. split.
  - intros v rest. apply getValidInput_Some.
  - apply getValidInput_None.
Qed.

(** X2: [getValidStringInput] returns [v] and leaves [rest] exactly when the
    entries are some entries the validator refuses, then one it accepts,
    whose lowercase form is [v], then [rest]; and it has no result exactly
    when the validator refuses every entry. *)
Theorem getValidStringInput_first_accepted :
  forall (validationFunc : string -> bool) (cin : list string),
    (forall v rest,
        getValidStringInput validationFunc cin = Some (v, rest) <->
        exists rejected input,
          cin = rejected ++ input :: rest /\
          Forall (fun s => validationFunc s = false) rejected /\
          validationFunc input = true /\ v = Str.lowercase input) /\
    (getValidStringInput validationFunc cin = None <->
     Forall (fun s => validationFunc s = false) cin).
Proof.
  intros f cin. split.
  - intros v rest. apply getValidStringInput_Some.
  - apply getValidStringInput_None.
Qed.

(** ** What the loops write *)

Section CoutFacts.
Context {T : Type} `{Cmp T}.

Lemma getValidInput_cout_result (prompt : string) (lo hi : T)
  (cin : list (option T)) :
  snd (getValidInput_cout prompt lo hi cin) = getValidInput lo hi cin.
Proof.
  induction cin as [|e l IH]; simpl; [reflexivity|].
  destruct e as [x|].
  - destruct (geb x lo && leb x hi); [reflexivity|].
    destruct (getValidInput_cout prompt lo hi l). exact IH.
  - destruct (getValidInput_cout prompt lo hi l). exact IH.
Qed.

Lemma getValidInput_cout_rejected (prompt : string) (lo hi : T)
  (rejected rest : list (option T)) :
  Forall (fun e => inRange lo hi e = false) rejected ->
  fst (getValidInput_cout prompt lo hi (rejected ++ rest))
  = List.concat (repeat (Text prompt :: invalidInput lo hi)
                        (List.length rejected))
    ++ fst (getValidInput_cout prompt lo hi rest).
Proof.
  intros Hrej. induction Hrej as [|e l He _ IH]; [reflexivity|].
  rewrite <- app_comm_cons.
  cbn [getValidInput_cout List.length repeat List.concat].
  assert (Hstep : fst (let (out, result) :=
                         getValidInput_cout prompt lo hi (l ++ rest) in
                       (Text prompt :: invalidInput lo hi ++ out, result))
                  = (Text prompt :: invalidInput lo hi)
                    ++ fst (getValidInput_cout prompt lo hi (l ++ rest))).
  { destruct (getValidInput_cout prompt lo hi (l ++ rest)); reflexivity. }
  destruct e as [x|].
  - simpl in He. rewrite He, Hstep, IH. now rewrite app_assoc.
  - rewrite Hstep, IH. now rewrite app_assoc.
Qed.

Lemma getValidStringInput_cout_result (prompt : string) (f : string -> bool)
  (cin : list string) :
  snd (getValidStringInput_cout (T:=T) prompt f cin)
  = getValidStringInput f cin.
Proof.
  induction cin as [|x l IH]; simpl; [reflexivity|].
  destruct (f x); [reflexivity|].
  destruct (getValidStringInput_cout prompt f l). exact IH.
Qed.

Lemma getValidStringInput_cout_rejected (prompt : string) (f : string -> bool)
  (rejected rest : list string) :
  Forall (fun s => f s = false) rejected ->
  fst (getValidStringInput_cout (T:=T) prompt f (rejected ++ rest))
  = List.concat (repeat (Text prompt :: tryAgain) (List.length rejected))
    ++ fst (getValidStringInput_cout prompt f rest).
Proof.
  intros Hrej. induction Hrej as [|x l Hx _ IH]; [reflexivity|].
  rewrite <- app_comm_cons.
  cbn [getValidStringInput_cout List.length repeat List.concat].
  rewrite Hx.
  destruct (getValidStringInput_cout prompt f (l ++ rest)) as [out r].
  simpl in *. rewrite IH. reflexivity.
Qed.

End CoutFacts.

(** X3: [getValidInput] with its output computes the same result, and
    writes the prompt once for every entry it reads: each refused entry is
    followed by the message "Invalid input. Please enter a value between
    [min] and [max]" and [endl], and the output ends with the prompt that
    got the returned entry, or, when every entry was refused, with the
    prompt it is waiting at. *)
Theorem getValidInput_cout_transcript :
  forall (T : Type) (C : Cmp T) (prompt : string) (lo hi : T)
         (cin : list (option T)),
    snd (getValidInput_cout prompt lo hi cin) = getValidInput lo hi cin /\
    (forall v rest,
        getValidInput lo hi cin = Some (v, rest) ->
        fst (getValidInput_cout prompt lo hi cin)
        = List.concat
            (repeat (Text prompt :: invalidInput lo hi)
                    (List.length cin - List.length rest - 1))
          ++ [Text prompt]) /\
    (getValidInput lo hi cin = None ->
     fst (getValidInput_cout prompt lo hi cin)
     = List.concat
         (repeat (Text prompt :: invalidInput lo hi) (List.length cin))
       ++ [Text prompt]).
Proof.
  intros T C prompt lo hi cin.
  split; [apply getValidInput_cout_result|]. split.
  - intros v rest Hres. apply getValidInput_Some in Hres.
    destruct Hres as (rej & -> & Hrej & Hv).
    rewrite (@getValidInput_cout_rejected T C prompt lo hi rej
               (Some v :: rest) Hrej).
    rewrite length_app. cbn [List.length].
    replace (List.length rej + S (List.length rest) - List.length rest - 1)%nat
      with (List.length rej) by lia.
    cbn [getValidInput_cout]. simpl in Hv. rewrite Hv. reflexivity.
  - intros Hres. apply getValidInput_None in Hres.
    pose proof (@getValidInput_cout_rejected T C prompt lo hi cin [] Hres)
      as Hout.
    rewrite app_nil_r in Hout. exact Hout.
Qed.

(** X4: [getValidStringInput] with its output computes the same result, and
    writes the prompt once for every entry it reads: each refused entry is
    followed by the line "Invalid input. Please try again.", and the output
    ends with the prompt that got the returned entry, or with the prompt it
    is waiting at. *)
Theorem getValidStringInput_cout_transcript :
  forall (T : Type) (prompt : string) (validationFunc : string -> bool)
         (cin : list string),
    snd (getValidStringInput_cout (T:=T) prompt validationFunc cin)
    = getValidStringInput validationFunc cin /\
    (forall v rest,
        getValidStringInput validationFunc cin = Some (v, rest) ->
        fst (getValidStringInput_cout (T:=T) prompt validationFunc cin)
        = List.concat
            (repeat (Text prompt :: tryAgain)
                    (List.length cin - List.length rest - 1))
          ++ [Text prompt]) /\
    (getValidStringInput validationFunc cin = None ->
     fst (getValidStringInput_cout (T:=T) prompt validationFunc cin)
     = List.concat (repeat (Text prompt :: tryAgain) (List.length cin))
       ++ [Text prompt]).
Proof.
  intros T prompt f cin.
  split; [apply getValidStringInput_cout_result|]. split.
  - intros v rest Hres. apply getValidStringInput_Some in Hres.
    destruct Hres as (rej & s & -> & Hrej & Hs & ->).
    rewrite (@getValidStringInput_cout_rejected T prompt f rej (s :: rest)
               Hrej).
    rewrite length_app. cbn [List.length].
    replace (List.length rej + S (List.length rest) - List.length rest - 1)%nat
      with (List.length rej) by lia.
    cbn [getValidStringInput_cout]. rewrite Hs. reflexivity.
  - intros Hres. apply getValidStringInput_None in Hres.
    pose proof (@getValidStringInput_cout_rejected T prompt f cin [] Hres)
      as Hout.
    rewrite app_nil_r in Hout. exact Hout.
Qed.

(** ** The four validators *)

(** The validators see an entry only through its lowercase form. *)
Lemma validators_lowercase (s : string) :
  isValidGender (Str.lowercase s) = isValidGender s /\
  isValidActivityLevel (Str.lowercase s) = isValidActivityLevel s /\
  isValidLifestyle (Str.lowercase s) = isValidLifestyle s /\
  isValidDietaryPref (Str.lowercase s) = isValidDietaryPref s.
Proof.
  unfold isValidGender, isValidActivityLevel, isValidLifestyle,
    isValidDietaryPref.
  cbv zeta. now rewrite StrFacts.lowercase_idempotent.
Qed.

(** X5: the validators compare the whole entry: nothing is trimmed, so an
    accepted entry has exactly as many characters as one of the words of
    its prompt. *)
Theorem validators_exact_length (s : string) :
  (isValidGender s = true -> In (String.length s) [4; 6]%nat) /\
  (isValidActivityLevel s = true ->
   In (String.length s) [9; 14; 17; 11]%nat) /\
  (isValidLifestyle s = true -> In (String.length s) [7; 7; 4]%nat) /\
  (isValidDietaryPref s = true -> In (String.length s) [10; 5; 4]%nat).
Proof.
  rewrite <- (StrFacts.transform_length Str.tolower s).
  fold (Str.lowercase s).
  rewrite isValidGender_iff, isValidActivityLevel_iff, isValidLifestyle_iff,
    isValidDietaryPref_iff.
  repeat split.
  - intros [E|E]; rewrite E; simpl; auto.
  - simpl. intros [E|[E|[E|[E|[]]]]]; rewrite <- E; simpl; auto.
  - simpl. intros [E|[E|[E|[]]]]; rewrite <- E; simpl; auto.
  - simpl. intros [E|[E|[E|[]]]]; rewrite <- E; simpl; auto.
Qed.

Lemma validators_exact_length_witness :
  In (String.length "Very Active") [9; 14; 17; 11]%nat.
Proof.
  apply (proj1 (proj2 (validators_exact_length "Very Active"))).
  reflexivity.
Defined.

(** X6: what [getValidStringInput] returns for one of the four validators
    is in canonical form: lowercasing it again changes nothing, the
    validator accepts it, and typed again at the same prompt it is returned
    as it is. *)
Theorem getValidStringInput_canonical (validationFunc : string -> bool)
  (cin : list string) (v : string) (rest : list string) :
  In validationFunc
     [isValidGender; isValidActivityLevel; isValidLifestyle;
      isValidDietaryPref] ->
  getValidStringInput validationFunc cin = Some (v, rest) ->
  Str.lowercase v = v /\
  validationFunc v = true /\
  forall later : list string,
    getValidStringInput validationFunc (v :: later) = Some (v, later).
Proof.
  intros Hf Hres.
  apply getValidStringInput_accepted in Hres.
  destruct Hres as (s & _ & Hs & ->).
  assert (Hv : validationFunc (Str.lowercase s) = true).
  { destruct (validators_lowercase s) as (H1 & H2 & H3 & H4).
    simpl in Hf. destruct Hf as [<-|[<-|[<-|[<-|[]]]]]; congruence. }
  split; [apply StrFacts.lowercase_idempotent|].
  split; [exact Hv|].
  intros later. cbn [getValidStringInput]. rewrite Hv.
  fold (Str.lowercase (Str.lowercase s)).
  now rewrite StrFacts.lowercase_idempotent.
Qed.

Lemma getValidStringInput_canonical_witness :
  getValidStringInput isValidLifestyle ["none"; "later"]%string
  = Some ("none"%string, ["later"%string]).
Proof.
  apply (@getValidStringInput_canonical isValidLifestyle
           ["smoke"; "NONE"; "x"]%string "none"%string ["x"%string]).
  - simpl. auto.
  - reflexivity.
Defined.

(** ** The session *)

Section SessionFacts.
Context {T : Type} {D : Double T}.

Local Open Scope dbl_scope.

(** X7: every member of a profile that [collectUserData] returns passed its
    prompt: age from 1 to 120, height from 0.5 to 2.5, weight from 20 to 300,
    sleep from 0 to 24, the four strings among the lowercase words of their
    prompts; and the three calculated members are still unset. *)
Theorem collected_profile_validated (cin : Entries) (p : UserProfile) :
  collectUserData cin = Some p ->
  (1 <= age p <= 120)%Z /\
  (gender p = "male"%string \/ gender p = "female"%string) /\
  (leb (lit 0.5) (height p) = true /\ leb (height p) (lit 2.5) = true) /\
  (leb (lit 20.0) (weight p) = true /\ leb (weight p) (lit 300.0) = true) /\
  In (activityLevel p)
     ["sedentary"; "lightly active"; "moderately active"; "very active"]%string /\
  (0 <= sleepHours p <= 24)%Z /\
  In (lifestyle p) ["smoking"; "alcohol"; "none"]%string /\
  In (dietaryPref p) ["vegetarian"; "vegan"; "none"]%string /\
  bmi p = None /\ bmr p = None /\ dailyCalories p = None.
Proof. apply collectUserData_validated. Qed.

(** X8: [collectUserData] returns a profile exactly when each of the eight
    prompts gets at least one entry that passes its test; otherwise the
    program is still prompting. *)
Theorem collectUserData_completes (cin : Entries) :
  (exists p, collectUserData cin = Some p) <->
  existsb (inRange 1%Z 120%Z) (ageEntries cin) = true /\
  existsb isValidGender (genderEntries cin) = true /\
  existsb (inRange (lit 0.5) (lit 2.5)) (heightEntries cin) = true /\
  existsb (inRange (lit 20.0) (lit 300.0)) (weightEntries cin) = true /\
  existsb isValidActivityLevel (activityLevelEntries cin) = true /\
  existsb (inRange 0%Z 24%Z) (sleepHoursEntries cin) = true /\
  existsb isValidLifestyle (lifestyleEntries cin) = true /\
  existsb isValidDietaryPref (dietaryPrefEntries cin) = true.
Proof.
  rewrite <- !getValidInput_existsb, <- !getValidStringInput_existsb.
  unfold collectUserData, bind. split.
  - intros [p Hp].
    destruct (getValidInput 1%Z 120%Z _) as [a|]; [|discriminate].
    destruct (getValidStringInput isValidGender _) as [g|]; [|discriminate].
    destruct (getValidInput (lit 0.5) _ _) as [h|]; [|discriminate].
    destruct (getValidInput (lit 20.0) _ _) as [w|]; [|discriminate].
    destruct (getValidStringInput isValidActivityLevel _) as [l|];
      [|discriminate].
    destruct (getValidInput 0%Z 24%Z _) as [s|]; [|discriminate].
    destruct (getValidStringInput isValidLifestyle _) as [ls|];
      [|discriminate].
    destruct (getValidStringInput isValidDietaryPref _) as [d|];
      [|discriminate].
    repeat split; eexists; reflexivity.
  - intros ([a ->] & [g ->] & [h ->] & [w ->] & [l ->] & [s ->] & [ls ->]
            & [d ->]).
    eexists; reflexivity.
Qed.

(** After [calculateMetrics] the only member that can still be unset is
    [dailyCalories]. *)
Lemma displayResults_calculateMetrics (p : UserProfile) :
  displayResults (calculateMetrics p) = None <->
  dailyCalories (calculateMetrics p) = None.
Proof.
  unfold displayResults, provideRecommendations, bind.
  rewrite calculateMetrics_bmi, calculateMetrics_bmr.
  destruct (dailyCalories (calculateMetrics p)).
  - split; discriminate.
  - split; reflexivity.
Qed.

Lemma dailyCalories_calculateMetrics (p : UserProfile) :
  dailyCalories (calculateMetrics p) = None <->
  dailyCalories p = None /\
  ~ In (activityLevel p)
       ["sedentary"; "lightly active"; "moderately active";
        "very active"]%string.
Proof.
  split.
  - intros Hnone. split.
    + destruct (dailyCalories p) as [c|] eqn:Hc; [|reflexivity].
      exfalso. revert Hnone. unfold calculateMetrics.
      rewrite assignDailyCalories_find.
      destruct (find _ _); destruct p as [ag g ht wt lv sl lf dp bm br dc];
        simpl in *; destruct (g =? "male")%string; simpl; congruence.
    + intros Hin.
      assert (Hm : exists m, dailyCalories (calculateMetrics p)
                             = Some (selected_bmr p * m)).
      { simpl in Hin. destruct Hin as [E|[E|[E|[E|[]]]]]; eexists;
          apply calculateMetrics_matched; rewrite <- E; simpl; eauto 6. }
      destruct Hm as [m Hm]. congruence.
  - intros [Hnone Hnot].
    rewrite calculateMetrics_unmatched.
    + exact Hnone.
    + apply find_unmatched; intros E; apply Hnot; rewrite E; simpl; auto 6.
Qed.

(** X9: [displayResults] after [calculateMetrics] reads a member that was
    never assigned exactly when [dailyCalories] was unset before and
    [activityLevel] is none of the four table entries; in every other case
    the report is written. *)
Theorem displayResults_unset (p : UserProfile) :
  displayResults (calculateMetrics p) = None <->
  dailyCalories p = None /\
  ~ In (activityLevel p)
       ["sedentary"; "lightly active"; "moderately active";
        "very active"]%string.
Proof.
  rewrite displayResults_calculateMetrics. apply dailyCalories_calculateMetrics.
Qed.

Lemma bind_cout_Some {A B : Type} (x : list (written (T:=T)) * option A)
  (f : A -> list (written (T:=T)) * option B) (a : A) :
  snd x = Some a ->
  bind_cout x f = (fst x ++ fst (f a), snd (f a)).
Proof.
  intros Hx. unfold bind_cout. rewrite Hx. destruct (f a); reflexivity.
Qed.

(** What the eight loops of [collectUserData] write when each of them gets
    an entry it accepts. *)
Lemma collectUserData_cout_collected (cin : Entries) (p : UserProfile) :
  collectUserData cin = Some p ->
  collectUserData_cout cin
  = (map Prompted_int
       (fst (getValidInput_cout "Enter your age: " 1%Z 120%Z
               (ageEntries cin))) ++
     map Prompted
       (fst (getValidStringInput_cout "Enter your gender (male/female): "
               isValidGender (genderEntries cin))) ++
     map Prompted
       (fst (getValidInput_cout "Enter your height (in meters): "
               (lit 0.5) (lit 2.5) (heightEntries cin))) ++
     map Prompted
       (fst (getValidInput_cout "Enter your weight (in kg): "
               (lit 20.0) (lit 300.0) (weightEntries cin))) ++
     map Prompted
       (fst (getValidStringInput_cout
               "Enter your activity level (sedentary, lightly active, moderately active, very active): "
               isValidActivityLevel (activityLevelEntries cin))) ++
     map Prompted_int
       (fst (getValidInput_cout "Enter your hours of sleep per night: "
               0%Z 24%Z (sleepHoursEntries cin))) ++
     map Prompted
       (fst (getValidStringInput_cout
               "Enter your lifestyle habits (smoking, alcohol, none): "
               isValidLifestyle (lifestyleEntries cin))) ++
     map Prompted
       (fst (getValidStringInput_cout
               "Enter your dietary preferences (vegetarian, vegan, none): "
               isValidDietaryPref (dietaryPrefEntries cin))),
     Some p).
Proof.
  intros Hp. unfold collectUserData, bind in Hp.
  destruct (getValidInput 1%Z 120%Z _) as [a|] eqn:Ha; [|discriminate].
  destruct (getValidStringInput isValidGender _) as [g|] eqn:Hg;
    [|discriminate].
  destruct (getValidInput (lit 0.5) _ _) as [h|] eqn:Hh; [|discriminate].
  destruct (getValidInput (lit 20.0) _ _) as [w|] eqn:Hw; [|discriminate].
  destruct (getValidStringInput isValidActivityLevel _) as [l|] eqn:Hl;
    [|discriminate].
  destruct (getValidInput 0%Z 24%Z _) as [s|] eqn:Hs; [|discriminate].
  destruct (getValidStringInput isValidLifestyle _) as [ls|] eqn:Hls;
    [|discriminate].
  destruct (getValidStringInput isValidDietaryPref _) as [d|] eqn:Hd;
    [|discriminate].
  injection Hp as <-.
  unfold collectUserData_cout.
  rewrite (bind_cout_Some _ _ (a:=a))
    by (unfold asked_int; cbn [snd]; rewrite getValidInput_cout_result;
        exact Ha).
  cbn beta.
  rewrite (bind_cout_Some _ _ (a:=g))
    by (unfold asked; cbn [snd]; rewrite getValidStringInput_cout_result;
        exact Hg).
  cbn beta.
  rewrite (bind_cout_Some _ _ (a:=h))
    by (unfold asked; cbn [snd]; rewrite getValidInput_cout_result;
        exact Hh).
  cbn beta.
  rewrite (bind_cout_Some _ _ (a:=w))
    by (unfold asked; cbn [snd]; rewrite getValidInput_cout_result;
        exact Hw).
  cbn beta.
  rewrite (bind_cout_Some _ _ (a:=l))
    by (unfold asked; cbn [snd]; rewrite getValidStringInput_cout_result;
        exact Hl).
  cbn beta.
  rewrite (bind_cout_Some _ _ (a:=s))
    by (unfold asked_int; cbn [snd]; rewrite getValidInput_cout_result;
        exact Hs).
  cbn beta.
  rewrite (bind_cout_Some _ _ (a:=ls))
    by (unfold asked; cbn [snd]; rewrite getValidStringInput_cout_result;
        exact Hls).
  cbn beta.
  rewrite (bind_cout_Some _ _ (a:=d))
    by (unfold asked; cbn [snd]; rewrite getValidStringInput_cout_result;
        exact Hd).
  unfold asked, asked_int. cbn [fst snd].
  rewrite app_nil_r. reflexivity.
Qed.

(** X10: a session that gets through the prompts always writes its report
    and returns 0: [main] never reads an unset member, and what it sends to
    [cout] is, in this order, the welcome banner, what the eight loops of
    [collectUserData] write (each prompt, repeated after every refused
    entry with the message of its loop), the report of [displayResults] on
    the computed profile, and the closing line. *)
Theorem main_reports (cin : Entries) (p : UserProfile) :
  collectUserData cin = Some p ->
  exists out,
    displayResults (calculateMetrics p) = Some out /\
    main cin
    = (map Cout [ Str "Welcome to the Wellness Bot!"%string; NL;
                  Str "============================"%string; NL; NL ] ++
       (map Prompted_int
          (fst (getValidInput_cout "Enter your age: " 1%Z 120%Z
                  (ageEntries cin))) ++
        map Prompted
          (fst (getValidStringInput_cout "Enter your gender (male/female): "
                  isValidGender (genderEntries cin))) ++
        map Prompted
          (fst (getValidInput_cout "Enter your height (in meters): "
                  (lit 0.5) (lit 2.5) (heightEntries cin))) ++
        map Prompted
          (fst (getValidInput_cout "Enter your weight (in kg): "
                  (lit 20.0) (lit 300.0) (weightEntries cin))) ++
        map Prompted
          (fst (getValidStringInput_cout
                  "Enter your activity level (sedentary, lightly active, moderately active, very active): "
                  isValidActivityLevel (activityLevelEntries cin))) ++
        map Prompted_int
          (fst (getValidInput_cout "Enter your hours of sleep per night: "
                  0%Z 24%Z (sleepHoursEntries cin))) ++
        map Prompted
          (fst (getValidStringInput_cout
                  "Enter your lifestyle habits (smoking, alcohol, none): "
                  isValidLifestyle (lifestyleEntries cin))) ++
        map Prompted
          (fst (getValidStringInput_cout
                  "Enter your dietary preferences (vegetarian, vegan, none): "
                  isValidDietaryPref (dietaryPrefEntries cin)))) ++
       map Cout out ++
       map Cout [ NL;
                  Str "Thank you for using Wellness Bot! Stay healthy!"%string;
                  NL ],
       Some 0%Z).
Proof.
  intros Hp.
  destruct (displayResults (calculateMetrics p)) as [out|] eqn:Hout.
  - exists out. split; [reflexivity|].
    unfold main.
    rewrite (bind_cout_Some _ _ (a:=tt)) by reflexivity.
    cbn beta.
    rewrite (@collectUserData_cout_collected cin p Hp).
    rewrite (bind_cout_Some _ _ (a:=p)) by reflexivity.
    cbn beta. rewrite Hout.
    rewrite (bind_cout_Some _ _ (a:=tt)) by reflexivity.
    cbn [fst snd]. reflexivity.
  - exfalso. apply displayResults_calculateMetrics in Hout.
    apply dailyCalories_calculateMetrics in Hout. destruct Hout as [_ Hnot].
    apply collectUserData_validated in Hp.
    destruct Hp as (_ & _ & _ & _ & Hl & _). exact (Hnot Hl).
Qed.

(** X11: [calculateMetrics] changes none of the eight members that were
    typed in, and what it computes does not depend on the [bmi] and [bmr]
    the profile held before. *)
Theorem calculateMetrics_frame (p : UserProfile) :
  age (calculateMetrics p) = age p /\
  gender (calculateMetrics p) = gender p /\
  height (calculateMetrics p) = height p /\
  weight (calculateMetrics p) = weight p /\
  activityLevel (calculateMetrics p) = activityLevel p /\
  sleepHours (calculateMetrics p) = sleepHours p /\
  lifestyle (calculateMetrics p) = lifestyle p /\
  dietaryPref (calculateMetrics p) = dietaryPref p /\
  (forall x y : option T,
      calculateMetrics (set_bmr (set_bmi p x) y) = calculateMetrics p).
Proof.
  assert (Hkeep : forall q : UserProfile,
             calculateMetrics q
             = set_dailyCalories
                 (set_bmr (set_bmi q (bmi (calculateMetrics q)))
                          (bmr (calculateMetrics q)))
                 (dailyCalories (calculateMetrics q))).
  { intros q. unfold calculateMetrics. rewrite assignDailyCalories_find.
    destruct (find _ _); destruct q as [ag g ht wt lv sl lf dp bm br dc];
      simpl; destruct (g =? "male")%string; reflexivity. }
  repeat split; try (rewrite (Hkeep p); reflexivity).
Qed.

(** X12: running [calculateMetrics] a second time changes nothing. *)
Theorem calculateMetrics_idempotent (p : UserProfile) :
  calculateMetrics (calculateMetrics p) = calculateMetrics p.
Proof.
  destruct p as [ag g ht wt lv sl lf dp bm br dc].
  unfold calculateMetrics, ACTIVITY_MULTIPLIERS, assignDailyCalories.
  cbn [gender set_bmi set_bmr set_dailyCalories weight height age
       activityLevel sleepHours lifestyle dietaryPref bmi bmr dailyCalories
       level multiplier].
  destruct (g =? "male")%string eqn:Hg;
    cbn [gender set_bmi set_bmr set_dailyCalories weight height age
         activityLevel sleepHours lifestyle dietaryPref bmi bmr dailyCalories
         level multiplier];
    repeat match goal with
           | |- context [(?s =? lv)%string] =>
               destruct (s =? lv)%string eqn:?;
               cbn [gender set_bmi set_bmr set_dailyCalories weight height age
                    activityLevel sleepHours lifestyle dietaryPref bmi bmr
                    dailyCalories level multiplier option_map]
           end;
    rewrite ?Hg;
    cbn [gender set_bmi set_bmr set_dailyCalories weight height age
         activityLevel sleepHours lifestyle dietaryPref bmi bmr dailyCalories
         level multiplier option_map];
    repeat match goal with H : (_ =? lv)%string = _ |- _ => rewrite H end;
    reflexivity.
Qed.

(** X13: the words that [isValidActivityLevel] accepts, once lowercased, are
    exactly the levels of [ACTIVITY_MULTIPLIERS], and no level is listed
    twice there: the loop of [calculateMetrics] has one entry to find. *)
Theorem activity_levels_are_table_keys :
  (forall s : string,
      isValidActivityLevel s = true <->
      In (Str.lowercase s) (map level ACTIVITY_MULTIPLIERS)) /\
  NoDup (map level ACTIVITY_MULTIPLIERS).
Proof.
  split.
  - intros s. apply isValidActivityLevel_iff.
  - simpl. repeat constructor; simpl; intuition discriminate.
Qed.

(** X14: for a profile that [collectUserData] returned, [calculateMetrics]
    always assigns [dailyCalories]: the stored [bmr] times the multiplier
    of the profile's level. *)
Theorem collected_dailyCalories (cin : Entries) (p : UserProfile) :
  collectUserData cin = Some p ->
  exists (b m : T),
    bmr (calculateMetrics p) = Some b /\
    dailyCalories (calculateMetrics p) = Some (b * m) /\
    In (activityLevel p, m)
       [ ("sedentary"%string, lit 1.2); ("lightly active"%string, lit 1.375);
         ("moderately active"%string, lit 1.55);
         ("very active"%string, lit 1.725) ].
Proof.
  intros Hp. apply collectUserData_validated in Hp.
  destruct Hp as (_ & _ & _ & _ & Hl & _).
  exists (selected_bmr p).
  assert (Hm : exists m,
             In (activityLevel p, m)
                [ ("sedentary"%string, lit 1.2);
                  ("lightly active"%string, lit 1.375);
                  ("moderately active"%string, lit 1.55);
                  ("very active"%string, lit 1.725) ]).
  { simpl in Hl. destruct Hl as [E|[E|[E|[E|[]]]]]; rewrite <- E;
      eexists; simpl; eauto 6. }
  destruct Hm as [m Hm]. exists m.
  split; [apply calculateMetrics_bmr|].
  split; [now apply calculateMetrics_matched|exact Hm].
Qed.

(** X15: for a profile that [collectUserData] returned, the [else] branch
    of the gender test is taken for "female" only: either the stored gender
    is "male" and the stored [bmr] is
    88.362 + (13.397 * weight) + (4.799 * height * 100) - (5.677 * age),
    or the stored gender is "female" and the stored [bmr] is
    447.593 + (9.247 * weight) + (3.098 * height * 100) - (4.330 * age). *)
Theorem collected_bmr_by_gender (cin : Entries) (p : UserProfile) :
  collectUserData cin = Some p ->
  (gender p = "male"%string /\
   bmr (calculateMetrics p)
   = Some (lit 88.362 + (lit 13.397 * weight p) +
           (lit 4.799 * height p * ofint 100) -
           (lit 5.677 * ofint (age p)))) \/
  (gender p = "female"%string /\
   bmr (calculateMetrics p)
   = Some (lit 447.593 + (lit 9.247 * weight p) +
           (lit 3.098 * height p * ofint 100) -
           (lit 4.330 * ofint (age p)))).
Proof.
  intros Hp. apply collectUserData_validated in Hp.
  destruct Hp as (_ & Hg & _).
  rewrite calculateMetrics_bmr. unfold selected_bmr.
  destruct Hg as [Hg|Hg]; rewrite Hg; [left|right]; split; reflexivity.
Qed.

(** X16: the lifestyle section is left out exactly for "none"; it is the
    heading alone, with no advice under it, exactly for a lifestyle that is
    none of "none", "smoking" and "alcohol"; and that never happens for a
    profile that [collectUserData] returned. *)
Theorem lifestyle_section :
  (forall s : string,
      lifestyleRecommendations (T:=T) s = [] <-> s = "none"%string) /\
  (forall s : string,
      lifestyleRecommendations (T:=T) s
      = [ NL; Str "Lifestyle Recommendations:"%string; NL ] <->
      ~ In s ["none"; "smoking"; "alcohol"]%string) /\
  (forall (cin : Entries) (p : UserProfile),
      collectUserData cin = Some p ->
      lifestyleRecommendations (T:=T) (lifestyle p)
      <> [ NL; Str "Lifestyle Recommendations:"%string; NL ]).
Proof.
  assert (Hhead : forall s : string,
             lifestyleRecommendations (T:=T) s
             = [ NL; Str "Lifestyle Recommendations:"%string; NL ] <->
             ~ In s ["none"; "smoking"; "alcohol"]%string).
  { intros s. unfold lifestyleRecommendations. simpl In.
    destruct (String.eqb_spec s "none") as [->|Hn]; simpl.
    - split; [discriminate|]. intros Hnot. exfalso. apply Hnot. auto.
    - destruct (String.eqb_spec s "smoking") as [->|Hs]; simpl.
      + split; [discriminate|]. intros Hnot. exfalso. apply Hnot. auto.
      + destruct (String.eqb_spec s "alcohol") as [->|Ha]; simpl.
        * split; [discriminate|]. intros Hnot. exfalso. apply Hnot. auto.
        * split; [|reflexivity]. intros _ [E|[E|[E|[]]]]; congruence. }
  split; [|split].
  - intros s. unfold lifestyleRecommendations.
    destruct (String.eqb_spec s "none") as [->|Hn]; simpl.
    + split; reflexivity.
    + split; [discriminate|]. intros E. contradiction.
  - exact Hhead.
  - intros cin p Hp Hout. apply Hhead in Hout. apply Hout.
    apply collectUserData_validated in Hp.
    destruct Hp as (_ & _ & _ & _ & _ & _ & Hls & _).
    simpl in Hls. simpl. tauto.
Qed.

(** The recommendations are text only. *)
Lemma printed_text (fmt : ios_format) (l l' : list (token (T:=T))) :
  forallb is_text l = true -> printed fmt (l ++ l') = printed fmt l'.
Proof.
  induction l as [|t l IH]; simpl; [reflexivity|].
  destruct t; simpl; try discriminate; exact IH.
Qed.

Lemma provideRecommendations_text (p : UserProfile) (recs : list token) :
  provideRecommendations p = Some recs -> forallb is_text recs = true.
Proof.
  unfold provideRecommendations, bind.
  destruct (bmi p) as [b|]; [|discriminate]. intros [= <-].
  unfold exerciseRecommendations, sleepRecommendations,
    nutritionalRecommendations, lifestyleRecommendations.
  destruct (geb b _), (sleepHours p <? 7)%Z,
    (dietaryPref p =? "vegetarian")%string, (dietaryPref p =? "vegan")%string,
    (lifestyle p =? "none")%string, (lifestyle p =? "smoking")%string,
    (lifestyle p =? "alcohol")%string; reflexivity.
Qed.

(** X17: the report writes six doubles and no more: [bmi], [bmr],
    [dailyCalories] and the three gram values, in that order; and each of
    them is written in fixed notation with two decimals, whatever the state
    of the stream before, although [fixed] and [setprecision(2)] are
    inserted before [bmi] and [bmr] only. *)
Theorem displayResults_two_decimals (p : UserProfile) (out : list token)
  (fmt : ios_format) :
  displayResults p = Some out ->
  exists b r c : T,
    bmi p = Some b /\ bmr p = Some r /\ dailyCalories p = Some c /\
    printed fmt out
    = map (fun x => (x, {| floatfield_fixed := true; precision := 2 |}))
          [ b; r; c; carbsGrams MacroRatio_default c;
            proteinGrams MacroRatio_default c; fatGrams MacroRatio_default c ].
Proof.
  unfold displayResults, bind.
  destruct (bmi p) as [b|] eqn:Hb; [|discriminate].
  destruct (bmr p) as [r|]; [|discriminate].
  destruct (dailyCalories p) as [c|]; [|discriminate].
  destruct (provideRecommendations p) as [recs|] eqn:Hrecs; [|discriminate].
  intros [= <-]. exists b, r, c. repeat split.
  apply provideRecommendations_text in Hrecs.
  cbn [printed app floatfield_fixed precision map].
  rewrite <- (app_nil_r recs).
  rewrite (@printed_text {| floatfield_fixed := true; precision := 2 |}
             recs [] Hrecs).
  reflexivity.
Qed.

End SessionFacts.

Lemma collected_profile_validated_witness :
  (1 <= age (Samples.scenario (T:=float)) <= 120)%Z /\
  In (activityLevel (Samples.scenario (T:=float)))
     ["sedentary"; "lightly active"; "moderately active"; "very active"]%string.
Proof.
  assert (Hc : collectUserData (T:=float) Samples.scenarioEntries
               = Some Samples.scenario) by (vm_compute; reflexivity).
  destruct (@collected_profile_validated float binary64 _ _ Hc)
    as (Ha & _ & _ & _ & Hl & _).
  split; assumption.
Defined.

Lemma main_reports_witness :
  exists out,
    displayResults (calculateMetrics (Samples.scenario (T:=float)))
    = Some out /\
    main (T:=float) Samples.scenarioEntries
    = (map Cout [ Str "Welcome to the Wellness Bot!"%string; NL;
                  Str "============================"%string; NL; NL ] ++
       [ Prompted_int (Text "Enter your age: ") ] ++
       map Prompted_int (invalidInput 1%Z 120%Z) ++
       [ Prompted_int (Text "Enter your age: ") ] ++
       map Prompted_int (invalidInput 1%Z 120%Z) ++
       [ Prompted_int (Text "Enter your age: ");
         Prompted (Text "Enter your gender (male/female): ") ] ++
       map Prompted tryAgain ++
       [ Prompted (Text "Enter your gender (male/female): ");
         Prompted (Text "Enter your height (in meters): ") ] ++
       map Prompted (invalidInput (lit 0.5) (lit 2.5)) ++
       [ Prompted (Text "Enter your height (in meters): ");
         Prompted (Text "Enter your weight (in kg): ");
         Prompted (Text "Enter your activity level (sedentary, lightly active, moderately active, very active): ");
         Prompted_int (Text "Enter your hours of sleep per night: ") ] ++
       map Prompted_int (invalidInput 0%Z 24%Z) ++
       [ Prompted_int (Text "Enter your hours of sleep per night: ");
         Prompted (Text "Enter your lifestyle habits (smoking, alcohol, none): ");
         Prompted (Text "Enter your dietary preferences (vegetarian, vegan, none): ") ] ++
       map Cout out ++
       map Cout [ NL;
                  Str "Thank you for using Wellness Bot! Stay healthy!"%string;
                  NL ],
       Some 0%Z).
Proof.
  assert (Hc : collectUserData (T:=float) Samples.scenarioEntries
               = Some Samples.scenario) by (vm_compute; reflexivity).
  destruct (@main_reports float binary64 _ _ Hc) as (out & Hout & Hmain).
  exists out. split; [exact Hout|]. rewrite Hmain. reflexivity.
Defined.

Lemma collected_dailyCalories_witness :
  exists (b m : float),
    bmr (calculateMetrics (Samples.scenario (T:=float))) = Some b /\
    dailyCalories (calculateMetrics (Samples.scenario (T:=float)))
    = Some (b * m)%D /\
    In (activityLevel (Samples.scenario (T:=float)), m)
       [ ("sedentary"%string, lit 1.2); ("lightly active"%string, lit 1.375);
         ("moderately active"%string, lit 1.55);
         ("very active"%string, lit 1.725) ].
Proof.
  assert (Hc : collectUserData (T:=float) Samples.scenarioEntries
               = Some Samples.scenario) by (vm_compute; reflexivity).
  exact (@collected_dailyCalories float binary64 _ _ Hc).
Defined.

Lemma collected_bmr_by_gender_witness :
  gender (Samples.scenario (T:=float)) = "male"%string /\
  bmr (calculateMetrics (Samples.scenario (T:=float)))
  = Some 0x1.c5c20c49ba5e4p+10%float.
Proof.
  assert (Hc : collectUserData (T:=float) Samples.scenarioEntries
               = Some Samples.scenario) by (vm_compute; reflexivity).
  destruct (@collected_bmr_by_gender float binary64 _ _ Hc)
    as [[Hg Hb]|[Hg Hb]].
  - split; [exact Hg|]. rewrite Hb. reflexivity.
  - exfalso. revert Hg. simpl. discriminate.
Defined.

Lemma displayResults_two_decimals_witness :
  exists out,
    displayResults (calculateMetrics (Samples.scenario (T:=float)))
    = Some out /\
    map snd (printed ios_default out)
    = repeat {| floatfield_fixed := true; precision := 2 |} 6.
Proof.
  destruct (displayResults (calculateMetrics (@Samples.scenario float binary64)))
    as [out|] eqn:Hout.
  - exists out. split; [reflexivity|].
    destruct (@displayResults_two_decimals float binary64 _ out ios_default
                Hout) as (b & r & c & _ & _ & _ & Hpr).
    rewrite Hpr. reflexivity.
  - exfalso. vm_compute in Hout. discriminate.
Defined.

(** ** binary64: the range of [bmr] *)

Local Open Scope dbl_scope.

(** X18: in binary64, the [bmr] of a profile that [collectUserData]
    returned is a finite double, within 1e-9 of the range from -84.988 to
    5301.535 for "male" and of the range from 267.833 to 3991.863 for
    "female"; and the male value can be below zero: at 120 years, 0.5 m and
    20 kg, entries that the prompts accept, the stored [bmr] and the stored
    [dailyCalories] are both below zero. *)
Theorem collected_bmr_range :
  (forall (libm_pow : float -> Z -> float),
      let D := binary64_with libm_pow in
      forall (cin : Entries) (p : UserProfile (T:=float)),
        collectUserData cin = Some p ->
        exists r : float,
          bmr (calculateMetrics p) = Some r /\
          isfinite r = true /\
          (gender p = "male"%string ->
           (-84.988 - (1 # 1000000000) <= toQ r
            <= 5301.535 + (1 # 1000000000))%Q) /\
          (gender p = "female"%string ->
           (267.833 - (1 # 1000000000) <= toQ r
            <= 3991.863 + (1 # 1000000000))%Q)) /\
  (forall (libm_pow : float -> Z -> float),
      let D := binary64_with libm_pow in
      collectUserData Samples.frailEntries = Some Samples.frail /\
      exists r c : float,
        bmr (calculateMetrics Samples.frail) = Some r /\
        dailyCalories (calculateMetrics Samples.frail) = Some c /\
        (r <? lit 0) = true /\ (c <? lit 0) = true).
Proof.
  split.
  - intros libm_pow D cin p Hp.
    destruct (@collected_bmr_accuracy libm_pow cin p Hp)
      as (Hm & Hf & Hshape).
    apply collectUserData_validated in Hp.
    destruct Hp as (Ha & _ & [Hh0 Hh1] & [Hw0 Hw1] & _).
    destruct (@BmrForms.validated_values (weight p) (height p)
                Hw0 Hw1 Hh0 Hh1) as ([HW0 HW1] & [HH0 HH1]).
    destruct Ha as [Ha0 Ha1]. rewrite Zle_Qle in Ha0, Ha1.
    exists (selected_bmr p). split; [apply calculateMetrics_bmr|].
    split.
    { unfold isfinite.
      destruct Hshape as [E|(s & M & E & HE & _)];
        [exact (f_equal SFis_finite E)|exact (f_equal SFis_finite HE)]. }
    set (W := toQ (weight p)) in *. set (H := toQ (height p)) in *.
    set (A := inject_Z (age p)) in *.
    change (inject_Z 1) with 1%Q in Ha0. change (inject_Z 120) with 120%Q in Ha1.
    set (R := toQ (selected_bmr p)).
    split; intros Hg.
    + specialize (Hm Hg). change (toQ (selected_bmr p)) with R in Hm.
      apply Qabs_Qle_condition in Hm. split; lra.
    + specialize (Hf Hg). change (toQ (selected_bmr p)) with R in Hf.
      apply Qabs_Qle_condition in Hf. split; lra.
  - intros libm_pow D. split; [reflexivity|].
    exists (selected_bmr Samples.frail),
           (selected_bmr Samples.frail * lit 1.2).
    split; [apply calculateMetrics_bmr|].
    split.
    + apply (@calculateMetrics_matched float D Samples.frail (lit 1.2)).
      simpl. auto.
    + split; vm_compute; reflexivity.
Qed.

Local Close Scope dbl_scope.

Lemma collected_bmr_range_witness :
  exists r : float,
    bmr (calculateMetrics (Samples.frail (T:=float))) = Some r /\
    isfinite r = true /\
    (-84.988 - (1 # 1000000000) <= toQ r <= 5301.535 + (1 # 1000000000))%Q.
Proof.
  assert (Hc : collectUserData (T:=float) Samples.frailEntries
               = Some Samples.frail) by (vm_compute; reflexivity).
  destruct (proj1 collected_bmr_range repeated_product _ _ Hc)
    as (r & Hr & Hfin & Hmale & _).
  exists r. split; [exact Hr|]. split; [exact Hfin|].
  apply Hmale. reflexivity.
Defined.

(** The least male value is reached, in exact arithmetic and, as a number
    below zero, in binary64: at 120 years, 0.5 m and 20 kg the program
    reports a negative [bmr] and negative daily calories. *)
Example frail_bmr_negative :
  collectUserData (T:=Q) Samples.frailEntries = Some Samples.frail /\
  (exists r : Q,
      bmr (calculateMetrics (Samples.frail (T:=Q))) = Some r /\
      (r == -84.988)%Q) /\
  collectUserData (T:=float) Samples.frailEntries = Some Samples.frail /\
  (exists r c : float,
      bmr (calculateMetrics (Samples.frail (T:=float))) = Some r /\
      dailyCalories (calculateMetrics (Samples.frail (T:=float))) = Some c /\
      (r <? lit 0)%D = true /\ (c <? lit 0)%D = true).
Proof.
  split; [vm_compute; reflexivity|].
  split; [eexists; split; [reflexivity|vm_compute; reflexivity]|].
  split; [vm_compute; reflexivity|].
  eexists _, _. repeat split; vm_compute; reflexivity.
Qed.

(** X21: with finite bounds, the range test of [getValidInput<double>]
    accepts exactly the doubles that are neither NaN nor infinite and whose
    value lies between the values of the bounds, both included; so does
    every value the loop returns. *)
Theorem getValidInput_double_range (lo hi v : float) :
  isfinite lo = true -> isfinite hi = true ->
  (inRange lo hi (Some v) = true <->
   isfinite v = true /\ (toQ lo <= toQ v <= toQ hi)%Q) /\
  (forall cin rest,
      getValidInput lo hi cin = Some (v, rest) ->
      isfinite v = true /\ (toQ lo <= toQ v <= toQ hi)%Q).
Proof.
  intros Hlo Hhi.
  assert (Hiff : inRange lo hi (Some v) = true <->
                 isfinite v = true /\ (toQ lo <= toQ v <= toQ hi)%Q).
  { unfold inRange, geb. simpl. rewrite andb_true_iff. split.
    - intros [H0 H1].
      pose proof (@Binary64Order.between_isfinite lo hi v Hlo Hhi H0 H1) as Hv.
      split; [exact Hv|].
      split; apply Binary64Order.leb_toQ; assumption.
    - intros (Hv & H0 & H1).
      split; apply Binary64Order.leb_toQ; assumption. }
  split; [exact Hiff|].
  intros cin rest Hres. apply Hiff.
  apply getValidInput_inRange in Hres. unfold inRange.
  destruct Hres as [-> ->]. reflexivity.
Qed.

Lemma getValidInput_double_range_witness :
  isfinite (lit (T:=float) 1.80) = true /\
  (1 # 2 <= toQ (lit 1.80) <= 5 # 2)%Q.
Proof.
  destruct (@getValidInput_double_range (@lit float binary64 0.5)
              (@lit float binary64 2.5) (@lit float binary64 1.80)
              ltac:(vm_compute; reflexivity) ltac:(vm_compute; reflexivity))
    as [_ Hloop].
  destruct (Hloop [Some (@lit float binary64 180);
                   Some (@lit float binary64 1.80)] []
              ltac:(vm_compute; reflexivity)) as [Hfin [H0 H1]].
  split; [exact Hfin|]. split.
  - apply Qle_trans with (toQ (lit 0.5)); [vm_compute; discriminate|exact H0].
  - apply Qle_trans with (toQ (lit 2.5)); [exact H1|vm_compute; discriminate].
Defined.

(** X22: in binary64, whatever faithful [pow] the library has, the [bmi]
    of a profile that [collectUserData] returned is a finite double above
    zero, between 3.2 and 1200 up to 1e-9. *)
Theorem binary64_collected_bmi_range (libm_pow : float -> Z -> float)
  (cin : Entries) (p : UserProfile (T:=float)) :
  faithful_square libm_pow ->
  let D := binary64_with libm_pow in
  collectUserData cin = Some p ->
  exists b : float,
    bmi (calculateMetrics p) = Some b /\
    is_finite_nonzero b = true /\
    (3.2 - (1 # 1000000000) <= toQ b <= 1200 + (1 # 1000000000))%Q.
Proof.
  intros Hpow D Hp. apply collectUserData_validated in Hp.
  destruct Hp as (_ & _ & [Hh0 Hh1] & [Hw0 Hw1] & _).
  eexists. split; [apply calculateMetrics_bmi|].
  pose proof (@BmiAccuracy.bmi_accuracy_with libm_pow Hpow (weight p)
                (height p) Hw0 Hw1 Hh0 Hh1) as Hacc.
  change (weight p / pow (height p) 2)%D
    with (PrimFloat.div (weight p) (libm_pow (height p) 2%Z)).
  set (b := PrimFloat.div (weight p) (libm_pow (height p) 2%Z)) in *.
  assert (Hhf : isfinite (height p) = true).
  { apply (@Binary64Order.between_isfinite (lit 0.5) (lit 2.5));
      try reflexivity; assumption. }
  assert (Hwf : isfinite (weight p) = true).
  { apply (@Binary64Order.between_isfinite (lit 20.0) (lit 300.0));
      try reflexivity; assumption. }
  apply Binary64Order.leb_toQ in Hh0, Hh1, Hw0, Hw1;
    try assumption; try reflexivity.
  assert (E05 : (toQ (lit 0.5) == 1 # 2)%Q) by (vm_compute; reflexivity).
  assert (E25 : (toQ (lit 2.5) == 5 # 2)%Q) by (vm_compute; reflexivity).
  assert (E20 : (toQ (lit 20.0) == 20)%Q) by (vm_compute; reflexivity).
  assert (E300 : (toQ (lit 300.0) == 300)%Q) by (vm_compute; reflexivity).
  rewrite E05 in Hh0. rewrite E25 in Hh1. rewrite E20 in Hw0.
  rewrite E300 in Hw1.
  set (W := toQ (weight p)) in *. set (Hq := toQ (height p)) in *.
  assert (Hsq : (1 # 4 <= Hq * Hq <= 25 # 4)%Q) by nra.
  assert (Hy : (3.2 <= W / (Hq * Hq) <= 1200)%Q).
  { split.
    - apply Qle_shift_div_l; [lra|nra].
    - apply Qle_shift_div_r; [lra|nra]. }
  apply Qabs_Qle_condition in Hacc.
  assert (Hb : (3.2 - (1 # 1000000000) <= toQ b <= 1200 + (1 # 1000000000))%Q)
    by (split; lra).
  split; [|exact Hb].
  assert (Hpos : (0 < toQ b)%Q) by lra.
  destruct (BmiAccuracy.SF2Q_pos_finite _ Hpos) as (M & E & Eb).
  unfold is_finite_nonzero. now rewrite Eb.
Qed.

Lemma binary64_collected_bmi_range_witness :
  exists b : float,
    bmi (calculateMetrics (Samples.scenario (T:=float))) = Some b /\
    is_finite_nonzero b = true /\
    (3.2 - (1 # 1000000000) <= toQ b <= 1200 + (1 # 1000000000))%Q.
Proof.
  assert (Hc : collectUserData (T:=float) Samples.scenarioEntries
               = Some Samples.scenario) by (vm_compute; reflexivity).
  exact (@binary64_collected_bmi_range repeated_product _ _
           BmiAccuracy.repeated_product_faithful Hc).
Defined.

(** X23: the report calls a [bmi] "Obese" and recommends the balanced
    routine exactly when the [bmi] is NaN: a NaN falls through every test of
    the category chain and fails the test of the exercise rule, and no
    number gets that pairing. *)
Theorem nan_bmi_obese_balanced (b : float) :
  (bmiCategory b = "Category: Obese"%string /\
   exerciseRecommendations b = balancedRoutineBlock) <->
  isnan b = true.
Proof.
  split.
  - intros [Hcat Hex]. destruct (isnan b) eqn:Hb; [reflexivity|]. exfalso.
    pose proof (proj2 (@number_exercise_category repeated_product b Hb)
                  (or_intror Hcat)) as Hge.
    apply (proj1 (@exerciseRecommendations_geb float binary64 b)) in Hge.
    rewrite Hge in Hex. discriminate Hex.
  - intros Hb.
    destruct (@nan_falls_through repeated_product b Hb) as (_ & Hcat & Hex).
    split; assumption.
Qed.

Lemma nan_bmi_obese_balanced_witness :
  isnan (lit 0 / pow (lit (T:=float) 0) 2)%D = true /\
  ~ (bmiCategory (T:=float) (lit 31) = "Category: Obese"%string /\
     exerciseRecommendations (T:=float) (lit 31) = balancedRoutineBlock).
Proof.
  split.
  - apply (proj1 (nan_bmi_obese_balanced (lit 0 / pow (lit (T:=float) 0) 2)%D)).
    split; reflexivity.
  - intros H. apply (proj1 (nan_bmi_obese_balanced (lit 31))) in H.
    vm_compute in H. discriminate H.
Defined.
